(** * Habits-App: analytics, reminder dispatch and ledger services

    A shallow embedding of the backend services of the Habits application
    (analytics.service.ts, push-notification.service.ts,
    notification.controller.ts, completion.service.ts,
    completion.controller.ts, skip.service.ts, habit.service.ts) together
    with the properties of the streak calculator, the statistics, the
    reminder matcher and dispatcher, the subscription registry and its
    handlers, and the ledger of completions and skips.

    Conventions of the embedding.
    - A JavaScript [Date] is its time value: milliseconds since the epoch, in
      [Z].  The time zone of the host is a parameter ([JsDate.Zone]): the
      offset of local time from UTC as a function of the instant, so that
      zones with daylight-saving time are covered; [fixedOffset tz] is a
      zone whose offset never changes.
    - The calendar fields of a [Date] ([getFullYear], [getMonth], [getDate])
      and [setDate] follow the ECMAScript abstract operations ([Day],
      [YearFromTime], [MakeDay], ...), on the proleptic Gregorian calendar.
    - The [date] columns of the ledger are calendar dates ([DATE]): Prisma
      returns such a value as the UTC midnight of the date, and compares a
      [Date] with the column by its UTC date ([Prisma.toDate]).
    - JavaScript numbers that only ever hold counts or time values are [Z];
      the completion rate, which is a genuine binary64 computation, is a
      primitive float.
    - The database is a record of tables (lists of rows); Prisma calls,
      the web-push transport and the console are operations of a small
      state-and-exception monad.  A service call runs on its own: no other
      writer is interleaved with it. *)

From Stdlib Require Import ZArith List Lia Bool String Ascii.
From Stdlib Require Import Sorted FinFun.
From Stdlib Require Import DecimalString DecimalZ.
From Stdlib Require Import PrimFloat Uint63.
Import ListNotations.

Local Open Scope Z_scope.

(* ================================================================== *)
(** * JavaScript strings and sets *)

Module Js.

(** [String(n)] for an integral number. *)
Definition String_ (n : Z) : string := NilEmpty.string_of_int (Z.to_int n).

(** [s.padStart(2, '0')]. *)
Definition padStart2 (s : string) : string :=
  match String.length s with
  | O => "00"%string
  | S O => String "0"%char s
  | _ => s
  end.

(** [new Set(array)] keeps the first occurrence of every value, in insertion
    order; [Array.from(set)] lists them in that order. *)
Section SetOf.
Context {A : Type} (eqb : A -> A -> bool).

Definition has (s : list A) (x : A) : bool := existsb (eqb x) s.

Definition add (s : list A) (x : A) : list A :=
  if has s x then s else s ++ [x].

Definition newSet (l : list A) : list A := fold_left add l [].
End SetOf.

(** [array.sort((a, b) => a - b)] on numbers: a stable ascending sort. *)
Fixpoint insertAsc (x : Z) (l : list Z) : list Z :=
  match l with
  | [] => [x]
  | y :: r => if x <? y then x :: y :: r else y :: insertAsc x r
  end.

Definition sortAsc (l : list Z) : list Z :=
  fold_left (fun acc x => insertAsc x acc) l [].

End Js.

(* ================================================================== *)
(** * Dates *)

Module JsDate.

Definition msPerDay : Z := 1000 * 60 * 60 * 24.

(** ** Calendar arithmetic on day numbers (day 0 is 1970-01-01) *)

(** Civil date [(year, month 1..12, day 1..31)] of a day number. *)
Definition civilFromDays (z : Z) : Z * Z * Z :=
  let z := z + 719468 in
  let era := z / 146097 in
  let doe := z mod 146097 in
  let yoe := (doe - doe / 1460 + doe / 36524 - doe / 146096) / 365 in
  let y := yoe + era * 400 in
  let doy := doe - (365 * yoe + yoe / 4 - yoe / 100) in
  let mp := (5 * doy + 2) / 153 in
  let d := doy - (153 * mp + 2) / 5 + 1 in
  let m := if mp <? 10 then mp + 3 else mp - 9 in
  (if m <=? 2 then y + 1 else y, m, d).

(** Day number of a civil date; [d] may lie outside the month. *)
Definition daysFromCivil (y m d : Z) : Z :=
  let y := if m <=? 2 then y - 1 else y in
  let era := y / 400 in
  let yoe := y mod 400 in
  let doy := (153 * (if 2 <? m then m - 3 else m + 9) + 2) / 5 + d - 1 in
  let doe := yoe * 365 + yoe / 4 - yoe / 100 + doy in
  era * 146097 + doe - 719468.

(** ** ECMAScript abstract operations on time values *)

Definition Day (t : Z) : Z := t / msPerDay.
Definition TimeWithinDay (t : Z) : Z := t mod msPerDay.
Definition YearFromTime (t : Z) : Z := fst (fst (civilFromDays (Day t))).
(** Months are numbered from 0. *)
Definition MonthFromTime (t : Z) : Z := snd (fst (civilFromDays (Day t))) - 1.
Definition DateFromTime (t : Z) : Z := snd (civilFromDays (Day t)).
Definition HourFromTime (t : Z) : Z := (t / (1000 * 60 * 60)) mod 24.
Definition MinFromTime (t : Z) : Z := (t / (1000 * 60)) mod 60.

Definition MakeTime (hour min sec ms : Z) : Z :=
  ((hour * 60 + min) * 60 + sec) * 1000 + ms.
Definition MakeDay (year month date : Z) : Z :=
  daysFromCivil (year + month / 12) (month mod 12 + 1) 1 + date - 1.
Definition MakeDate (day time : Z) : Z := day * msPerDay + time.

(** ** The time zone of the host *)

(** The offset of local time from UTC, in milliseconds: [offsetAtUTC t] is
    [LocalTZA(t, true)], the offset in force at the instant [t], and
    [offsetAtLocal t] is [LocalTZA(t, false)], the offset by which the local
    time [t] is read (ECMAScript 21.4.1).  Where the clock changes, a local
    time that is skipped or shown twice is read with the offset before the
    change. *)
Record Zone := mkZone {
  offsetAtUTC : Z -> Z;
  offsetAtLocal : Z -> Z
}.

(** A zone whose offset never changes (no daylight-saving time).  An
    offset [tz : Z] stands for this zone wherever a zone is expected. *)
Definition fixedOffset (tz : Z) : Zone := mkZone (fun _ => tz) (fun _ => tz).
Coercion fixedOffset : Z >-> Zone.

(** ** Methods of [Date] on a host in the zone [zone] *)

Section Zone.
Variable zone : Zone.

Definition LocalTime (t : Z) : Z := t + offsetAtUTC zone t.
Definition UTC (t : Z) : Z := t - offsetAtLocal zone t.

Definition getFullYear (t : Z) : Z := YearFromTime (LocalTime t).
Definition getMonth (t : Z) : Z := MonthFromTime (LocalTime t).
Definition getDate (t : Z) : Z := DateFromTime (LocalTime t).
Definition getHours (t : Z) : Z := HourFromTime (LocalTime t).
Definition getMinutes (t : Z) : Z := MinFromTime (LocalTime t).
Definition getTime (t : Z) : Z := t.

(** [date.setHours(h, m, s, ms)] *)
Definition setHours (t : Z) (h m s ms : Z) : Z :=
  UTC (MakeDate (Day (LocalTime t)) (MakeTime h m s ms)).

(** [date.setDate(dt)] *)
Definition setDate (t : Z) (dt : Z) : Z :=
  let lt := LocalTime t in
  UTC (MakeDate (MakeDay (YearFromTime lt) (MonthFromTime lt) dt)
                (TimeWithinDay lt)).

(** The template
    [`${d.getFullYear()}-${String(d.getMonth() + 1).padStart(2, '0')}-${String(d.getDate()).padStart(2, '0')}`]. *)
Definition dateStr (t : Z) : string :=
  (Js.String_ (getFullYear t) ++ "-"
     ++ Js.padStart2 (Js.String_ (getMonth t + 1)) ++ "-"
     ++ Js.padStart2 (Js.String_ (getDate t)))%string.

(** date-fns [format(d, 'HH:mm')]. *)
Definition formatHHmm (t : Z) : string :=
  (Js.padStart2 (Js.String_ (getHours t)) ++ ":"
     ++ Js.padStart2 (Js.String_ (getMinutes t)))%string.

(** [date.setFullYear(year, month, dt)] *)
Definition setFullYear (t : Z) (year month dt : Z) : Z :=
  UTC (MakeDate (MakeDay year month dt) (TimeWithinDay (LocalTime t))).

(** date-fns [startOfDay], [startOfToday()] and [startOfTomorrow()] at
    the instant [now]; the last one is
    [date = new Date(0); date.setFullYear(year, month, day + 1); date.setHours(0, 0, 0, 0)]
    on the local fields of [now]. *)
Definition startOfDay (t : Z) : Z := setHours t 0 0 0 0.
Definition startOfToday (now : Z) : Z := startOfDay now.
Definition startOfTomorrow (now : Z) : Z :=
  let year := getFullYear now in
  let month := getMonth now in
  let day := getDate now in
  let date := 0 in
  let date := setFullYear date year month (day + 1) in
  setHours date 0 0 0 0.

(** The local calendar day of an instant, as a day number. *)
Definition localDay (t : Z) : Z := Day (LocalTime t).
End Zone.

End JsDate.

(* ================================================================== *)
(** * Rows of the database (Prisma models) *)

(** Columns that none of the embedded functions reads (descriptions,
    categories, creation stamps) are left out.  A date column holds the time
    value Prisma returns for it. *)

Record Habit := mkHabit {
  h_id : string;
  h_userId : string;
  h_name : string;
  h_reminderTime : option string
}.

Record HabitCompletion := mkCompletion {
  hc_id : string;
  hc_habitId : string;
  hc_date : Z;
  hc_duration : option Z;
  hc_notes : option string
}.

Record HabitSkip := mkSkip {
  hs_id : string;
  hs_habitId : string;
  hs_date : Z;
  hs_reason : option string
}.

Record Keys := mkKeys { p256dh : string; auth : string }.

Record NotificationSubscription := mkSubscription {
  ns_id : string;
  ns_userId : string;
  ns_habitId : option string;
  ns_endpoint : string;
  ns_keys : Keys
}.

(* ================================================================== *)
(** * analytics.service.ts *)

Module Analytics.
Import JsDate.

Section Zone.
Variable zone : Zone.

(** The body of the [while (true)] loop of [calculateStreak]; [None] when
    the iteration budget [fuel] is used up before the loop breaks. *)
Fixpoint streakLoop (fuel : nat) (completionDates skipDates : list string)
         (streak : Z) (currentDate : Z) : option Z :=
  match fuel with
  | O => None
  | S fuel' =>
      let dateStr := dateStr zone currentDate in
      if Js.has String.eqb skipDates dateStr then Some streak
      else if Js.has String.eqb completionDates dateStr then
        streakLoop fuel' completionDates skipDates (streak + 1)
                   (setDate zone currentDate (getDate zone currentDate - 1))
      else Some streak
  end.

(** [calculateStreak(completions, skips)] run at the instant [now], with
    an explicit iteration budget for the loop. *)
Definition calculateStreakFuel (fuel : nat) (completions : list HabitCompletion)
           (skips : list HabitSkip) (now : Z) : option Z :=
  if (Z.of_nat (List.length completions) =? 0) then Some 0
  else
    let completionDates :=
      Js.newSet String.eqb (map (fun c => dateStr zone (hc_date c)) completions) in
    let skipDates :=
      Js.newSet String.eqb (map (fun s => dateStr zone (hs_date s)) skips) in
    let today := setHours zone now 0 0 0 0 in
    let streak := 0 in
    let currentDate := today in
    streakLoop fuel completionDates skipDates streak currentDate.

(** The loop visits one more day than it counts, and it counts distinct
    completion dates: a budget of one more than the number of completions
    is never used up (theorem [calculateStreak_terminates]). *)
Definition calculateStreak (completions : list HabitCompletion)
           (skips : list HabitSkip) (now : Z) : option Z :=
  calculateStreakFuel (S (List.length completions)) completions skips now.

(** State of the [for] loop of [calculateLongestStreak]. *)
Record LongestState := mkLS {
  ls_longestStreak : Z;
  ls_currentStreak : Z;
  ls_lastDate : option Z
}.

Definition longestStep (st : LongestState) (date : Z) : LongestState :=
  match ls_lastDate st with
  | None => mkLS (ls_longestStreak st) 1 (Some date)
  | Some lastDate =>
      let daysDiff := (date - lastDate) / (1000 * 60 * 60 * 24) in
      if daysDiff =? 1 then
        mkLS (ls_longestStreak st) (ls_currentStreak st + 1) (Some date)
      else
        mkLS (Z.max (ls_longestStreak st) (ls_currentStreak st)) 1 (Some date)
  end.

Definition calculateLongestStreak (completions : list HabitCompletion)
           (skips : list HabitSkip) : Z :=
  if (Z.of_nat (List.length completions) =? 0) then 0
  else
    let completionDates :=
      Js.newSet Z.eqb
        (map (fun c => getTime (setHours zone (hc_date c) 0 0 0 0)) completions) in
    let skipDates :=
      Js.newSet Z.eqb
        (map (fun s => getTime (setHours zone (hs_date s) 0 0 0 0)) skips) in
    let sortedDates := Js.sortAsc completionDates in
    let st := fold_left longestStep sortedDates (mkLS 0 0 None) in
    Z.max (ls_longestStreak st) (ls_currentStreak st).
End Zone.

(** [Number(n)] for an integral [n]; exact for [|n| < 2 ^ 53], which covers
    every array length. *)
Definition Number_ (n : Z) : float :=
  match n with
  | Z0 => 0%float
  | Zpos _ => PrimFloat.of_uint63 (Uint63.of_Z n)
  | Zneg _ => PrimFloat.opp (PrimFloat.of_uint63 (Uint63.of_Z (- n)))
  end.

Definition two52 : float := 4503599627370496%float.

(** [Math.round]: the nearest integer, ties towards plus infinity; [NaN],
    the infinities and integral values (the zeros included) are returned as
    they are.  Below [2 ^ 52] the nearest-even integer [r] of [|x|] is
    [(|x| + 2 ^ 52) - 2 ^ 52], from which the floor [f] and the fractional
    part follow exactly. *)
Definition Math_round (x : float) : float :=
  if (PrimFloat.is_nan x || PrimFloat.is_infinity x)%bool then x
  else
    let a := PrimFloat.abs x in
    if PrimFloat.leb two52 a then x
    else
      let r := PrimFloat.sub (PrimFloat.add a two52) two52 in
      let f := if PrimFloat.ltb a r then PrimFloat.sub r 1 else r in
      let frac := PrimFloat.sub a f in
      if PrimFloat.eqb frac 0 then x
      else if PrimFloat.ltb 0 x then
        (if PrimFloat.leb 0.5 frac then PrimFloat.add f 1 else f)
      else
        (if PrimFloat.leb frac 0.5 then PrimFloat.opp f
         else PrimFloat.opp (PrimFloat.add f 1)).

(** The [completionRate] field of [getHabitStatistics], from the two
    counts. *)
Definition completionRateOf (totalCompletions totalSkips : Z) : float :=
  let totalAttempts := totalCompletions + totalSkips in
  let completionRate :=
    if 0 <? totalAttempts
    then PrimFloat.mul (PrimFloat.div (Number_ totalCompletions) (Number_ totalAttempts)) 100
    else 0%float in
  PrimFloat.div (Math_round (PrimFloat.mul completionRate 100)) 100.

Record HabitStatistics := mkStats {
  totalCompletions : Z;
  totalSkips : Z;
  totalTime : Z;
  completionRate : float;
  currentStreak : option Z;
  longestStreak : Z
}.

(** The statistics [getHabitStatistics] computes once the habit has been
    loaded with its completions and skips, at the instant [now]. *)
Definition habitStatistics (zone : Zone) (completions : list HabitCompletion)
           (skips : list HabitSkip) (now : Z) : HabitStatistics :=
  let totalCompletions := Z.of_nat (List.length completions) in
  let totalSkips := Z.of_nat (List.length skips) in
  let totalTime :=
    fold_left (fun sum c => sum + match hc_duration c with
                                  | Some d => d
                                  | None => 0
                                  end) completions 0 in
  mkStats totalCompletions totalSkips totalTime
          (completionRateOf totalCompletions totalSkips)
          (calculateStreak zone completions skips now)
          (calculateLongestStreak zone completions skips).

End Analytics.

(* ================================================================== *)
(** * Effects: the database, the push transport and the console *)

Record Db := mkDb {
  habits : list Habit;
  habitCompletions : list HabitCompletion;
  habitSkips : list HabitSkip;
  notificationSubscriptions : list NotificationSubscription;
  (** number of identifiers handed out by [cuid()] so far *)
  cuids : Z
}.

(** What [webpush.sendNotification] is called with.  The payload is the
    object that [JSON.stringify] serialises. *)
Record PushSubscription := mkPush { endpoint : string; keys : Keys }.
Record Payload := mkPayload { title : string; body : string; habitId : string }.

(** The promise of [webpush.sendNotification] resolves, or rejects with an
    error whose [statusCode] is the HTTP status of the push service (absent
    when the request itself failed). *)
Inductive SendResult :=
| Delivered
| Rejected (statusCode : option Z).

(** One call of the notify collaborator, with its result. *)
Record Delivery := mkDelivery {
  d_subscription : PushSubscription;
  d_payload : Payload;
  d_result : SendResult
}.

Inductive Exn :=
| Error_ (message : string)
| WebPushError (statusCode : option Z)
| PrismaError (code : string).

Inductive LogEntry :=
| ConsoleLog (message : string)
| ConsoleError (message : string) (error : Exn).

(** The push service answers a request as a function of the requests made
    before it. *)
Record World := mkWorld {
  db : Db;
  transport : list Delivery -> PushSubscription -> Payload -> SendResult;
  deliveries : list Delivery;
  console : list LogEntry
}.

Inductive Outcome (A : Type) :=
| Return (a : A)
| Throw (e : Exn).
Arguments Return {A} a.
Arguments Throw {A} e.

(** Computations that read and write the world and may throw. *)
Definition M (A : Type) : Type := World -> Outcome A * World.

Definition ret {A} (a : A) : M A := fun w => (Return a, w).
Definition throw {A} (e : Exn) : M A := fun w => (Throw e, w).
Definition bind {A B} (c : M A) (k : A -> M B) : M B :=
  fun w => match c w with
           | (Return a, w') => k a w'
           | (Throw e, w') => (Throw e, w')
           end.
Definition tryCatch {A} (c : M A) (handler : Exn -> M A) : M A :=
  fun w => match c w with
           | (Return a, w') => (Return a, w')
           | (Throw e, w') => handler e w'
           end.

Notation "x <- c1 ;; c2" := (bind c1 (fun x => c2))
  (at level 61, c1 at next level, right associativity).
Notation "c1 ;; c2" := (bind c1 (fun _ => c2))
  (at level 61, right associativity).

(** [for (const x of xs) body] *)
Fixpoint forOf {A} (xs : list A) (body : A -> M unit) : M unit :=
  match xs with
  | [] => ret tt
  | x :: rest => body x ;; forOf rest body
  end.

Definition getDb : M Db := fun w => (Return (db w), w).
Definition putDb (d : Db) : M unit :=
  fun w => (Return tt, mkWorld d (transport w) (deliveries w) (console w)).

Definition console_log (message : string) : M unit :=
  fun w => (Return tt,
            mkWorld (db w) (transport w) (deliveries w)
                    (console w ++ [ConsoleLog message])).
Definition console_error (message : string) (error : Exn) : M unit :=
  fun w => (Return tt,
            mkWorld (db w) (transport w) (deliveries w)
                    (console w ++ [ConsoleError message error])).

(** [await webpush.sendNotification(pushSubscription, payload)] *)
Definition webpush_sendNotification (pushSubscription : PushSubscription)
           (payload : Payload) : M unit :=
  fun w =>
    let result := transport w (deliveries w) pushSubscription payload in
    let w' := mkWorld (db w) (transport w)
                      (deliveries w ++ [mkDelivery pushSubscription payload result])
                      (console w) in
    match result with
    | Delivered => (Return tt, w')
    | Rejected statusCode => (Throw (WebPushError statusCode), w')
    end.

(** [error.statusCode === n] *)
Definition statusCodeIs (error : Exn) (n : Z) : bool :=
  match error with
  | WebPushError (Some code) => code =? n
  | _ => false
  end.

(** Truthiness of an optional string: [undefined], [null] and the empty
    string are falsy. *)
Definition truthy (s : option string) : bool :=
  match s with
  | Some s => negb (String.eqb s "")
  | None => false
  end.


(* ================================================================== *)
(** * Prisma client calls *)

Module Prisma.

(** An identifier from [cuid()]: a fresh string for every call. *)
Definition cuid (n : Z) : string := ("c" ++ Js.String_ n)%string.

Definition option_eqb (a : option string) (b : string) : bool :=
  match a with
  | Some a => String.eqb a b
  | None => false
  end.

(** [prisma.habit.findFirst({ where: { id, userId } })] *)
Definition habit_findFirst (id userId : string) : M (option Habit) :=
  d <- getDb ;;
  ret (find (fun h => String.eqb (h_id h) id && String.eqb (h_userId h) userId)
            (habits d)).

(** [prisma.habit.findFirst({ where: { id, userId }, include: { completions: true, skips: true } })] *)
Definition habit_findFirst_with_ledger (id userId : string)
  : M (option (Habit * list HabitCompletion * list HabitSkip)) :=
  d <- getDb ;;
  ret (match find (fun h => String.eqb (h_id h) id && String.eqb (h_userId h) userId)
                  (habits d) with
       | Some h =>
           Some (h,
                 filter (fun c => String.eqb (hc_habitId c) (h_id h)) (habitCompletions d),
                 filter (fun s => String.eqb (hs_habitId s) (h_id h)) (habitSkips d))
       | None => None
       end).

(** [prisma.habitCompletion.findUnique({ where: { habitId_date: { habitId, date } } })] *)
Definition habitCompletion_findUnique (habitId : string) (date : Z)
  : M (option HabitCompletion) :=
  d <- getDb ;;
  ret (find (fun c => String.eqb (hc_habitId c) habitId && (hc_date c =? date))
            (habitCompletions d)).

(** [prisma.habitCompletion.create({ data })]: the unique index on
    [(habitId, date)] rejects a second row (P2002), the foreign key an
    unknown habit (P2003). *)
Definition habitCompletion_create (habitId : string) (date : Z)
           (duration : option Z) (notes : option string) : M HabitCompletion :=
  d <- getDb ;;
  if existsb (fun c => String.eqb (hc_habitId c) habitId && (hc_date c =? date))
             (habitCompletions d)
  then throw (PrismaError "P2002")
  else if negb (existsb (fun h => String.eqb (h_id h) habitId) (habits d))
  then throw (PrismaError "P2003")
  else
    let row := mkCompletion (cuid (cuids d)) habitId date duration notes in
    putDb (mkDb (habits d) (habitCompletions d ++ [row]) (habitSkips d)
                (notificationSubscriptions d) (cuids d + 1)) ;;
    ret row.

(** [orderBy: { date: 'desc' }] *)
Fixpoint insertByDateDesc (c : HabitCompletion) (l : list HabitCompletion)
  : list HabitCompletion :=
  match l with
  | [] => [c]
  | x :: r => if hc_date x <? hc_date c then c :: x :: r
              else x :: insertByDateDesc c r
  end.

Definition orderByDateDesc (l : list HabitCompletion) : list HabitCompletion :=
  fold_right insertByDateDesc [] l.

(** [prisma.habitCompletion.findMany({ where: { habitId, date: { gte, lte } }, orderBy: { date: 'desc' } })] *)
Definition habitCompletion_findMany (habitId : string) (gte lte : option Z)
  : M (list HabitCompletion) :=
  d <- getDb ;;
  ret (orderByDateDesc
         (filter (fun c =>
                    String.eqb (hc_habitId c) habitId
                    && match gte with Some lo => lo <=? hc_date c | None => true end
                    && match lte with Some hi => hc_date c <=? hi | None => true end)
                 (habitCompletions d))).

(** [prisma.notificationSubscription.findMany({ where: { habitId } })] *)
Definition notificationSubscription_findMany (habitId : string)
  : M (list NotificationSubscription) :=
  d <- getDb ;;
  ret (filter (fun s => option_eqb (ns_habitId s) habitId)
              (notificationSubscriptions d)).

(** [prisma.notificationSubscription.findUnique({ where: { endpoint } })] *)
Definition notificationSubscription_findUnique (endpoint : string)
  : M (option NotificationSubscription) :=
  d <- getDb ;;
  ret (find (fun s => String.eqb (ns_endpoint s) endpoint)
            (notificationSubscriptions d)).

Definition setSubscriptions (d : Db) (l : list NotificationSubscription) : Db :=
  mkDb (habits d) (habitCompletions d) (habitSkips d) l (cuids d).

(** [prisma.notificationSubscription.delete({ where })] on a unique key:
    the row is removed, and P2025 is thrown when there is none. *)
Definition notificationSubscription_delete
           (where_ : NotificationSubscription -> bool) : M unit :=
  d <- getDb ;;
  if existsb where_ (notificationSubscriptions d)
  then putDb (setSubscriptions d
                (filter (fun s => negb (where_ s)) (notificationSubscriptions d)))
  else throw (PrismaError "P2025").

(** The foreign key of [notification_subscriptions.habitId]: a value that
    is set names a stored habit. *)
Definition habitKnown (d : Db) (habitId : option string) : bool :=
  match habitId with
  | Some id => existsb (fun h => String.eqb (h_id h) id) (habits d)
  | None => true
  end.

(** [prisma.notificationSubscription.update({ where: { endpoint }, data: { keys, habitId } })]:
    P2025 when no row has the endpoint, P2003 when the new [habitId] names
    no habit. *)
Definition notificationSubscription_update (endpoint : string) (keys : Keys)
           (habitId : option string) : M unit :=
  d <- getDb ;;
  if existsb (fun s => String.eqb (ns_endpoint s) endpoint)
             (notificationSubscriptions d)
  then
    if negb (habitKnown d habitId) then throw (PrismaError "P2003")
    else
      putDb (setSubscriptions d
               (map (fun s => if String.eqb (ns_endpoint s) endpoint
                              then mkSubscription (ns_id s) (ns_userId s) habitId
                                                  (ns_endpoint s) keys
                              else s)
                    (notificationSubscriptions d)))
  else throw (PrismaError "P2025").

(** [prisma.notificationSubscription.create({ data })]: the unique index
    on [endpoint] rejects a second row (P2002), the foreign key an unknown
    habit (P2003).  The user of an authenticated request is a stored user. *)
Definition notificationSubscription_create (userId : string)
           (habitId : option string) (endpoint : string) (keys : Keys) : M unit :=
  d <- getDb ;;
  if existsb (fun s => String.eqb (ns_endpoint s) endpoint)
             (notificationSubscriptions d)
  then throw (PrismaError "P2002")
  else if negb (habitKnown d habitId) then throw (PrismaError "P2003")
  else
    putDb (mkDb (habits d) (habitCompletions d) (habitSkips d)
                (notificationSubscriptions d
                   ++ [mkSubscription (cuid (cuids d)) userId habitId endpoint keys])
                (cuids d + 1)).

(** A habit row with the relations the reminder query includes. *)
Record HabitWithRelations := mkHabitWith {
  hw_habit : Habit;
  hw_subscriptions : list NotificationSubscription;
  hw_completions : list HabitCompletion
}.

(** The value of a [DateTime] in a comparison with a [DATE] column: its
    calendar date in UTC, as a day number. *)
Definition toDate (t : Z) : Z := JsDate.Day t.

(** [prisma.habit.findMany({ where: { reminderTime, subscriptions: { some: {} } },
      include: { subscriptions: true, completions: { where: { date: { gte, lt } } } } })].
    The column [habit_completions.date] is a [DATE]: the bounds [gte] and
    [lt] are compared with it as dates. *)
Definition habit_findMany_due (reminderTime : string) (gte lt : Z)
  : M (list HabitWithRelations) :=
  d <- getDb ;;
  let subscriptionsOf (h : Habit) :=
    filter (fun s => option_eqb (ns_habitId s) (h_id h))
           (notificationSubscriptions d) in
  let completionsOf (h : Habit) :=
    filter (fun c => String.eqb (hc_habitId c) (h_id h)
                     && (toDate gte <=? toDate (hc_date c))
                     && (toDate (hc_date c) <? toDate lt))
           (habitCompletions d) in
  ret (map (fun h => mkHabitWith h (subscriptionsOf h) (completionsOf h))
           (filter (fun h => option_eqb (h_reminderTime h) reminderTime
                             && negb (Z.of_nat (List.length (subscriptionsOf h)) =? 0))
                   (habits d))).

(** [prisma.habit.findMany({ where: { userId }, include: { completions: true, skips: true } })] *)
Definition habit_findMany_with_ledger (userId : string)
  : M (list (Habit * list HabitCompletion * list HabitSkip)) :=
  d <- getDb ;;
  ret (map (fun h =>
              (h,
               filter (fun c => String.eqb (hc_habitId c) (h_id h)) (habitCompletions d),
               filter (fun s => String.eqb (hs_habitId s) (h_id h)) (habitSkips d)))
           (filter (fun h => String.eqb (h_userId h) userId) (habits d))).

(** [prisma.habitCompletion.findUnique({ where: { id }, include: { habit: true } })] *)
Definition habitCompletion_findUnique_id (id : string)
  : M (option (HabitCompletion * option Habit)) :=
  d <- getDb ;;
  ret (match find (fun c => String.eqb (hc_id c) id) (habitCompletions d) with
       | Some c =>
           Some (c, find (fun h => String.eqb (h_id h) (hc_habitId c)) (habits d))
       | None => None
       end).

(** [prisma.habitCompletion.delete({ where: { id } })] *)
Definition habitCompletion_delete_id (id : string) : M unit :=
  d <- getDb ;;
  if existsb (fun c => String.eqb (hc_id c) id) (habitCompletions d)
  then putDb (mkDb (habits d)
                   (filter (fun c => negb (String.eqb (hc_id c) id))
                           (habitCompletions d))
                   (habitSkips d) (notificationSubscriptions d) (cuids d))
  else throw (PrismaError "P2025").

(** [prisma.habitSkip.findUnique({ where: { habitId_date: { habitId, date } } })] *)
Definition habitSkip_findUnique (habitId : string) (date : Z)
  : M (option HabitSkip) :=
  d <- getDb ;;
  ret (find (fun s => String.eqb (hs_habitId s) habitId && (hs_date s =? date))
            (habitSkips d)).

(** [prisma.habitSkip.create({ data })], with its unique index on
    [(habitId, date)] and its foreign key. *)
Definition habitSkip_create (habitId : string) (date : Z)
           (reason : option string) : M HabitSkip :=
  d <- getDb ;;
  if existsb (fun s => String.eqb (hs_habitId s) habitId && (hs_date s =? date))
             (habitSkips d)
  then throw (PrismaError "P2002")
  else if negb (existsb (fun h => String.eqb (h_id h) habitId) (habits d))
  then throw (PrismaError "P2003")
  else
    let row := mkSkip (cuid (cuids d)) habitId date reason in
    putDb (mkDb (habits d) (habitCompletions d) (habitSkips d ++ [row])
                (notificationSubscriptions d) (cuids d + 1)) ;;
    ret row.

End Prisma.

(* ================================================================== *)
(** * analytics.service.ts: the statistics of a habit *)

Module AnalyticsService.

(** [getHabitStatistics(userId, habitId)] run at the instant [now] on a
    host in the zone [zone]; [None] is the [null] returned for an unknown habit. *)
Definition getHabitStatistics (zone : JsDate.Zone) (now : Z) (userId habitId : string)
  : M (option Analytics.HabitStatistics) :=
  habit <- Prisma.habit_findFirst_with_ledger habitId userId ;;
  match habit with
  | None => ret None
  | Some (_, completions, skips) =>
      ret (Some (Analytics.habitStatistics zone completions skips now))
  end.

Record UserStatistics := mkUserStats {
  us_totalHabits : Z;
  us_totalCompletions : Z;
  us_totalSkips : Z;
  us_totalTime : Z;
  us_averageCompletionRate : float
}.

(** The variables the loop of [getUserStatistics] updates. *)
Record UserTotals := mkTotals {
  ut_totalCompletions : Z;
  ut_totalSkips : Z;
  ut_totalTime : Z;
  ut_completionRates : list float
}.

(** One iteration of [for (const habit of habits)]. *)
Definition userStep (acc : UserTotals)
           (habit : Habit * list HabitCompletion * list HabitSkip) : UserTotals :=
  let '(_, completions, skips) := habit in
  let habitCompletions := Z.of_nat (List.length completions) in
  let habitSkips := Z.of_nat (List.length skips) in
  let habitTotalAttempts := habitCompletions + habitSkips in
  let totalCompletions := ut_totalCompletions acc + habitCompletions in
  let totalSkips := ut_totalSkips acc + habitSkips in
  let totalTime :=
    ut_totalTime acc
    + fold_left (fun sum c => sum + match hc_duration c with
                                    | Some d => d
                                    | None => 0
                                    end) completions 0 in
  if 0 <? habitTotalAttempts then
    let habitCompletionRate :=
      PrimFloat.mul (PrimFloat.div (Analytics.Number_ habitCompletions)
                                   (Analytics.Number_ habitTotalAttempts)) 100 in
    mkTotals totalCompletions totalSkips totalTime
             (ut_completionRates acc ++ [habitCompletionRate])
  else mkTotals totalCompletions totalSkips totalTime (ut_completionRates acc).

(** The statistics [getUserStatistics] computes from the habits of the user,
    loaded with their completions and skips. *)
Definition userStatistics
           (habits : list (Habit * list HabitCompletion * list HabitSkip))
  : UserStatistics :=
  let totalHabits := Z.of_nat (List.length habits) in
  let acc := fold_left userStep habits (mkTotals 0 0 0 []) in
  let completionRates := ut_completionRates acc in
  let averageCompletionRate :=
    if 0 <? Z.of_nat (List.length completionRates)
    then PrimFloat.div (fold_left PrimFloat.add completionRates 0%float)
                       (Analytics.Number_ (Z.of_nat (List.length completionRates)))
    else 0%float in
  mkUserStats totalHabits (ut_totalCompletions acc) (ut_totalSkips acc)
              (ut_totalTime acc)
              (PrimFloat.div
                 (Analytics.Math_round (PrimFloat.mul averageCompletionRate 100)) 100).

(** [getUserStatistics(userId)] *)
Definition getUserStatistics (userId : string) : M UserStatistics :=
  habits <- Prisma.habit_findMany_with_ledger userId ;;
  ret (userStatistics habits).

End AnalyticsService.

(* ================================================================== *)
(** * push-notification.service.ts *)

Module PushNotificationService.
Import JsDate.

Definition sendHabitReminder (habitId message : string) : M unit :=
  subscriptions <- Prisma.notificationSubscription_findMany habitId ;;
  if Z.of_nat (List.length subscriptions) =? 0 then ret tt
  else
    let payload := mkPayload "Habit Reminder" message habitId in
    forOf subscriptions (fun subscription =>
      tryCatch
        (let keys := ns_keys subscription in
         let pushSubscription :=
           mkPush (ns_endpoint subscription)
                  (mkKeys (p256dh keys) (auth keys)) in
         webpush_sendNotification pushSubscription payload)
        (fun error =>
           if statusCodeIs error 410 then
             Prisma.notificationSubscription_delete
               (fun s => String.eqb (ns_id s) (ns_id subscription)) ;;
             console_log ("Deleted expired subscription: " ++ ns_id subscription)
           else
             console_error ("Error sending notification to subscription "
                              ++ ns_id subscription ++ ":") error)).

Definition reminderMessage (name : string) : string :=
  ("Don't forget to complete " ++ String "034"%char name
     ++ String "034"%char "!")%string.

(** [checkAndSendReminders()] run at the instant [now] on a host in the
    zone [zone]. *)
Definition checkAndSendReminders (zone : Zone) (now : Z) : M unit :=
  let currentTime := formatHHmm zone now in
  habits <- Prisma.habit_findMany_due currentTime
              (startOfToday zone now) (startOfTomorrow zone now) ;;
  forOf habits (fun habit =>
    if Z.of_nat (List.length (Prisma.hw_completions habit)) =? 0 then
      let message := reminderMessage (h_name (Prisma.hw_habit habit)) in
      sendHabitReminder (h_id (Prisma.hw_habit habit)) message
    else ret tt).

(** [habitId || null] *)
Definition orNull (habitId : option string) : option string :=
  if truthy habitId then habitId else None.

Definition createOrUpdateSubscription (userId endpoint : string) (keys : Keys)
           (habitId : option string) : M bool :=
  existingSubscription <- Prisma.notificationSubscription_findUnique endpoint ;;
  match existingSubscription with
  | Some existing =>
      if negb (String.eqb (ns_userId existing) userId)
      then throw (Error_ "Endpoint already subscribed by another user")
      else
        Prisma.notificationSubscription_update endpoint keys (orNull habitId) ;;
        ret true
  | None =>
      Prisma.notificationSubscription_create userId (orNull habitId) endpoint keys ;;
      ret false
  end.

Definition deleteSubscription (userId endpoint : string) : M bool :=
  subscription <- Prisma.notificationSubscription_findUnique endpoint ;;
  match subscription with
  | None => ret false
  | Some subscription =>
      if negb (String.eqb (ns_userId subscription) userId)
      then throw (Error_ "Subscription does not belong to user")
      else
        Prisma.notificationSubscription_delete
          (fun s => String.eqb (ns_endpoint s) endpoint) ;;
        ret true
  end.

End PushNotificationService.

(* ================================================================== *)
(** * habit.service.ts and skip.service.ts *)

Module HabitService.

Definition getHabitById (userId habitId : string) : M (option Habit) :=
  habit <- Prisma.habit_findFirst habitId userId ;;
  ret habit.

End HabitService.

(** Validated skip input whose [date] names a real calendar date;
    [si_date] is the time value of [new Date(data.date)], the UTC midnight
    of that date.  As for completions, a string that passes the pattern and
    names no date gives an invalid date, which Prisma refuses with a
    validation error; such input is not a value of this record. *)
Record SkipInput := mkSkipInput {
  si_date : Z;
  si_reason : option string
}.

Module SkipService.

Definition createSkip (userId habitId : string) (data : SkipInput) : M HabitSkip :=
  habit <- Prisma.habit_findFirst habitId userId ;;
  match habit with
  | None => throw (Error_ "Habit not found or does not belong to user")
  | Some _ =>
      existingSkip <- Prisma.habitSkip_findUnique habitId (si_date data) ;;
      match existingSkip with
      | Some _ => throw (Error_ "Skip already exists for this date")
      | None =>
          skip <- Prisma.habitSkip_create habitId (si_date data) (si_reason data) ;;
          ret skip
      end
  end.

End SkipService.

(* ================================================================== *)
(** * HTTP layer *)

(** The part of an authenticated request the handlers read. *)
Record AuthRequest := mkRequest {
  req_userId : option string;
  req_params_habitId : string;
  req_body_endpoint : option string;
  req_body_date : Z;
  req_body_duration : option Z;
  req_body_notes : option string
}.

(** [res.status(code).json({ error, message })] or [res.status(code).send()] *)
Record Response := mkResponse {
  status : Z;
  json_error : option string;
  json_message : option string
}.

(** The part of a subscribe request the handler reads: the user the
    authentication attached, and the [endpoint], [keys] (an object with
    optional [p256dh] and [auth]) and [habitId] of the body, each a string
    when it is present.  The route validates nothing: a body with another
    JSON type in one of these places (a number as [endpoint], say) passes
    the guards of the handler and is refused by Prisma with a validation
    error, which the handler re-throws; such a body is not a value of this
    record. *)
Record SubscribeRequest := mkSubscribeRequest {
  sr_userId : option string;
  sr_endpoint : option string;
  sr_keys : option (option string * option string);
  sr_habitId : option string
}.

(** notification.controller.ts *)
Module NotificationController.

Definition unsubscribe (req : AuthRequest) : M Response :=
  tryCatch
    (match req_userId req with
     | Some userId =>
         if negb (truthy (req_userId req)) then
           ret (mkResponse 401 (Some "Unauthorized"%string)
                           (Some "User ID not found in request"%string))
         else
           match req_body_endpoint req with
           | Some endpoint =>
               if negb (truthy (req_body_endpoint req)) then
                 ret (mkResponse 400 (Some "Bad Request"%string)
                                 (Some "Missing required field: endpoint"%string))
               else
                 deleted <- PushNotificationService.deleteSubscription userId endpoint ;;
                 if negb deleted then
                   ret (mkResponse 404 (Some "Not Found"%string)
                                   (Some "Subscription not found"%string))
                 else ret (mkResponse 204 None None)
           | None =>
               ret (mkResponse 400 (Some "Bad Request"%string)
                               (Some "Missing required field: endpoint"%string))
           end
     | None =>
         ret (mkResponse 401 (Some "Unauthorized"%string)
                         (Some "User ID not found in request"%string))
     end)
    (fun error =>
       match error with
       | Error_ message =>
           if String.eqb message "Subscription does not belong to user"%string then
             ret (mkResponse 403 (Some "Forbidden"%string) (Some message))
           else throw error
       | _ => throw error
       end).

Definition badRequest (message : string) : Response :=
  mkResponse 400 (Some "Bad Request"%string) (Some message).

Definition subscribe (req : SubscribeRequest) : M Response :=
  tryCatch
    (match sr_userId req with
     | Some userId =>
         if negb (truthy (sr_userId req)) then
           ret (mkResponse 401 (Some "Unauthorized"%string)
                           (Some "User ID not found in request"%string))
         else
           match sr_endpoint req, sr_keys req with
           | Some endpoint, Some (p256dh, auth) =>
               if negb (truthy (sr_endpoint req)) then
                 ret (badRequest "Missing required fields: endpoint and keys")
               else
                 match p256dh, auth with
                 | Some p, Some a =>
                     if negb (truthy p256dh) || negb (truthy auth) then
                       ret (badRequest
                              "Invalid keys structure. Must include p256dh and auth")
                     else
                       proceed <-
                         (if truthy (sr_habitId req) then
                            habit <- HabitService.getHabitById userId
                                       (match sr_habitId req with
                                        | Some h => h
                                        | None => ""%string
                                        end) ;;
                            ret (match habit with Some _ => true | None => false end)
                          else ret true) ;;
                       if negb proceed then
                         ret (mkResponse 404 (Some "Not Found"%string)
                                (Some "Habit not found or does not belong to user"%string))
                       else
                         isUpdate <- PushNotificationService.createOrUpdateSubscription
                                       userId endpoint (mkKeys p a) (sr_habitId req) ;;
                         ret (if isUpdate
                              then mkResponse 200 None
                                     (Some "Subscription updated successfully"%string)
                              else mkResponse 201 None
                                     (Some "Subscription created successfully"%string))
                 | _, _ =>
                     ret (badRequest
                            "Invalid keys structure. Must include p256dh and auth")
                 end
           | _, _ => ret (badRequest "Missing required fields: endpoint and keys")
           end
     | None =>
         ret (mkResponse 401 (Some "Unauthorized"%string)
                         (Some "User ID not found in request"%string))
     end)
    (fun error =>
       match error with
       | Error_ message =>
           if String.eqb message "Endpoint already subscribed by another user"%string
           then ret (mkResponse 409 (Some "Conflict"%string) (Some message))
           else throw error
       | _ => throw error
       end).

End NotificationController.

(* ================================================================== *)
(** * completion.service.ts and completion.controller.ts *)

(** Validated completion input whose [date] names a real calendar date;
    [ci_date] is the time value of [new Date(data.date)], the UTC midnight
    of that date.  The validation checks the pattern of the string only: for
    a date such as 2024-13-45 [new Date] gives an invalid date, which Prisma
    refuses with a validation error; such input is not a value of this
    record. *)
Record CompletionInput := mkInput {
  ci_date : Z;
  ci_duration : option Z;
  ci_notes : option string
}.

Module CompletionService.
Import JsDate.

Definition createCompletion (userId habitId : string) (data : CompletionInput)
  : M HabitCompletion :=
  habit <- Prisma.habit_findFirst habitId userId ;;
  match habit with
  | None => throw (Error_ "Habit not found or does not belong to user")
  | Some _ =>
      existingCompletion <- Prisma.habitCompletion_findUnique habitId (ci_date data) ;;
      match existingCompletion with
      | Some _ => throw (Error_ "Completion already exists for this date")
      | None =>
          completion <- Prisma.habitCompletion_create habitId (ci_date data)
                          (ci_duration data) (ci_notes data) ;;
          ret completion
      end
  end.

(** [startDate] and [endDate], when given, are the time values of
    [new Date(startDate)] and [new Date(endDate)]. *)
Definition getCompletions (zone : Zone) (userId habitId : string)
           (startDate endDate : option Z) : M (list HabitCompletion) :=
  habit <- Prisma.habit_findFirst habitId userId ;;
  match habit with
  | None => throw (Error_ "Habit not found or does not belong to user")
  | Some _ =>
      let gte := startDate in
      let lte := match endDate with
                 | Some endDate => Some (setHours zone endDate 23 59 59 999)
                 | None => None
                 end in
      completions <- Prisma.habitCompletion_findMany habitId gte lte ;;
      ret completions
  end.

(** [deleteCompletion(userId, completionId)]; reading [habit.userId] of a
    completion without habit row is a [TypeError]. *)
Definition deleteCompletion (userId completionId : string) : M bool :=
  completion <- Prisma.habitCompletion_findUnique_id completionId ;;
  match completion with
  | None => ret false
  | Some (_, None) =>
      throw (Error_ "Cannot read properties of null (reading 'userId')")
  | Some (_, Some habit) =>
      if negb (String.eqb (h_userId habit) userId) then ret false
      else
        Prisma.habitCompletion_delete_id completionId ;;
        ret true
  end.

End CompletionService.

Module CompletionController.

(** The [create] handler; the body of a 201 response carries the created
    row, which is returned next to the response. *)
Definition create (req : AuthRequest) : M (Response * option HabitCompletion) :=
  tryCatch
    (match req_userId req with
     | Some userId =>
         if negb (truthy (req_userId req)) then
           ret (mkResponse 401 (Some "Unauthorized"%string)
                           (Some "User ID not found in request"%string), None)
         else
           completion <- CompletionService.createCompletion userId
                           (req_params_habitId req)
                           (mkInput (req_body_date req) (req_body_duration req)
                                    (req_body_notes req)) ;;
           ret (mkResponse 201 None (Some "Completion created successfully"%string),
                Some completion)
     | None =>
         ret (mkResponse 401 (Some "Unauthorized"%string)
                         (Some "User ID not found in request"%string), None)
     end)
    (fun error =>
       match error with
       | Error_ message =>
           if String.eqb message "Habit not found or does not belong to user"%string then
             ret (mkResponse 404 (Some "Not Found"%string) (Some message), None)
           else if String.eqb message "Completion already exists for this date"%string then
             ret (mkResponse 409 (Some "Conflict"%string) (Some message), None)
           else throw error
       | _ => throw error
       end).

End CompletionController.

(* ================================================================== *)
(** * Vocabulary of the properties *)

Import JsDate Analytics PushNotificationService NotificationController
       CompletionService.

(** Bounded universal checks by evaluation: [allRange f n lo] tests [f] on
    the [2 ^ n] integers from [lo]. *)
Fixpoint allRange (f : Z -> bool) (n : nat) (lo : Z) : bool :=
  match n with
  | O => f lo
  | S k => allRange f k lo && allRange f k (lo + 2 ^ Z.of_nat k)
  end.

(** Year of era, month and day of month of a day of era. *)
Definition civilOfDoe (doe : Z) : Z * Z * Z :=
  let yoe := (doe - doe / 1460 + doe / 36524 - doe / 146096) / 365 in
  let doy := doe - (365 * yoe + yoe / 4 - yoe / 100) in
  let mp := (5 * doy + 2) / 153 in
  let d := doy - (153 * mp + 2) / 5 + 1 in
  let m := if mp <? 10 then mp + 3 else mp - 9 in
  (yoe, m, d).

(** Day of era of a year of era, month and day of month. *)
Definition doeOfCivil (yoe m d : Z) : Z :=
  yoe * 365 + yoe / 4 - yoe / 100
  + ((153 * (if 2 <? m then m - 3 else m + 9) + 2) / 5 + d - 1).

Definition doeCheck (doe : Z) : bool :=
  let '(yoe, m, d) := civilOfDoe doe in
  (0 <=? yoe) && (yoe <? 400) && (1 <=? m) && (m <=? 12)
  && (1 <=? d) && (d <=? 31) && (doeOfCivil yoe m d =? doe).

(** Two-digit fields of the date key. *)
Definition pad2 (n : Z) : string := Js.padStart2 (Js.String_ n).

Definition pad2Check (n : Z) : bool :=
  (Nat.eqb (String.length (pad2 n)) 2)
  && match NilEmpty.int_of_string (pad2 n) with
     | Some d => Z.of_int d =? n
     | None => false
     end.

(** The ledger seen day by day: a record is on the local calendar day of its
    date. *)
Definition completedOn (tz : Z) (completions : list HabitCompletion) (day : Z)
  : Prop :=
  exists c, In c completions /\ localDay tz (hc_date c) = day.

Definition skippedOn (tz : Z) (skips : list HabitSkip) (day : Z) : Prop :=
  exists s, In s skips /\ localDay tz (hs_date s) = day.

(** [isRun P d k]: the [k] days from [d] on all satisfy [P]. *)
Definition isRun (P : Z -> Prop) (d k : Z) : Prop :=
  forall i, 0 <= i < k -> P (d + i).

(** A time value at local midnight. *)
Definition midnight (tz m : Z) : Prop := m = localDay tz m * msPerDay - tz.

(** Invariant of the [for] loop once a first date has been seen. *)
Definition LoopInv (tz : Z) (P : Z -> Prop) (st : LongestState) (x : Z) : Prop :=
  ls_lastDate st = Some x
  /\ 1 <= ls_currentStreak st
  /\ isRun P (localDay tz x - ls_currentStreak st + 1) (ls_currentStreak st)
  /\ (exists d, isRun P d (ls_longestStreak st))
  /\ (forall k, isRun P (localDay tz x - k + 1) k -> k <= ls_currentStreak st)
  /\ (forall d k, isRun P d k -> d + k - 1 <= localDay tz x ->
                  k <= Z.max (ls_longestStreak st) (ls_currentStreak st)).

(** Sample ledgers: dates are UTC midnights, as a DATE column yields them. *)
Definition utcDate (y m d : Z) : Z := daysFromCivil y m d * msPerDay.

Definition completionOn (y m d : Z) : HabitCompletion :=
  mkCompletion ("c-" ++ Js.String_ d)%string "habit-1"%string (utcDate y m d) None None.

Definition skipOn (y m d : Z) : HabitSkip :=
  mkSkip ("s-" ++ Js.String_ d)%string "habit-1"%string (utcDate y m d) None.

Definition january2024 : list HabitCompletion :=
  map (completionOn 2024 1) [1; 2; 3; 4; 5; 10; 11; 12].

(** The subscription registry of a world. *)
Definition registry (w : World) : list NotificationSubscription :=
  notificationSubscriptions (db w).

(** The subscriptions [sendHabitReminder] reads for a habit. *)
Definition subscriptionsFor (habitId : string) (w : World) :=
  filter (fun s => Prisma.option_eqb (ns_habitId s) habitId) (registry w).

Definition pushOf (s : NotificationSubscription) : PushSubscription :=
  mkPush (ns_endpoint s) (mkKeys (p256dh (ns_keys s)) (auth (ns_keys s))).

Definition isGone (r : SendResult) : bool :=
  match r with
  | Rejected (Some code) => code =? 410
  | _ => false
  end.

(** The calls the transport receives for a list of subscriptions, each
    answered on the history of the calls before it. *)
Fixpoint attempts (tr : list Delivery -> PushSubscription -> Payload -> SendResult)
         (history : list Delivery) (subs : list NotificationSubscription)
         (payload : Payload) : list Delivery :=
  match subs with
  | [] => []
  | s :: rest =>
      let d := mkDelivery (pushOf s) payload (tr history (pushOf s) payload) in
      d :: attempts tr (history ++ [d]) rest payload
  end.

(** Rows that survive a batch: those without a gone attempt. *)
Definition pruned (batch : list (NotificationSubscription * Delivery))
           (rows : list NotificationSubscription) :=
  filter (fun x => negb (existsb (fun p => String.eqb (ns_id x) (ns_id (fst p))
                                           && isGone (d_result (snd p))) batch))
         rows.

(** What the console receives for one attempt. *)
Definition logOf (p : NotificationSubscription * Delivery) : list LogEntry :=
  match d_result (snd p) with
  | Delivered => []
  | Rejected code =>
      if isGone (Rejected code)
      then [ConsoleLog ("Deleted expired subscription: " ++ ns_id (fst p))]
      else [ConsoleError ("Error sending notification to subscription "
                            ++ ns_id (fst p) ++ ":") (WebPushError code)]
  end.

(** The body of the loop of [sendHabitReminder]. *)
Definition sendBody (payload : Payload) (subscription : NotificationSubscription)
  : M unit :=
  tryCatch
    (webpush_sendNotification (pushOf subscription) payload)
    (fun error =>
       if statusCodeIs error 410 then
         Prisma.notificationSubscription_delete
           (fun s => String.eqb (ns_id s) (ns_id subscription)) ;;
         console_log ("Deleted expired subscription: " ++ ns_id subscription)
       else
         console_error ("Error sending notification to subscription "
                          ++ ns_id subscription ++ ":") error).

(** The payload of the reminder of a habit. *)
Definition reminderPayload (h : Habit) : Payload :=
  mkPayload "Habit Reminder" (reminderMessage (h_name h)) (h_id h).

(** The body of the loop of [checkAndSendReminders]. *)
Definition reminderBody (habit : Prisma.HabitWithRelations) : M unit :=
  if Z.of_nat (List.length (Prisma.hw_completions habit)) =? 0 then
    sendHabitReminder (h_id (Prisma.hw_habit habit))
                      (reminderMessage (h_name (Prisma.hw_habit habit)))
  else ret tt.

(** A completion of habit [h] is recorded for the date [d], a day number. *)
Definition completedOnDate (w : World) (h : Habit) (d : Z) : Prop :=
  exists c, In c (habitCompletions (db w))
            /\ hc_habitId c = h_id h
            /\ Day (hc_date c) = d.

(** The date for which the tick looks up completions on a host at the
    constant offset [tz]: the UTC date of the local midnight before [now],
    which is the local date of [now] at and west of UTC and the date before
    it east of UTC. *)
Definition windowDate (tz now : Z) : Z :=
  localDay tz now - (if 0 <? tz then 1 else 0).

(** The rows the query of [checkAndSendReminders] returns. *)
Definition dueHabits (zone : Zone) (now : Z) (w : World)
  : list Prisma.HabitWithRelations :=
  let d := db w in
  let subscriptionsOf (h : Habit) :=
    filter (fun s => Prisma.option_eqb (ns_habitId s) (h_id h))
           (notificationSubscriptions d) in
  let completionsOf (h : Habit) :=
    filter (fun c => String.eqb (hc_habitId c) (h_id h)
                     && (Prisma.toDate (startOfToday zone now)
                           <=? Prisma.toDate (hc_date c))
                     && (Prisma.toDate (hc_date c)
                           <? Prisma.toDate (startOfTomorrow zone now)))
           (habitCompletions d) in
  map (fun h => Prisma.mkHabitWith h (subscriptionsOf h) (completionsOf h))
      (filter (fun h => Prisma.option_eqb (h_reminderTime h) (formatHHmm zone now)
                        && negb (Z.of_nat (List.length (subscriptionsOf h)) =? 0))
              (habits d)).

(** The completion ledger of a world. *)
Definition ledger (w : World) : list HabitCompletion := habitCompletions (db w).

Definition unsubscribeRequest (userId endpoint : string) : AuthRequest :=
  mkRequest (Some userId) "" (Some endpoint) 0 None None.

Definition registeredTo (w : World) (endpoint : string)
  : option NotificationSubscription :=
  find (fun s => String.eqb (ns_endpoint s) endpoint) (registry w).

Definition withRegistry (w : World) (rows : list NotificationSubscription) : World :=
  mkWorld (Prisma.setSubscriptions (db w) rows) (transport w) (deliveries w)
          (console w).

(** C8 as the specification words it: an endpoint that is not registered
    is unsubscribed with a success response. *)
Definition unsubscribe_unregistered_succeeds : Prop :=
  forall w userId endpoint,
    userId <> ""%string -> endpoint <> ""%string ->
    registeredTo w endpoint = None ->
    exists r, unsubscribe (unsubscribeRequest userId endpoint) w = (Return r, w)
              /\ 200 <= status r < 300.

(** A world with no rows at all. *)
Definition emptyWorld : World :=
  mkWorld (mkDb [] [] [] [] 0) (fun _ _ _ => Delivered) [] [].

(** ** Sample data *)

Definition habit1 : Habit := mkHabit "habit-1" "user-1" "Run" (Some "07:00"%string).
Definition habit2 : Habit := mkHabit "habit-2" "user-1" "Read" (Some "21:30"%string).

Definition subA : NotificationSubscription :=
  mkSubscription "sub-a" "user-1" (Some "habit-1"%string)
                 "https://push.example/a" (mkKeys "pa" "aa").
Definition subB : NotificationSubscription :=
  mkSubscription "sub-b" "user-1" (Some "habit-1"%string)
                 "https://push.example/b" (mkKeys "pb" "ab").
(** A subscription for all habits of its owner (null habit reference). *)
Definition subG : NotificationSubscription :=
  mkSubscription "sub-g" "user-1" None
                 "https://push.example/g" (mkKeys "pg" "ag").

(** A push service on which endpoint [a] has expired. *)
Definition sampleTransport (_ : list Delivery) (p : PushSubscription) (_ : Payload)
  : SendResult :=
  if String.eqb (endpoint p) "https://push.example/a"
  then Rejected (Some 410) else Delivered.

Definition sampleWorld : World :=
  mkWorld (mkDb [habit1; habit2] [] [] [subA; subB; subG] 0) sampleTransport [] [].

(** The same world once habit 1 has been completed on 2024-01-05. *)
Definition completedWorld : World :=
  mkWorld (mkDb [habit1; habit2] [completionOn 2024 1 5] [] [subA; subB; subG] 1)
          sampleTransport [] [].

(** 2024-01-05 07:00:30 UTC. *)
Definition sevenAM : Z := utcDate 2024 1 5 + MakeTime 7 0 30 0.

(** C4 as the specification words it: a reminder for a habit reaches every
    subscription that refers to the habit, and every subscription without a
    habit reference that belongs to the owner of the habit. *)
Definition dispatch_reaches_general_subscriptions : Prop :=
  forall (w w' : World) (h : Habit) (message : string),
    NoDup (map ns_id (registry w)) ->
    In h (habits (db w)) ->
    sendHabitReminder (h_id h) message w = (Return tt, w') ->
    forall s, In s (registry w) ->
      (ns_habitId s = Some (h_id h)
       \/ (ns_habitId s = None /\ ns_userId s = h_userId h)) ->
      exists d, In d (deliveries w') /\ d_subscription d = pushOf s
                /\ d_payload d = mkPayload "Habit Reminder" message (h_id h).

(* ------------------------------------------------------------------ *)
(** ** Vocabulary of the further properties *)

(** The result of the walk, as a property of the days. *)
Definition streakOf (tz : Z) (completions : list HabitCompletion)
           (skips : list HabitSkip) (today n : Z) : Prop :=
  0 <= n
  /\ (forall i, 0 <= i < n ->
        completedOn tz completions (today - i) /\ ~ skippedOn tz skips (today - i))
  /\ (skippedOn tz skips (today - n) \/ ~ completedOn tz completions (today - n)).

(** The local minute of the day of an instant, 0..1439. *)
Definition minuteOfDay (tz t : Z) : Z := ((t + tz) / (1000 * 60)) mod (24 * 60).

(** The registry row for an endpoint after a subscription by [userId]. *)
Definition subscribedRow (s : NotificationSubscription) (userId endpoint : string)
           (keys : Keys) (habitId : option string) : Prop :=
  ns_userId s = userId /\ ns_endpoint s = endpoint /\ ns_keys s = keys
  /\ ns_habitId s = orNull habitId.

(** The rows after an update of the subscription of [endpoint]. *)
Definition updatedRows (rows : list NotificationSubscription) (endpoint : string)
           (keys : Keys) (habitId : option string) :=
  map (fun s => if String.eqb (ns_endpoint s) endpoint
                then mkSubscription (ns_id s) (ns_userId s) habitId (ns_endpoint s) keys
                else s) rows.

(** The owner's habit a subscribe request names, when it names one. *)
Definition namesOwnHabit (w : World) (userId : string) (habitId : option string) : Prop :=
  truthy habitId = true ->
  exists h, In h (habits (db w)) /\ Some (h_id h) = habitId /\ h_userId h = userId.

(** The requests that pass the checks of the handler: an authenticated
    user, an endpoint and both keys. *)
Definition wellFormed (req : SubscribeRequest) (userId endpoint : string) (keys : Keys)
  : Prop :=
  sr_userId req = Some userId /\ sr_endpoint req = Some endpoint
  /\ sr_keys req = Some (Some (p256dh keys), Some (auth keys))
  /\ userId <> ""%string /\ endpoint <> ""%string
  /\ p256dh keys <> ""%string /\ auth keys <> ""%string.

(** The habit [habitId] is stored and belongs to [userId]. *)
Definition owns (w : World) (userId habitId : string) : Prop :=
  exists h, In h (habits (db w)) /\ h_id h = habitId /\ h_userId h = userId.

(** The unique index of [habit_completions] on [(habitId, date)]. *)
Definition uniqueDates (l : list HabitCompletion) : Prop :=
  NoDup (map (fun c => (hc_habitId c, hc_date c)) l).

(** The foreign key of [habit_completions.habitId]. *)
Definition completionsReferToHabits (w : World) : Prop :=
  forall c, In c (ledger w) -> exists h, In h (habits (db w)) /\ h_id h = hc_habitId c.

(** A bound of a query given as a date-only string [YYYY-MM-DD]: the time
    value of a UTC midnight. *)
Definition dateOnly (d : option Z) : Prop :=
  forall t, d = Some t -> TimeWithinDay t = 0.

(** [t] lies between the bounds that are given. *)
Definition within (lo hi : option Z) (t : Z) : Prop :=
  (forall s, lo = Some s -> s <= t) /\ (forall e, hi = Some e -> t <= e).

(** The tables other than the completions are the same in both worlds. *)
Definition sameButLedger (w w' : World) : Prop :=
  habits (db w') = habits (db w) /\ habitSkips (db w') = habitSkips (db w)
  /\ registry w' = registry w /\ deliveries w' = deliveries w.

(** The tables other than the skips are the same in both worlds. *)
Definition sameButSkips (w w' : World) : Prop :=
  habits (db w') = habits (db w) /\ ledger w' = ledger w
  /\ registry w' = registry w /\ deliveries w' = deliveries w.

(** The completions and the skips stored for a habit. *)
Definition completionsOf (w : World) (habitId : string) : list HabitCompletion :=
  filter (fun c => String.eqb (hc_habitId c) habitId) (ledger w).
Definition skipsOf (w : World) (habitId : string) : list HabitSkip :=
  filter (fun s => String.eqb (hs_habitId s) habitId) (habitSkips (db w)).

(** The habits of a user. *)
Definition habitsOf (w : World) (userId : string) : list Habit :=
  filter (fun h => String.eqb (h_userId h) userId) (habits (db w)).

(** The sum of a list of integers. *)
Definition sumZ (l : list Z) : Z := fold_right Z.add 0 l.

(** A habit with a completion or a skip. *)
Definition hasAttempts (habit : Habit * list HabitCompletion * list HabitSkip) : bool :=
  let '(_, completions, skips) := habit in
  negb ((List.length completions + List.length skips)%nat =? 0)%nat.

(** The extremes of the rate of [tc] completions and [ts] skips. *)
Definition rateExtremes (tc ts : Z) : bool :=
  let r := completionRateOf tc ts in
  PrimFloat.leb 0 r && PrimFloat.leb r 100
  && Bool.eqb (PrimFloat.eqb r 0) (tc =? 0)
  && Bool.eqb (PrimFloat.eqb r 100) ((0 <? tc) && (ts =? 0)).

(** A request of user 2 for the endpoint that user 1 has registered. *)
Definition takeoverRequest : SubscribeRequest :=
  mkSubscribeRequest (Some "user-2"%string) (Some "https://push.example/a"%string)
                     (Some (Some "p"%string, Some "a"%string)) None.

(** A request of user 2 that names a habit of user 1. *)
Definition foreignHabitRequest : SubscribeRequest :=
  mkSubscribeRequest (Some "user-2"%string) (Some "https://push.example/n"%string)
                     (Some (Some "p"%string, Some "a"%string)) (Some "habit-1"%string).

(** ** Dates *)

(** A completion, or a skip, is recorded for the date [d] (a day number):
    the rows carry a calendar date, which Prisma returns as the time value
    of its UTC midnight. *)
Definition datedOn (completions : list HabitCompletion) (d : Z) : Prop :=
  exists c, In c completions /\ Day (hc_date c) = d.
Definition skipDatedOn (skips : list HabitSkip) (d : Z) : Prop :=
  exists s, In s skips /\ Day (hs_date s) = d.

(** Rows as the [DATE] columns give them: UTC midnights. *)
Definition dateRows (completions : list HabitCompletion) : Prop :=
  forall c, In c completions -> TimeWithinDay (hc_date c) = 0.
Definition dateSkips (skips : list HabitSkip) : Prop :=
  forall s, In s skips -> TimeWithinDay (hs_date s) = 0.

(** The current streak as the specification words it: [n] dates back from
    [today] each carry a completion and no skip, and the date before them
    carries a skip or no completion. *)
Definition streakOnDates (completions : list HabitCompletion)
           (skips : list HabitSkip) (today n : Z) : Prop :=
  0 <= n
  /\ (forall i, 0 <= i < n ->
        datedOn completions (today - i) /\ ~ skipDatedOn skips (today - i))
  /\ (skipDatedOn skips (today - n) \/ ~ datedOn completions (today - n)).

(** West of UTC the local day of a UTC midnight is the day before its
    date. *)
Definition westShift (tz : Z) : Z := if tz <? 0 then 1 else 0.

(** The key [HH:mm] of the minute [m] of the day. *)
Definition clockKey (m : Z) : string :=
  (pad2 (m / 60) ++ ":" ++ pad2 (m mod 60))%string.

(** ** Sample zones *)

Definition hours (h : Z) : Z := h * (1000 * 60 * 60).

(** Bogota, UTC-5 all year, and Karachi, UTC+5 all year. *)
Definition bogota : Zone := fixedOffset (- hours 5).
Definition karachi : Zone := fixedOffset (hours 5).

(** New York in 2024: UTC-5, and UTC-4 between 2024-03-10 07:00 UTC and
    2024-11-03 06:00 UTC.  On the local clock the hour from 02:00 on March
    10 does not exist and the hour from 01:00 on November 3 comes twice;
    both are read with the offset before the change. *)
Definition newYork2024 : Zone :=
  mkZone
    (fun t => if (utcDate 2024 3 10 + hours 7 <=? t) && (t <? utcDate 2024 11 3 + hours 6)
              then - hours 4 else - hours 5)
    (fun t => if (utcDate 2024 3 10 + hours 3 <=? t) && (t <? utcDate 2024 11 3 + hours 2)
              then - hours 4 else - hours 5).

(** ** The completion rate in hundredths *)

(** [k] hundredths is the rate of [tc] completions and [ts] skips, in per
    cent, rounded to 2 decimal places: [k / 100] is at most half a hundredth
    away from [tc / (tc + ts) * 100] (on a tie, either neighbour). *)
Definition roundedRate (tc ts k : Z) : Prop :=
  2 * Z.abs (k * (tc + ts) - 10000 * tc) <= tc + ts.

(** The number [k / 100] in binary64. *)
Definition hundredths (k : Z) : float := PrimFloat.div (Number_ k) 100.


(* ================================================================== *)
(** * Properties *)

#[local] Set Warnings "-inexact-float".

(* ------------------------------------------------------------------ *)
(** ** Calendar arithmetic *)

Section Calendar.
Import JsDate.

Lemma allRange_spec (f : Z -> bool) (n : nat) :
  forall lo, allRange f n lo = true ->
  forall z, lo <= z < lo + 2 ^ Z.of_nat n -> f z = true.
Proof.
  induction n as [|k IH]; intros lo H z Hz.
  - simpl in *. assert (z = lo) by lia. subst. exact H.
  - cbn [allRange] in H. apply andb_true_iff in H as [Hl Hr].
    rewrite Nat2Z.inj_succ, Z.pow_succ_r in Hz by lia.
    destruct (Z_lt_ge_dec z (lo + 2 ^ Z.of_nat k)).
    + apply (IH lo Hl). lia.
    + apply (IH _ Hr). lia.
Qed.

Lemma doeCheck_all :
  allRange (fun doe => (146097 <=? doe) || doeCheck doe) 18 0 = true.
Proof. vm_cast_no_check (eq_refl true). Qed.

Lemma civilOfDoe_spec doe :
  0 <= doe < 146097 ->
  let '(yoe, m, d) := civilOfDoe doe in
  0 <= yoe < 400 /\ 1 <= m <= 12 /\ 1 <= d <= 31 /\ doeOfCivil yoe m d = doe.
Proof.
  intros H. pose proof (allRange_spec _ _ _ doeCheck_all doe) as C.
  assert (Hc : doeCheck doe = true).
  { change (2 ^ Z.of_nat 18) with 262144 in C.
    specialize (C ltac:(lia)). cbv beta in C.
    destruct (146097 <=? doe) eqn:E; [lia|exact C]. }
  unfold doeCheck in Hc. destruct (civilOfDoe doe) as [[yoe m] d].
  repeat (apply andb_true_iff in Hc as [Hc ?]). lia.
Qed.

Lemma civilFromDays_eq z :
  civilFromDays z =
  let era := (z + 719468) / 146097 in
  let '(yoe, m, d) := civilOfDoe ((z + 719468) mod 146097) in
  (if m <=? 2 then yoe + era * 400 + 1 else yoe + era * 400, m, d).
Proof. reflexivity. Qed.

Lemma daysFromCivil_eq y m d :
  daysFromCivil y m d =
  let y' := if m <=? 2 then y - 1 else y in
  (y' / 400) * 146097 + doeOfCivil (y' mod 400) m d - 719468.
Proof. unfold daysFromCivil, doeOfCivil. cbv zeta. lia. Qed.

Lemma civilFromDays_range z :
  let '(y, m, d) := civilFromDays z in 1 <= m <= 12 /\ 1 <= d <= 31.
Proof.
  rewrite civilFromDays_eq. cbv zeta.
  pose proof (civilOfDoe_spec ((z + 719468) mod 146097)) as S.
  destruct (civilOfDoe _) as [[yoe m] d].
  assert (0 <= (z + 719468) mod 146097 < 146097) by (apply Z.mod_pos_bound; lia).
  tauto.
Qed.

Lemma daysFromCivil_civilFromDays z :
  let '(y, m, d) := civilFromDays z in daysFromCivil y m d = z.
Proof.
  rewrite civilFromDays_eq. cbv zeta.
  pose proof (civilOfDoe_spec ((z + 719468) mod 146097)) as S.
  assert (Hb : 0 <= (z + 719468) mod 146097 < 146097) by (apply Z.mod_pos_bound; lia).
  destruct (civilOfDoe _) as [[yoe m] d]. specialize (S Hb).
  destruct S as (Hy & Hm & Hd & Hdoe).
  rewrite daysFromCivil_eq. cbv zeta.
  set (era := (z + 719468) / 146097) in *.
  assert (Hy' : (if m <=? 2
                 then (if m <=? 2 then yoe + era * 400 + 1 else yoe + era * 400) - 1
                 else (if m <=? 2 then yoe + era * 400 + 1 else yoe + era * 400))
                = yoe + era * 400) by (destruct (m <=? 2); lia).
  rewrite Hy'.
  rewrite Z.div_add by lia. rewrite Z.mod_add by lia.
  rewrite (Z.div_small yoe 400) by lia. rewrite (Z.mod_small yoe 400) by lia.
  rewrite Hdoe. pose proof (Z.div_mod (z + 719468) 146097). unfold era. lia.
Qed.

Lemma civilFromDays_inj z1 z2 : civilFromDays z1 = civilFromDays z2 -> z1 = z2.
Proof.
  intros E. pose proof (daysFromCivil_civilFromDays z1) as H1.
  pose proof (daysFromCivil_civilFromDays z2) as H2.
  rewrite E in H1. destruct (civilFromDays z2) as [[y m] d]. congruence.
Qed.
End Calendar.

(* ------------------------------------------------------------------ *)
(** ** Date keys *)

Section DateKeys.
Import JsDate.

Lemma String_inj a b : Js.String_ a = Js.String_ b -> a = b.
Proof.
  unfold Js.String_. intros E.
  apply DecimalZ.to_int_inj.
  pose proof (NilEmpty.isi (Z.to_int a)) as Ha.
  pose proof (NilEmpty.isi (Z.to_int b)) as Hb.
  rewrite E in Ha. congruence.
Qed.

Lemma length_append (s t : string) :
  String.length (s ++ t) = (String.length s + String.length t)%nat.
Proof. induction s as [|a s IH]; simpl; [reflexivity | now rewrite IH]. Qed.

Lemma append_inj_suffix (s1 s2 t1 t2 : string) :
  String.length t1 = String.length t2 ->
  (s1 ++ t1)%string = (s2 ++ t2)%string -> s1 = s2 /\ t1 = t2.
Proof.
  intros L. revert s2. induction s1 as [|a s1 IH]; intros [|b s2] E; simpl in E.
  - auto.
  - exfalso. apply (f_equal String.length) in E. simpl in E.
    rewrite length_append in E. lia.
  - exfalso. apply (f_equal String.length) in E. simpl in E.
    rewrite length_append in E. lia.
  - injection E as -> E. destruct (IH _ E) as [-> ->]. auto.
Qed.

Lemma pad2Check_all : allRange pad2Check 6 0 = true.
Proof. vm_cast_no_check (eq_refl true). Qed.

Lemma pad2_length n : 0 <= n < 64 -> String.length (pad2 n) = 2%nat.
Proof.
  intros H. pose proof (allRange_spec _ _ _ pad2Check_all n) as C.
  change (2 ^ Z.of_nat 6) with 64 in C. specialize (C ltac:(lia)).
  unfold pad2Check in C. apply andb_true_iff in C as [C _].
  now apply Nat.eqb_eq in C.
Qed.

Lemma pad2_inj a b : 0 <= a < 64 -> 0 <= b < 64 -> pad2 a = pad2 b -> a = b.
Proof.
  intros Ha Hb E.
  pose proof (allRange_spec _ _ _ pad2Check_all a) as Ca.
  pose proof (allRange_spec _ _ _ pad2Check_all b) as Cb.
  change (2 ^ Z.of_nat 6) with 64 in *.
  specialize (Ca ltac:(lia)). specialize (Cb ltac:(lia)).
  unfold pad2Check in Ca, Cb. rewrite E in Ca.
  apply andb_true_iff in Ca as [_ Ca]. apply andb_true_iff in Cb as [_ Cb].
  destruct (NilEmpty.int_of_string (pad2 b)); [|discriminate]. lia.
Qed.

Variable tz : Z.

Lemma dateStr_civil t :
  dateStr tz t =
  let '(y, m, d) := civilFromDays (localDay tz t) in
  (Js.String_ y ++ "-" ++ pad2 m ++ "-" ++ pad2 d)%string.
Proof.
  unfold dateStr, getFullYear, getMonth, getDate, YearFromTime, MonthFromTime,
    DateFromTime, localDay, pad2.
  destruct (civilFromDays (Day (LocalTime tz t))) as [[y m] d]. simpl.
  replace (m - 1 + 1) with m by lia. reflexivity.
Qed.

Lemma dateStr_localDay t1 t2 :
  dateStr tz t1 = dateStr tz t2 <-> localDay tz t1 = localDay tz t2.
Proof.
  split.
  - rewrite !dateStr_civil. intros E. apply civilFromDays_inj.
    pose proof (civilFromDays_range (localDay tz t1)) as R1.
    pose proof (civilFromDays_range (localDay tz t2)) as R2.
    destruct (civilFromDays (localDay tz t1)) as [[y1 m1] d1].
    destruct (civilFromDays (localDay tz t2)) as [[y2 m2] d2].
    destruct R1 as [Rm1 Rd1], R2 as [Rm2 Rd2].
    apply append_inj_suffix in E.
    2:{ simpl. rewrite !length_append. simpl.
        rewrite !pad2_length by lia. reflexivity. }
    destruct E as [Ey E]. apply String_inj in Ey.
    injection E as E.
    apply append_inj_suffix in E.
    2:{ simpl. rewrite !pad2_length by lia. reflexivity. }
    destruct E as [Em E]. injection E as Ed.
    apply pad2_inj in Em; [|lia|lia]. apply pad2_inj in Ed; [|lia|lia].
    congruence.
  - intros E. rewrite !dateStr_civil, E. reflexivity.
Qed.

Lemma setHours_midnight t :
  setHours tz t 0 0 0 0 = localDay tz t * msPerDay - tz.
Proof.
  unfold setHours, UTC, MakeDate, MakeTime, localDay.
  cbn [offsetAtUTC offsetAtLocal fixedOffset]. lia.
Qed.

Lemma localDay_midnight d : localDay tz (d * msPerDay - tz) = d.
Proof.
  unfold localDay, LocalTime, Day. cbn [offsetAtUTC offsetAtLocal fixedOffset].
  replace (d * msPerDay - tz + tz) with (d * msPerDay) by lia.
  apply Z.div_mul. unfold msPerDay. lia.
Qed.

Lemma daysFromCivil_linear y m d :
  daysFromCivil y m d = daysFromCivil y m 1 + d - 1.
Proof. unfold daysFromCivil. cbv zeta. lia. Qed.

Lemma setDate_previous t :
  setDate tz t (getDate tz t - 1) = t - msPerDay.
Proof.
  unfold setDate, getDate, MakeDay, YearFromTime, MonthFromTime, DateFromTime.
  cbv zeta.
  pose proof (civilFromDays_range (Day (LocalTime tz t))) as R.
  pose proof (daysFromCivil_civilFromDays (Day (LocalTime tz t))) as I.
  destruct (civilFromDays (Day (LocalTime tz t))) as [[y m] d]. simpl.
  destruct R as [Rm Rd].
  rewrite (Z.div_small (m - 1) 12) by lia.
  rewrite (Z.mod_small (m - 1) 12) by lia.
  replace (y + 0) with y by lia. replace (m - 1 + 1) with m by lia.
  rewrite daysFromCivil_linear in I.
  unfold UTC, MakeDate, TimeWithinDay.
  pose proof (Z.div_mod (LocalTime tz t) msPerDay ltac:(unfold msPerDay; lia)) as DM.
  unfold Day in *. unfold LocalTime in *.
  cbn [offsetAtUTC offsetAtLocal fixedOffset] in *. nia.
Qed.

Lemma localDay_previous t : localDay tz (t - msPerDay) = localDay tz t - 1.
Proof.
  unfold localDay, LocalTime, Day. cbn [offsetAtUTC offsetAtLocal fixedOffset].
  replace (t - msPerDay + tz) with (t + tz + (-1) * msPerDay) by lia.
  rewrite Z.div_add by (unfold msPerDay; lia). lia.
Qed.

(** In a zone at a constant offset [startOfTomorrow] is the next local
    midnight. *)
Lemma startOfTomorrow_fixed t :
  startOfTomorrow tz t = (localDay tz t + 1) * msPerDay - tz.
Proof.
  unfold startOfTomorrow. cbv zeta. rewrite setHours_midnight. f_equal. f_equal.
  unfold setFullYear, getFullYear, getMonth, getDate, MakeDay, YearFromTime,
    MonthFromTime, DateFromTime.
  pose proof (civilFromDays_range (Day (LocalTime tz t))) as R.
  pose proof (daysFromCivil_civilFromDays (Day (LocalTime tz t))) as I.
  destruct (civilFromDays (Day (LocalTime tz t))) as [[y m] d]. simpl.
  destruct R as [Rm Rd].
  rewrite (Z.div_small (m - 1) 12) by lia.
  rewrite (Z.mod_small (m - 1) 12) by lia.
  replace (y + 0) with y by lia. replace (m - 1 + 1) with m by lia.
  rewrite daysFromCivil_linear in I.
  unfold localDay, UTC, MakeDate, TimeWithinDay, LocalTime, Day in *.
  cbn [offsetAtUTC offsetAtLocal fixedOffset] in *.
  assert (0 < msPerDay) as Hpos by (unfold msPerDay; lia).
  pose proof (Z.mod_pos_bound tz msPerDay Hpos) as MB.
  symmetry. apply Z.div_unique with (r := tz mod msPerDay); lia.
Qed.
End DateKeys.

(* ------------------------------------------------------------------ *)
(** ** Sets and the current-streak loop *)

(** ** Sets *)
Section SetFacts.
Context {A : Type} (eqb : A -> A -> bool).
Hypothesis eqb_eq : forall a b, eqb a b = true <-> a = b.

Lemma has_In s x : Js.has eqb s x = true <-> In x s.
Proof.
  unfold Js.has. rewrite existsb_exists. split.
  - intros (y & Hy & E). apply eqb_eq in E. now subst.
  - intros H. exists x. split; [exact H | now apply eqb_eq].
Qed.

Lemma add_In s x y : In y (Js.add eqb s x) <-> In y s \/ y = x.
Proof.
  unfold Js.add. destruct (Js.has eqb s x) eqn:E.
  - apply has_In in E. split; [auto | intros [H | ->]; auto].
  - rewrite in_app_iff. simpl. intuition.
Qed.

Lemma add_NoDup s x : NoDup s -> NoDup (Js.add eqb s x).
Proof.
  intros N. unfold Js.add. destruct (Js.has eqb s x) eqn:E; [exact N|].
  assert (~ In x s) as Hn.
  { intros H. apply has_In in H. congruence. }
  clear E. induction N as [|a s Ha N IH]; simpl.
  - constructor; [intros [] | constructor].
  - constructor.
    + rewrite in_app_iff. simpl. intros [H | [H | []]]; [tauto|].
      subst. apply Hn. now left.
    + apply IH. intros H. apply Hn. now right.
Qed.

Lemma add_length s x : (List.length (Js.add eqb s x) <= S (List.length s))%nat.
Proof.
  unfold Js.add. destruct (Js.has eqb s x); [lia|].
  rewrite length_app. simpl. lia.
Qed.

Lemma fold_add_facts l : forall s, NoDup s ->
  (forall y, In y (fold_left (Js.add eqb) l s) <-> In y s \/ In y l)
  /\ NoDup (fold_left (Js.add eqb) l s)
  /\ (List.length (fold_left (Js.add eqb) l s) <= List.length s + List.length l)%nat.
Proof.
  induction l as [|x l IH]; intros s N; simpl.
  - repeat split; [tauto | tauto | exact N | lia].
  - destruct (IH (Js.add eqb s x) (add_NoDup s x N)) as (I & D & L).
    repeat split.
    + intros H. apply I in H. rewrite add_In in H. intuition.
    + intros H. apply I. rewrite add_In. intuition.
    + exact D.
    + pose proof (add_length s x). lia.
Qed.

Lemma newSet_In l y : In y (Js.newSet eqb l) <-> In y l.
Proof.
  unfold Js.newSet. destruct (fold_add_facts l [] (NoDup_nil _)) as (I & _).
  rewrite I. simpl. tauto.
Qed.

Lemma newSet_NoDup l : NoDup (Js.newSet eqb l).
Proof. exact (proj1 (proj2 (fold_add_facts l [] (NoDup_nil _)))). Qed.

Lemma newSet_length l : (List.length (Js.newSet eqb l) <= List.length l)%nat.
Proof.
  pose proof (proj2 (proj2 (fold_add_facts l [] (NoDup_nil _)))) as H.
  exact H.
Qed.
End SetFacts.

(** ** The ledger seen day by day *)
Section Streak.
Import JsDate Analytics.
Variable tz : Z.

Variable completions : list HabitCompletion.
Variable skips : list HabitSkip.

Let completionDates :=
  Js.newSet String.eqb (map (fun c => dateStr tz (hc_date c)) completions).
Let skipDates :=
  Js.newSet String.eqb (map (fun s => dateStr tz (hs_date s)) skips).

Lemma completionDates_has t :
  Js.has String.eqb completionDates (dateStr tz t) = true
  <-> completedOn tz completions (localDay tz t).
Proof.
  unfold completionDates.
  rewrite (has_In _ String.eqb_eq), (newSet_In _ String.eqb_eq), in_map_iff.
  split.
  - intros (c & E & Hc). exists c. split; [exact Hc|].
    now apply dateStr_localDay.
  - intros (c & Hc & E). exists c. split; [|exact Hc].
    now apply dateStr_localDay.
Qed.

Lemma skipDates_has t :
  Js.has String.eqb skipDates (dateStr tz t) = true
  <-> skippedOn tz skips (localDay tz t).
Proof.
  unfold skipDates.
  rewrite (has_In _ String.eqb_eq), (newSet_In _ String.eqb_eq), in_map_iff.
  split.
  - intros (c & E & Hc). exists c. split; [exact Hc|].
    now apply dateStr_localDay.
  - intros (c & Hc & E). exists c. split; [|exact Hc].
    now apply dateStr_localDay.
Qed.

(** What a finished walk has seen. *)
Lemma streakLoop_sound fuel : forall streak cur n,
  streakLoop tz fuel completionDates skipDates streak cur = Some n ->
  streak <= n
  /\ (forall i, 0 <= i < n - streak ->
        completedOn tz completions (localDay tz cur - i)
        /\ ~ skippedOn tz skips (localDay tz cur - i))
  /\ (skippedOn tz skips (localDay tz cur - (n - streak))
      \/ ~ completedOn tz completions (localDay tz cur - (n - streak))).
Proof.
  induction fuel as [|fuel IH]; intros streak cur n H; [discriminate|].
  cbn [streakLoop] in H. cbv zeta in H.
  destruct (Js.has String.eqb skipDates (dateStr tz cur)) eqn:Hs.
  - injection H as <-. apply skipDates_has in Hs.
    replace (streak - streak) with 0 by lia. rewrite Z.sub_0_r.
    repeat split; [lia | lia.. | now left].
  - assert (Hns : ~ skippedOn tz skips (localDay tz cur)).
    { intros K. apply skipDates_has in K. congruence. }
    destruct (Js.has String.eqb completionDates (dateStr tz cur)) eqn:Hc.
    + apply completionDates_has in Hc.
      rewrite setDate_previous in H. apply IH in H.
      rewrite localDay_previous in H. destruct H as (Hle & Hall & Hend).
      split; [lia|]. split.
      * intros i Hi. destruct (Z.eq_dec i 0) as [->|Hne].
        { rewrite Z.sub_0_r. auto. }
        specialize (Hall (i - 1) ltac:(lia)).
        replace (localDay tz cur - 1 - (i - 1)) with (localDay tz cur - i) in Hall by lia.
        exact Hall.
      * replace (localDay tz cur - 1 - (n - (streak + 1)))
          with (localDay tz cur - (n - streak)) in Hend by lia.
        exact Hend.
    + injection H as <-.
      replace (streak - streak) with 0 by lia. rewrite Z.sub_0_r.
      repeat split; [lia | lia.. | right].
      intros K. apply completionDates_has in K. congruence.
Qed.

(** A walk that uses up its budget has found a completion on each of the
    days it visited. *)
Lemma streakLoop_exhausted fuel : forall streak cur,
  streakLoop tz fuel completionDates skipDates streak cur = None ->
  forall i, (i < fuel)%nat ->
    In (dateStr tz (cur - Z.of_nat i * msPerDay)) completionDates.
Proof.
  induction fuel as [|fuel IH]; intros streak cur H i Hi; [lia|].
  cbn [streakLoop] in H. cbv zeta in H.
  destruct (Js.has String.eqb skipDates (dateStr tz cur)); [discriminate|].
  destruct (Js.has String.eqb completionDates (dateStr tz cur)) eqn:Hc;
    [|discriminate].
  destruct i as [|i].
  - apply (has_In _ String.eqb_eq) in Hc. simpl. now rewrite Z.sub_0_r.
  - rewrite setDate_previous in H.
    specialize (IH _ _ H i ltac:(lia)).
    replace (cur - Z.of_nat (S i) * msPerDay)
      with (cur - msPerDay - Z.of_nat i * msPerDay) by lia.
    exact IH.
Qed.

Lemma localDay_back cur i :
  localDay tz (cur - i * msPerDay) = localDay tz cur - i.
Proof.
  unfold localDay, LocalTime, Day. cbn [offsetAtUTC offsetAtLocal fixedOffset].
  replace (cur - i * msPerDay + tz) with (cur + tz + (- i) * msPerDay) by lia.
  rewrite Z.div_add by (unfold msPerDay; lia). lia.
Qed.

Lemma visited_keys_NoDup cur (n : nat) :
  NoDup (map (fun i => dateStr tz (cur - Z.of_nat i * msPerDay)) (seq 0 n)).
Proof.
  apply Injective_map_NoDup_in; [|apply seq_NoDup].
  intros i j _ _ E. apply dateStr_localDay in E.
  rewrite !localDay_back in E. lia.
Qed.

Lemma streakLoop_terminates fuel streak cur :
  (List.length completions < fuel)%nat ->
  streakLoop tz fuel completionDates skipDates streak cur <> None.
Proof.
  intros Hf H.
  pose proof (streakLoop_exhausted _ _ _ H) as Hin.
  assert (incl (map (fun i => dateStr tz (cur - Z.of_nat i * msPerDay)) (seq 0 fuel))
               completionDates) as Hincl.
  { intros k Hk. apply in_map_iff in Hk as (i & <- & Hi).
    apply in_seq in Hi. apply Hin. lia. }
  apply NoDup_incl_length in Hincl; [|apply visited_keys_NoDup].
  rewrite length_map, length_seq in Hincl.
  pose proof (newSet_length String.eqb String.eqb_eq
                (map (fun c => dateStr tz (hc_date c)) completions)) as L.
  rewrite length_map in L. fold completionDates in L. lia.
Qed.

Lemma streakLoop_more_fuel fuel : forall extra streak cur n,
  streakLoop tz fuel completionDates skipDates streak cur = Some n ->
  streakLoop tz (fuel + extra) completionDates skipDates streak cur = Some n.
Proof.
  induction fuel as [|fuel IH]; intros extra streak cur n H; [discriminate|].
  cbn [streakLoop Nat.add] in *. cbv zeta in *.
  destruct (Js.has String.eqb skipDates (dateStr tz cur)); [exact H|].
  destruct (Js.has String.eqb completionDates (dateStr tz cur)); [|exact H].
  now apply IH.
Qed.
End Streak.

(* ------------------------------------------------------------------ *)
(** ** Sorting and the longest-streak loop *)

(** ** Sorting *)
Section Sorting.
Lemma insertAsc_In x l y : In y (Js.insertAsc x l) <-> y = x \/ In y l.
Proof.
  induction l as [|a l IH]; simpl.
  - intuition.
  - destruct (x <? a); simpl; [intuition|]. rewrite IH. intuition.
Qed.

Lemma insertAsc_sorted x l :
  StronglySorted Z.lt l -> ~ In x l -> StronglySorted Z.lt (Js.insertAsc x l).
Proof.
  induction 1 as [|a l S IH F]; intros N; simpl.
  - constructor; constructor.
  - destruct (x <? a) eqn:E.
    + apply Z.ltb_lt in E. constructor; [now constructor|].
      constructor; [exact E|]. rewrite Forall_forall in *.
      intros z Hz. specialize (F z Hz). lia.
    + apply Z.ltb_ge in E. constructor.
      * apply IH. intros H. apply N. now right.
      * rewrite Forall_forall in *. intros z Hz.
        apply insertAsc_In in Hz as [->|Hz]; [|now apply F].
        assert (x <> a) by (intros ->; apply N; now left). lia.
Qed.

Lemma sortAsc_fold l : Js.sortAsc l = fold_right Js.insertAsc [] (rev l).
Proof. unfold Js.sortAsc. now rewrite <- fold_left_rev_right. Qed.

Lemma sortAsc_In l y : In y (Js.sortAsc l) <-> In y l.
Proof.
  rewrite sortAsc_fold, (in_rev l y).
  induction (rev l) as [|a r IH]; simpl; [tauto|].
  rewrite insertAsc_In, IH. intuition.
Qed.

Lemma sortAsc_sorted l : NoDup l -> StronglySorted Z.lt (Js.sortAsc l).
Proof.
  intros N. rewrite sortAsc_fold. apply NoDup_rev in N.
  induction N as [|a r Ha N IH]; simpl; [constructor|].
  apply insertAsc_sorted; [exact IH|].
  intros H. apply Ha.
  clear - H. induction r as [|b r IH]; simpl in *; [tauto|].
  apply insertAsc_In in H. intuition.
Qed.
End Sorting.

(** ** Runs of consecutive days *)
Section Longest.
Import JsDate Analytics.
Variable tz : Z.

Lemma midnight_diff x y :
  midnight tz x -> midnight tz y ->
  (y - x) / (1000 * 60 * 60 * 24) = localDay tz y - localDay tz x.
Proof.
  intros Hx Hy. unfold midnight in Hx, Hy.
  change (1000 * 60 * 60 * 24) with msPerDay.
  replace (y - x) with ((localDay tz y - localDay tz x) * msPerDay)
    by (unfold msPerDay in *; lia).
  apply Z.div_mul. unfold msPerDay. lia.
Qed.

Lemma midnight_lt x y :
  midnight tz x -> midnight tz y -> x < y -> localDay tz x < localDay tz y.
Proof.
  intros Hx Hy L. unfold midnight, msPerDay in Hx, Hy. lia.
Qed.

Variable P : Z -> Prop.

Lemma longest_loop rest : forall x st,
  StronglySorted Z.lt (x :: rest) ->
  (forall m, In m (x :: rest) -> midnight tz m /\ P (localDay tz m)) ->
  (forall d, P d -> d <= localDay tz x \/ In (d * msPerDay - tz) rest) ->
  LoopInv tz P st x ->
  exists x', LoopInv tz P (fold_left longestStep rest st) x'
             /\ (forall d, P d -> d <= localDay tz x').
Proof.
  induction rest as [|y rest IH]; intros x st S M C I.
  - simpl. exists x. split; [exact I|].
    intros d Hd. destruct (C d Hd) as [H|[]]. exact H.
  - cbn [fold_left]. apply (IH y).
    + now inversion S.
    + intros m Hm. apply M. now right.
    + intros d Hd. destruct (C d Hd) as [H|[H|H]].
      * left. assert (x < y).
        { inversion S as [|? ? _ F]. rewrite Forall_forall in F.
          apply F. now left. }
        pose proof (midnight_lt x y (proj1 (M x (or_introl eq_refl)))
                      (proj1 (M y (or_intror (or_introl eq_refl)))) H0). lia.
      * left. rewrite H. rewrite localDay_midnight. lia.
      * now right.
    + destruct I as (HL & Hc & Hrun & (d0 & Hlong) & Hmaxc & Hmax).
      destruct (M x (or_introl eq_refl)) as [Mx _].
      destruct (M y (or_intror (or_introl eq_refl))) as [My Py].
      assert (Hxy : x < y).
      { inversion S as [|? ? _ F]. rewrite Forall_forall in F.
        apply F. now left. }
      pose proof (midnight_lt x y Mx My Hxy) as Hd.
      assert (Hgap : forall e, P e -> localDay tz x < e -> localDay tz y <= e).
      { intros e Pe He. destruct (C e Pe) as [H|[H|H]]; [lia| |].
        - rewrite H, localDay_midnight. lia.
        - inversion S as [|? ? S' _]. inversion S' as [|? ? _ F].
          rewrite Forall_forall in F. specialize (F _ H).
          unfold midnight, msPerDay in My, F. lia. }
      unfold longestStep. rewrite HL. cbv zeta.
      rewrite (midnight_diff x y Mx My).
      destruct (localDay tz y - localDay tz x =? 1) eqn:E.
      * apply Z.eqb_eq in E. unfold LoopInv. cbn.
        split; [reflexivity|]. split; [lia|]. split.
        { intros i Hi. destruct (Z.eq_dec i (ls_currentStreak st)) as [->|Hne].
          - replace (localDay tz y - (ls_currentStreak st + 1) + 1 + ls_currentStreak st)
              with (localDay tz y) by lia. exact Py.
          - specialize (Hrun i ltac:(lia)).
            replace (localDay tz y - (ls_currentStreak st + 1) + 1 + i)
              with (localDay tz x - ls_currentStreak st + 1 + i) by lia.
            exact Hrun. }
        split; [now exists d0|]. split.
        { intros k Hk. destruct (Z_le_gt_dec k 1); [lia|].
          assert (isRun P (localDay tz x - (k - 1) + 1) (k - 1)).
          { intros i Hi. specialize (Hk i ltac:(lia)).
            replace (localDay tz x - (k - 1) + 1 + i)
              with (localDay tz y - k + 1 + i) by lia. exact Hk. }
          apply Hmaxc in H. lia. }
        { intros d k Hk He. destruct (Z_le_gt_dec k 0); [lia|].
          destruct (Z_le_gt_dec (d + k - 1) (localDay tz x)).
          - specialize (Hmax d k Hk ltac:(lia)). lia.
          - destruct (Z_le_gt_dec k 1); [lia|].
            assert (isRun P (localDay tz x - (k - 1) + 1) (k - 1)).
            { intros i Hi. specialize (Hk i ltac:(lia)).
              replace (localDay tz x - (k - 1) + 1 + i) with (d + i) by lia.
              exact Hk. }
            apply Hmaxc in H. lia. }
      * apply Z.eqb_neq in E. unfold LoopInv. cbn.
        assert (Hone : forall k, isRun P (localDay tz y - k + 1) k -> k <= 1).
        { intros k Hk. destruct (Z_le_gt_dec k 1); [lia|].
          specialize (Hk (k - 2) ltac:(lia)).
          apply Hgap in Hk; lia. }
        split; [reflexivity|]. split; [lia|]. split.
        { intros i Hi. replace (localDay tz y - 1 + 1 + i) with (localDay tz y) by lia.
          exact Py. }
        split.
        { destruct (Z.max_spec (ls_longestStreak st) (ls_currentStreak st)) as [[_ ->]|[_ ->]].
          - eexists. exact Hrun.
          - now exists d0. }
        split; [exact Hone|].
        intros d k Hk He. destruct (Z_le_gt_dec k 0); [lia|].
        destruct (Z_le_gt_dec (d + k - 1) (localDay tz x)).
        { specialize (Hmax d k Hk ltac:(lia)). lia. }
        assert (P (d + (k - 1))) as Pe by (apply Hk; lia).
        apply Hgap in Pe; [|lia].
        assert (isRun P (localDay tz y - k + 1) k).
        { intros i Hi. specialize (Hk i Hi).
          replace (localDay tz y - k + 1 + i) with (d + i) by lia. exact Hk. }
        apply Hone in H. lia.
Qed.

Lemma longest_fold sorted :
  StronglySorted Z.lt sorted ->
  (forall m, In m sorted -> midnight tz m /\ P (localDay tz m)) ->
  (forall d, P d -> In (d * msPerDay - tz) sorted) ->
  sorted <> [] ->
  let st := fold_left longestStep sorted (mkLS 0 0 None) in
  let L := Z.max (ls_longestStreak st) (ls_currentStreak st) in
  (exists d, isRun P d L) /\ (forall d k, isRun P d k -> k <= L).
Proof.
  intros S M C N. destruct sorted as [|x rest]; [congruence|].
  cbn [fold_left].
  change (longestStep (mkLS 0 0 None) x) with (mkLS 0 1 (Some x)).
  destruct (M x (or_introl eq_refl)) as [Mx Px].
  assert (Hlow : forall e, P e -> localDay tz x <= e).
  { intros e Pe. destruct (C e Pe) as [H|H].
    - rewrite H, localDay_midnight. lia.
    - inversion S as [|? ? _ F]. rewrite Forall_forall in F.
      specialize (F _ H). unfold midnight, msPerDay in Mx, F. lia. }
  assert (Hone : forall k, isRun P (localDay tz x - k + 1) k -> k <= 1).
  { intros k Hk. destruct (Z_le_gt_dec k 1); [lia|].
    specialize (Hk 0 ltac:(lia)). apply Hlow in Hk. lia. }
  destruct (longest_loop rest x (mkLS 0 1 (Some x)) S M) as (x' & I & Cx').
  - intros d Pd. destruct (C d Pd) as [H|H]; [|now right].
    left. rewrite H, localDay_midnight. lia.
  - unfold LoopInv. cbn.
    split; [reflexivity|]. split; [lia|]. split.
    { intros i Hi. replace (localDay tz x - 1 + 1 + i) with (localDay tz x) by lia.
      exact Px. }
    split; [exists 0; intros i Hi; lia|]. split; [exact Hone|].
    intros d k Hk He. destruct (Z_le_gt_dec k 0); [lia|].
    assert (P (d + (k - 1))) as Pe by (apply Hk; lia).
    apply Hlow in Pe.
    assert (isRun P (localDay tz x - k + 1) k).
    { intros i Hi. specialize (Hk i Hi).
      replace (localDay tz x - k + 1 + i) with (d + i) by lia. exact Hk. }
    apply Hone in H. lia.
  - cbv zeta. set (st := fold_left longestStep rest (mkLS 0 1 (Some x))) in *.
    destruct I as (_ & Hc & Hrun & (d0 & Hlong) & _ & Hmax).
    split.
    + destruct (Z.max_spec (ls_longestStreak st) (ls_currentStreak st))
        as [[_ ->]|[_ ->]]; [eexists; exact Hrun | now exists d0].
    + intros d k Hk. destruct (Z_le_gt_dec k 0); [lia|].
      apply (Hmax d k Hk).
      replace (d + k - 1) with (d + (k - 1)) by lia.
      apply Cx'. apply Hk. lia.
Qed.
End Longest.

(* ------------------------------------------------------------------ *)
(** ** The streak calculator *)

Section AnalyticsTheorems.
Import JsDate Analytics.

Lemma calculateStreak_terminates (tz : Z) completions skips now :
  exists n, calculateStreak tz completions skips now = Some n.
Proof.
  unfold calculateStreak, calculateStreakFuel.
  destruct (Z.of_nat (List.length completions) =? 0); [now exists 0|].
  cbv zeta.
  match goal with |- exists n, ?t = Some n => destruct t as [n|] eqn:E end.
  - now exists n.
  - exfalso. revert E. apply streakLoop_terminates. lia.
Qed.

Lemma calculateStreak_fuel_irrelevant (tz : Z) completions skips now extra n :
  calculateStreak tz completions skips now = Some n ->
  calculateStreakFuel tz (S (List.length completions) + extra) completions skips now
  = Some n.
Proof.
  unfold calculateStreak, calculateStreakFuel.
  destruct (Z.of_nat (List.length completions) =? 0); [auto|].
  cbv zeta. apply streakLoop_more_fuel.
Qed.

(** What the result says about the days before today. *)
Lemma calculateStreak_sound (tz : Z) completions skips now n :
  calculateStreak tz completions skips now = Some n ->
  let today := localDay tz now in
  0 <= n
  /\ (forall i, 0 <= i < n ->
        completedOn tz completions (today - i)
        /\ ~ skippedOn tz skips (today - i))
  /\ (skippedOn tz skips (today - n)
      \/ ~ completedOn tz completions (today - n)).
Proof.
  intros E today. unfold calculateStreak, calculateStreakFuel in E.
  destruct (Z.of_nat (List.length completions) =? 0) eqn:Z0.
  - injection E as <-. split; [lia|]. split; [intros i Hi; lia|].
    right. intros (c & Hc & _). apply Z.eqb_eq in Z0.
    destruct completions; [destruct Hc | simpl in Z0; lia].
  - cbv zeta in E. apply streakLoop_sound in E.
    rewrite setHours_midnight, localDay_midnight in E.
    fold today in E. rewrite Z.sub_0_r in E.
    destruct E as (H0 & Hall & Hend). auto.
Qed.

(** C10.  On a day that carries both a completion and a skip the loop
    tests the skip first and breaks, returning the streak counted so far:
    the completion of that day is never counted, so the current streak
    cannot reach back to, or beyond, a doubly-recorded day. *)
Theorem calculateStreak_skip_wins (tz : Z) completions skips now k :
  let today := localDay tz now in
  let completionDates :=
    Js.newSet String.eqb (map (fun c => dateStr tz (hc_date c)) completions) in
  let skipDates :=
    Js.newSet String.eqb (map (fun s => dateStr tz (hs_date s)) skips) in
  0 <= k ->
  completedOn tz completions (today - k) ->
  skippedOn tz skips (today - k) ->
  (forall fuel streak currentDate,
      localDay tz currentDate = today - k ->
      Js.has String.eqb completionDates (dateStr tz currentDate) = true
      /\ streakLoop tz (S fuel) completionDates skipDates streak currentDate
         = Some streak)
  /\ exists n, calculateStreak tz completions skips now = Some n /\ n <= k.
Proof.
  intros today cd sd Hk Hc Hs. split.
  - intros fuel streak cur Hcur. rewrite <- Hcur in Hs, Hc. split.
    + now apply completionDates_has.
    + cbn [streakLoop]. cbv zeta. apply skipDates_has in Hs.
      unfold sd. now rewrite Hs.
  - destruct (calculateStreak_terminates tz completions skips now) as [n E].
    exists n. split; [exact E|].
    destruct (calculateStreak_sound _ _ _ _ _ E) as (_ & Hall & _).
    destruct (Z_le_gt_dec n k) as [|Hgt]; [assumption|].
    exfalso. destruct (Hall k ltac:(lia)) as [_ Hn]. now apply Hn.
Qed.

(** The time values the longest-streak loop runs over: strictly increasing
    local midnights, one for each day with a completion. *)
Lemma sortedDates_facts (tz : Z) completions :
  let sortedDates :=
    Js.sortAsc (Js.newSet Z.eqb
      (map (fun c => getTime (setHours tz (hc_date c) 0 0 0 0)) completions)) in
  StronglySorted Z.lt sortedDates
  /\ (forall m, In m sortedDates ->
        midnight tz m /\ completedOn tz completions (localDay tz m))
  /\ (forall d, completedOn tz completions d ->
        In (d * msPerDay - tz) sortedDates).
Proof.
  cbv zeta. split; [|split].
  - apply sortAsc_sorted, (newSet_NoDup _ Z.eqb_eq).
  - intros m Hm. apply sortAsc_In, (newSet_In _ Z.eqb_eq), in_map_iff in Hm.
    destruct Hm as (c & <- & Hc). unfold getTime. rewrite setHours_midnight.
    unfold midnight. rewrite localDay_midnight. split; [reflexivity|].
    now exists c.
  - intros d (c & Hc & <-). apply sortAsc_In, (newSet_In _ Z.eqb_eq), in_map_iff.
    exists c. split; [|exact Hc]. unfold getTime. now rewrite setHours_midnight.
Qed.

(** C9.  The longest streak does not depend on the skips: any two skip
    lists give the same value. *)
Theorem calculateLongestStreak_ignores_skips (tz : Z) completions skips1 skips2 :
  calculateLongestStreak tz completions skips1
  = calculateLongestStreak tz completions skips2.
Proof. unfold calculateLongestStreak. reflexivity. Qed.
End AnalyticsTheorems.

(* ------------------------------------------------------------------ *)
(** ** The completion rate *)

Section Rate.
Import Analytics.

Lemma getHabitStatistics_found (tz : Z) now userId habitId w h completions skips :
  Prisma.habit_findFirst_with_ledger habitId userId w
  = (Return (Some (h, completions, skips)), w) ->
  AnalyticsService.getHabitStatistics tz now userId habitId w
  = (Return (Some (habitStatistics tz completions skips now)), w).
Proof.
  intros F. unfold AnalyticsService.getHabitStatistics, bind. now rewrite F.
Qed.

Example completionRate_tie :
  completionRateOf 23 137 = 14.37%float /\ completionRateOf 1 2 = 33.33%float
  /\ completionRateOf 2 1 = 66.67%float /\ completionRateOf 5 0 = 100%float.
Proof. repeat split; vm_compute; reflexivity. Qed.

Example unguarded_division_is_NaN :
  PrimFloat.is_nan (PrimFloat.div (Number_ 0) (Number_ (0 + 0))) = true.
Proof. reflexivity. Qed.



Example completionRate_two_thirds :
  completionRateOf 2 1 = hundredths 6667 /\ roundedRate 2 1 6667.
Proof. split; [vm_compute; reflexivity|]. unfold roundedRate. lia. Qed.
End Rate.

(* ------------------------------------------------------------------ *)
(** ** Dispatch of one reminder *)

(** ** Dispatch of one reminder *)
Section Dispatch.
Import PushNotificationService.

Lemma sendHabitReminder_unfold habitId message w :
  sendHabitReminder habitId message w =
  match subscriptionsFor habitId w with
  | [] => (Return tt, w)
  | subs => forOf subs (sendBody (mkPayload "Habit Reminder" message habitId)) w
  end.
Proof.
  unfold sendHabitReminder, Prisma.notificationSubscription_findMany, bind, getDb,
    ret, subscriptionsFor, registry.
  destruct (filter _ (notificationSubscriptions (db w))) as [|s r]; reflexivity.
Qed.

Lemma existsb_id_In (s : NotificationSubscription) rows :
  In s rows -> existsb (fun x => String.eqb (ns_id x) (ns_id s)) rows = true.
Proof.
  intros H. apply existsb_exists. exists s. split; [exact H|apply String.eqb_refl].
Qed.

Lemma NoDup_ids_filter f (rows : list NotificationSubscription) :
  NoDup (map ns_id rows) -> NoDup (map ns_id (filter f rows)).
Proof.
  induction rows as [|x rows IH]; simpl; intros N; [constructor|].
  inversion N as [|? ? Hx N']; subst. destruct (f x); simpl; [|auto].
  constructor; [|auto]. intros H. apply Hx.
  apply in_map_iff in H as (y & E & Hy). apply filter_In in Hy as [Hy _].
  apply in_map_iff. now exists y.
Qed.

Lemma filter_filter {A} (f g : A -> bool) (rows : list A) :
  filter g (filter f rows) = filter (fun x => f x && g x) rows.
Proof.
  induction rows as [|x rows IH]; simpl; [reflexivity|].
  destruct (f x); simpl; [destruct (g x)|]; now rewrite IH.
Qed.

Lemma pruned_cons p batch rows :
  pruned (p :: batch) rows =
  pruned batch
    (filter (fun x => negb (String.eqb (ns_id x) (ns_id (fst p))
                        && isGone (d_result (snd p)))) rows).
Proof.
  unfold pruned. rewrite filter_filter. apply filter_ext.
  intros x. cbn [existsb]. now rewrite negb_orb.
Qed.

Lemma filter_true {A} (rows : list A) : filter (fun _ => true) rows = rows.
Proof. induction rows; simpl; congruence. Qed.

(** The whole effect of the loop of [sendHabitReminder]. *)
Lemma forOf_sendBody payload subs : forall w,
  NoDup (map ns_id (registry w)) ->
  NoDup (map ns_id subs) ->
  incl subs (registry w) ->
  let new := attempts (transport w) (deliveries w) subs payload in
  forOf subs (sendBody payload) w =
  (Return tt,
   mkWorld (Prisma.setSubscriptions (db w) (pruned (combine subs new) (registry w)))
           (transport w)
           (deliveries w ++ new)
           (console w ++ flat_map logOf (combine subs new))).
Proof.
  induction subs as [|s rest IH]; intros w Nw Ns Hin; cbn zeta.
  - simpl. unfold ret, pruned, Prisma.setSubscriptions, registry. simpl.
    rewrite filter_true, !app_nil_r. destruct w as [[] ? ? ?]; reflexivity.
  - cbn [forOf attempts combine flat_map].
    set (res := transport w (deliveries w) (pushOf s) payload).
    set (d := mkDelivery (pushOf s) payload res).
    rewrite pruned_cons. cbn [fst snd d_result d].
    inversion Ns as [|? ? Hs Nrest]; subst.
    assert (Hsw : In s (registry w)) by (apply Hin; now left).
    unfold bind at 1.
    assert (Hbody :
      sendBody payload s w =
      (Return tt,
       mkWorld (Prisma.setSubscriptions (db w)
                  (filter (fun x => negb (String.eqb (ns_id x) (ns_id s) && isGone res))
                          (registry w)))
               (transport w) (deliveries w ++ [d])
               (console w ++ logOf (s, d)))).
    { unfold sendBody, tryCatch, webpush_sendNotification. fold res. fold d.
      unfold logOf. cbn [fst snd d_result d].
      destruct res as [|code] eqn:Eres.
      - cbn [isGone]. unfold Prisma.setSubscriptions, registry.
        rewrite (filter_ext _ (fun _ => true)), filter_true, app_nil_r.
        + destruct w as [[] ? ? ?]; reflexivity.
        + intros x. now rewrite andb_false_r.
      - cbn [statusCodeIs].
        destruct code as [code|]; cbn [isGone]; [destruct (code =? 410) eqn:E410|].
        + unfold bind, Prisma.notificationSubscription_delete, getDb. cbn.
          fold (registry w).
          rewrite (existsb_id_In s (registry w) Hsw).
          unfold putDb, console_log. cbn.
          rewrite (filter_ext (fun x => negb (String.eqb (ns_id x) (ns_id s) && true))
                              (fun x => negb (String.eqb (ns_id x) (ns_id s)))).
          * reflexivity.
          * intros x. now rewrite andb_true_r.
        + unfold console_error, Prisma.setSubscriptions, registry. cbn.
          rewrite (filter_ext _ (fun _ => true)), filter_true.
          * destruct w as [[] ? ? ?]; reflexivity.
          * intros x. now rewrite andb_false_r.
        + unfold console_error, Prisma.setSubscriptions, registry. cbn.
          rewrite (filter_ext _ (fun _ => true)), filter_true.
          * destruct w as [[] ? ? ?]; reflexivity.
          * intros x. now rewrite andb_false_r. }
    rewrite Hbody.
    match goal with |- forOf _ _ ?w0 = _ => set (w1 := w0) end.
    assert (Hreg1 : registry w1 =
                    filter (fun x => negb (String.eqb (ns_id x) (ns_id s) && isGone res))
                           (registry w)) by reflexivity.
    rewrite (IH w1).
    + subst w1. unfold registry, Prisma.setSubscriptions.
      cbn [transport deliveries console db notificationSubscriptions habits
           habitCompletions habitSkips cuids].
      rewrite <- !app_assoc. reflexivity.
    + rewrite Hreg1. now apply NoDup_ids_filter.
    + exact Nrest.
    + intros x Hx. rewrite Hreg1. apply filter_In. split; [apply Hin; now right|].
      destruct (String.eqb (ns_id x) (ns_id s)) eqn:E; [|reflexivity].
      apply String.eqb_eq in E. exfalso. apply Hs. rewrite <- E.
      now apply in_map.
Qed.
End Dispatch.

(* ------------------------------------------------------------------ *)
(** ** Dispatch of one reminder: consequences *)

Section DispatchFacts.
Import PushNotificationService.

Lemma attempts_subscriptions tr payload subs : forall history,
  map d_subscription (attempts tr history subs payload) = map pushOf subs.
Proof.
  induction subs as [|s rest IH]; intros history; simpl; [reflexivity|].
  now rewrite IH.
Qed.

Lemma attempts_payload tr payload subs : forall history d,
  In d (attempts tr history subs payload) -> d_payload d = payload.
Proof.
  induction subs as [|s rest IH]; intros history d; simpl; [tauto|].
  intros [<-|H]; [reflexivity|]. now apply (IH _ _ H).
Qed.

Lemma attempts_length tr payload subs : forall history,
  List.length (attempts tr history subs payload) = List.length subs.
Proof.
  induction subs as [|s rest IH]; intros history; simpl; [reflexivity|].
  now rewrite IH.
Qed.

Lemma attempts_combine tr payload subs : forall history s d,
  In (s, d) (combine subs (attempts tr history subs payload)) ->
  In s subs /\ d_subscription d = pushOf s /\ d_payload d = payload.
Proof.
  induction subs as [|x rest IH]; intros history s d; simpl; [tauto|].
  intros [E|H].
  - injection E as <- <-. auto.
  - destruct (IH _ _ _ H) as (? & ? & ?). auto.
Qed.

Lemma attempts_covers tr payload subs : forall history s,
  In s subs -> exists d, In (s, d) (combine subs (attempts tr history subs payload)).
Proof.
  induction subs as [|x rest IH]; intros history s; simpl; [tauto|].
  intros [->|H].
  - eexists. left. reflexivity.
  - destruct (IH (history ++ [mkDelivery (pushOf x) payload
                                 (tr history (pushOf x) payload)]) s H) as [d Hd].
    exists d. now right.
Qed.

Lemma combine_functional {A B} (l : list A) : forall (m : list B) x a b,
  NoDup l -> In (x, a) (combine l m) -> In (x, b) (combine l m) -> a = b.
Proof.
  induction l as [|y l IH]; intros m x a b N Ha Hb; [destruct Ha|].
  destruct m as [|c m]; [destruct Ha|]. simpl in Ha, Hb.
  inversion N as [|? ? Hy N']; subst.
  destruct Ha as [Ea|Ha], Hb as [Eb|Hb].
  - congruence.
  - injection Ea as <- <-. apply in_combine_l in Hb. contradiction.
  - injection Eb as <- <-. apply in_combine_l in Ha. contradiction.
  - eapply IH; eauto.
Qed.

Lemma NoDup_of_ids (rows : list NotificationSubscription) :
  NoDup (map ns_id rows) -> NoDup rows.
Proof. apply NoDup_map_inv. Qed.

Lemma ids_injective (rows : list NotificationSubscription) x y :
  NoDup (map ns_id rows) -> In x rows -> In y rows -> ns_id x = ns_id y -> x = y.
Proof.
  induction rows as [|r rows IH]; simpl; intros N Hx Hy E; [tauto|].
  inversion N as [|? ? Hr N']; subst.
  destruct Hx as [->|Hx], Hy as [->|Hy]; auto.
  - exfalso. apply Hr. rewrite E. now apply in_map.
  - exfalso. apply Hr. rewrite <- E. now apply in_map.
Qed.

Lemma subscriptionsFor_In habitId w s :
  In s (subscriptionsFor habitId w)
  <-> In s (registry w) /\ ns_habitId s = Some habitId.
Proof.
  unfold subscriptionsFor. rewrite filter_In. unfold Prisma.option_eqb.
  destruct (ns_habitId s) as [h|].
  - rewrite String.eqb_eq. split; intros [? H]; split; congruence.
  - split; intros [? H]; discriminate.
Qed.

Lemma pruned_In batch rows x :
  In x (pruned batch rows)
  <-> In x rows
      /\ ~ exists s d, In (s, d) batch /\ ns_id x = ns_id s
                       /\ isGone (d_result d) = true.
Proof.
  unfold pruned. rewrite filter_In, negb_true_iff.
  split; intros [Hx H]; split; try exact Hx.
  - intros (s & d & Hp & E & G).
    assert (existsb (fun p => String.eqb (ns_id x) (ns_id (fst p))
                              && isGone (d_result (snd p))) batch = true) as T.
    { apply existsb_exists. exists (s, d). split; [exact Hp|]. simpl.
      rewrite G, andb_true_r. now apply String.eqb_eq. }
    congruence.
  - destruct (existsb _ batch) eqn:T; [|reflexivity].
    exfalso. apply H. apply existsb_exists in T as ([s d] & Hp & T).
    simpl in T. apply andb_true_iff in T as [E G].
    exists s, d. repeat split; auto. now apply String.eqb_eq.
Qed.

Lemma isGone_iff r : isGone r = true <-> r = Rejected (Some 410).
Proof.
  destruct r as [|[code|]]; simpl; split; try discriminate.
  - intros H. apply Z.eqb_eq in H. now subst.
  - intros H. injection H as ->. reflexivity.
Qed.

(** The whole effect of [sendHabitReminder]. *)
Lemma sendHabitReminder_run habitId message w :
  NoDup (map ns_id (registry w)) ->
  let subs := subscriptionsFor habitId w in
  let payload := mkPayload "Habit Reminder" message habitId in
  let new := attempts (transport w) (deliveries w) subs payload in
  sendHabitReminder habitId message w =
  (Return tt,
   mkWorld (Prisma.setSubscriptions (db w) (pruned (combine subs new) (registry w)))
           (transport w)
           (deliveries w ++ new)
           (console w ++ flat_map logOf (combine subs new))).
Proof.
  intros N subs payload new. rewrite sendHabitReminder_unfold. fold subs.
  pose proof (forOf_sendBody payload subs w N) as F.
  assert (Ns : NoDup (map ns_id subs)) by (apply NoDup_ids_filter; exact N).
  assert (Hin : incl subs (registry w)).
  { intros x Hx. apply filter_In in Hx. tauto. }
  specialize (F Ns Hin). cbv zeta in F. fold new in F.
  destruct subs as [|s rest] eqn:E; exact F.
Qed.

(** C5.  On a registry with unique subscription ids, the push service is
    called once for every subscription of the habit, in order, with the
    reminder payload, whatever it answered to the earlier calls, and the
    dispatch itself never fails: the deliveries recorded are the answers of
    the push service to these calls.  A subscription for which the push
    service answers 410 (gone) is deleted from the registry; one for which
    it accepts the notification or fails otherwise stays, and the other
    failure is written to the error log.  Subscriptions of other habits are
    untouched. *)
Theorem sendHabitReminder_partial_failure habitId message w :
  NoDup (map ns_id (registry w)) ->
  exists w' new,
    sendHabitReminder habitId message w = (Return tt, w')
    /\ new = attempts (transport w) (deliveries w) (subscriptionsFor habitId w)
                      (mkPayload "Habit Reminder" message habitId)
    /\ deliveries w' = deliveries w ++ new
    /\ map d_subscription new = map pushOf (subscriptionsFor habitId w)
    /\ (forall s d, In (s, d) (combine (subscriptionsFor habitId w) new) ->
          (d_result d = Rejected (Some 410) -> ~ In s (registry w'))
          /\ (d_result d <> Rejected (Some 410) -> In s (registry w'))
          /\ (forall code, d_result d = Rejected code -> code <> Some 410 ->
                In (ConsoleError ("Error sending notification to subscription "
                                    ++ ns_id s ++ ":") (WebPushError code))
                   (console w')))
    /\ (forall s, In s (registry w') -> In s (registry w))
    /\ (forall s, In s (registry w) -> ~ In s (subscriptionsFor habitId w) ->
                  In s (registry w')).
Proof.
  intros N. pose proof (sendHabitReminder_run habitId message w N) as R.
  cbv zeta in R.
  set (subs := subscriptionsFor habitId w) in *.
  set (payload := mkPayload "Habit Reminder" message habitId) in *.
  set (new := attempts (transport w) (deliveries w) subs payload) in *.
  eexists. exists new. split; [exact R|]. split; [reflexivity|].
  cbn [deliveries console]. unfold registry at 1 3 5. cbn [db].
  unfold Prisma.setSubscriptions. cbn [notificationSubscriptions].
  assert (Nsubs : NoDup subs).
  { apply NoDup_of_ids, NoDup_ids_filter. exact N. }
  split; [reflexivity|]. split; [apply attempts_subscriptions|].
  split; [|split].
  - intros s d Hsd.
    destruct (attempts_combine _ _ _ _ _ _ Hsd) as (Hs & _ & _).
    assert (Hsw : In s (registry w)).
    { apply subscriptionsFor_In in Hs. tauto. }
    split; [|split].
    + intros G Hin. apply pruned_In in Hin as [_ Hn]. apply Hn.
      exists s, d. repeat split; auto. now apply isGone_iff.
    + intros G. apply pruned_In. split; [exact Hsw|].
      intros (s' & d' & Hp & E & G').
      destruct (attempts_combine _ _ _ _ _ _ Hp) as (Hs' & _ & _).
      assert (s = s').
      { apply (ids_injective (registry w)); auto.
        apply subscriptionsFor_In in Hs'. tauto. }
      subst s'. assert (d = d') by (eapply combine_functional; eauto).
      subst d'. apply isGone_iff in G'. contradiction.
    + intros code Hr Hc. apply in_or_app. right.
      apply in_flat_map. exists (s, d). split; [exact Hsd|].
      unfold logOf. cbn [fst snd]. rewrite Hr.
      destruct (isGone (Rejected code)) eqn:G.
      * apply isGone_iff in G. congruence.
      * now left.
  - intros s Hs. apply pruned_In in Hs. tauto.
  - intros s Hs Hn. apply pruned_In. split; [exact Hs|].
    intros (s' & d' & Hp & E & G').
    destruct (attempts_combine _ _ _ _ _ _ Hp) as (Hs' & _ & _).
    assert (s = s').
    { apply (ids_injective (registry w)); auto.
      apply subscriptionsFor_In in Hs'. tauto. }
    subst s'. contradiction.
Qed.

Lemma endpoints_injective (rows : list NotificationSubscription) x y :
  NoDup (map ns_endpoint rows) -> In x rows -> In y rows ->
  ns_endpoint x = ns_endpoint y -> x = y.
Proof.
  induction rows as [|r rows IH]; simpl; intros N Hx Hy E; [tauto|].
  inversion N as [|? ? Hr N']; subst.
  destruct Hx as [->|Hx], Hy as [->|Hy]; auto.
  - exfalso. apply Hr. rewrite E. now apply in_map.
  - exfalso. apply Hr. rewrite <- E. now apply in_map.
Qed.

(** C4, amended.  On a registry with unique subscription ids, dispatching a
    reminder for a habit invokes the notify collaborator exactly once for
    each subscription whose habit reference is this habit, in registry
    order, with payload [{title: 'Habit Reminder', body: message, habitId}].
    A subscription without habit reference is not among them, whoever owns
    it: with unique endpoints, nothing is sent to its endpoint. *)
Theorem sendHabitReminder_targets habitId message w :
  NoDup (map ns_id (registry w)) ->
  exists w' new,
    sendHabitReminder habitId message w = (Return tt, w')
    /\ deliveries w' = deliveries w ++ new
    /\ map d_subscription new
       = map pushOf (filter (fun s => Prisma.option_eqb (ns_habitId s) habitId)
                            (registry w))
    /\ (forall d, In d new ->
          d_payload d = mkPayload "Habit Reminder" message habitId)
    /\ (NoDup (map ns_endpoint (registry w)) ->
        forall s, In s (registry w) -> ns_habitId s = None ->
        forall d, In d new -> endpoint (d_subscription d) <> ns_endpoint s).
Proof.
  intros N. pose proof (sendHabitReminder_run habitId message w N) as R.
  cbv zeta in R. eexists. eexists. split; [exact R|].
  cbn [deliveries]. split; [reflexivity|].
  split; [apply attempts_subscriptions|]. split.
  - intros d Hd. now apply attempts_payload in Hd.
  - intros Ne s Hs Hnull d Hd E.
    apply (in_map d_subscription) in Hd.
    rewrite attempts_subscriptions in Hd.
    apply in_map_iff in Hd as (s' & Es' & Hs').
    apply subscriptionsFor_In in Hs' as [Hs' Hh].
    rewrite <- Es' in E. cbn in E.
    assert (s' = s) by (apply (endpoints_injective (registry w)); auto).
    subst s'. congruence.
Qed.
End DispatchFacts.

(* ------------------------------------------------------------------ *)
(** ** The reminder loop *)

Lemma Keys_eq_dec (a b : Keys) : {a = b} + {a <> b}.
Proof. decide equality; apply string_dec. Defined.

Lemma NotificationSubscription_eq_dec (a b : NotificationSubscription) :
  {a = b} + {a <> b}.
Proof.
  decide equality; try apply string_dec; try apply Keys_eq_dec.
  decide equality; apply string_dec.
Defined.

Section Reminders.
Import JsDate PushNotificationService.

Lemma sendHabitReminder_effect habitId message w :
  NoDup (map ns_id (registry w)) ->
  exists w' new,
    sendHabitReminder habitId message w = (Return tt, w')
    /\ deliveries w' = deliveries w ++ new
    /\ transport w' = transport w
    /\ habits (db w') = habits (db w)
    /\ habitCompletions (db w') = habitCompletions (db w)
    /\ NoDup (map ns_id (registry w'))
    /\ (forall s, In s (registry w') -> In s (registry w))
    /\ (forall s, In s (registry w) -> ~ In s (registry w') ->
                  ns_habitId s = Some habitId)
    /\ (forall d, In d new ->
          d_payload d = mkPayload "Habit Reminder" message habitId)
    /\ (forall s, In s (registry w) -> ns_habitId s = Some habitId ->
          exists d, In d new /\ d_subscription d = pushOf s).
Proof.
  intros N. pose proof (sendHabitReminder_run habitId message w N) as R.
  cbv zeta in R.
  set (subs := subscriptionsFor habitId w) in *.
  set (payload := mkPayload "Habit Reminder" message habitId) in *.
  set (new := attempts (transport w) (deliveries w) subs payload) in *.
  eexists. exists new. split; [exact R|].
  unfold registry at 1 2 4. cbn. fold (registry w).
  repeat split; try reflexivity.
  - apply NoDup_ids_filter. exact N.
  - intros s Hs. apply pruned_In in Hs. tauto.
  - intros s Hs Hn.
    destruct (in_dec NotificationSubscription_eq_dec s subs) as [Hin|Hout].
    + apply subscriptionsFor_In in Hin. tauto.
    + exfalso. apply Hn. apply pruned_In. split; [exact Hs|].
      intros (s' & d' & Hp & E & G').
      destruct (attempts_combine _ _ _ _ _ _ Hp) as (Hs' & _ & _).
      assert (s = s').
      { apply (ids_injective (registry w)); auto.
        apply subscriptionsFor_In in Hs'. tauto. }
      subst s'. contradiction.
  - intros d Hd. now apply attempts_payload in Hd.
  - intros s Hs Hh.
    assert (In s subs) as Hin by (apply subscriptionsFor_In; auto).
    destruct (attempts_covers (transport w) payload subs (deliveries w) s Hin)
      as [d Hd].
    exists d. split; [now apply in_combine_r in Hd|].
    now destruct (attempts_combine _ _ _ _ _ _ Hd) as (_ & ? & _).
Qed.

Lemma forOf_reminderBody hs : forall w,
  NoDup (map ns_id (registry w)) ->
  exists w' new,
    forOf hs reminderBody w = (Return tt, w')
    /\ deliveries w' = deliveries w ++ new
    /\ (forall d, In d new ->
          exists hw, In hw hs /\ Prisma.hw_completions hw = []
                     /\ d_payload d = reminderPayload (Prisma.hw_habit hw))
    /\ (NoDup (map (fun hw => h_id (Prisma.hw_habit hw)) hs) ->
        forall hw, In hw hs -> Prisma.hw_completions hw = [] ->
        forall s, In s (registry w) ->
                  ns_habitId s = Some (h_id (Prisma.hw_habit hw)) ->
        exists d, In d new /\ d_subscription d = pushOf s
                  /\ d_payload d = reminderPayload (Prisma.hw_habit hw))
    /\ NoDup (map ns_id (registry w'))
    /\ (forall s, In s (registry w) -> ~ In s (registry w') ->
          exists hw, In hw hs /\ ns_habitId s = Some (h_id (Prisma.hw_habit hw))).
Proof.
  induction hs as [|hw rest IH]; intros w N.
  - exists w, []. simpl. unfold ret. rewrite app_nil_r.
    repeat split; auto; try tauto; try (intros; contradiction).
  - cbn [forOf]. unfold bind.
    assert (Hstep : exists w1 new1,
      reminderBody hw w = (Return tt, w1)
      /\ deliveries w1 = deliveries w ++ new1
      /\ NoDup (map ns_id (registry w1))
      /\ (forall s, In s (registry w) -> ~ In s (registry w1) ->
            ns_habitId s = Some (h_id (Prisma.hw_habit hw)))
      /\ (forall d, In d new1 ->
            Prisma.hw_completions hw = []
            /\ d_payload d = reminderPayload (Prisma.hw_habit hw))
      /\ (Prisma.hw_completions hw = [] ->
          forall s, In s (registry w) ->
                    ns_habitId s = Some (h_id (Prisma.hw_habit hw)) ->
          exists d, In d new1 /\ d_subscription d = pushOf s)).
    { unfold reminderBody. destruct (Prisma.hw_completions hw) as [|c cs] eqn:Ec.
      - cbn [List.length Z.of_nat Z.eqb].
        destruct (sendHabitReminder_effect (h_id (Prisma.hw_habit hw))
                    (reminderMessage (h_name (Prisma.hw_habit hw))) w N)
          as (w1 & new1 & R & D & _ & _ & _ & N1 & _ & Hdel & Hpay & Hcov).
        exists w1, new1. repeat split; auto.
      - exists w, []. replace (Z.of_nat (List.length (c :: cs)) =? 0) with false
          by (symmetry; apply Z.eqb_neq; simpl; lia).
        unfold ret. rewrite app_nil_r.
        repeat split; auto; try tauto; try discriminate;
          try (intros; contradiction). }
    destruct Hstep as (w1 & new1 & R1 & D1 & N1 & Hdel1 & Hpay1 & Hcov1).
    rewrite R1.
    destruct (IH w1 N1) as (w' & new2 & R2 & D2 & HA & HB & N2 & Hdel2).
    exists w', (new1 ++ new2). split; [exact R2|].
    split; [rewrite D2, D1; now rewrite app_assoc|]. split; [|split; [|split]].
    + intros d Hd. apply in_app_or in Hd as [Hd|Hd].
      * destruct (Hpay1 d Hd) as [? ?]. exists hw. repeat split; auto. now left.
      * destruct (HA d Hd) as (hw' & ? & ? & ?). exists hw'.
        repeat split; auto. now right.
    + intros Nh hw0 Hin0 Hc0 s Hs Hh.
      simpl in Nh. inversion Nh as [|? ? Hnotin Nrest]; subst.
      destruct Hin0 as [<-|Hin0].
      * destruct (Hcov1 Hc0 s Hs Hh) as (d & Hd & Hsub).
        exists d. split; [apply in_or_app; now left|]. split; [exact Hsub|].
        now destruct (Hpay1 d Hd).
      * assert (In s (registry w1)) as Hs1.
        { destruct (in_dec NotificationSubscription_eq_dec s (registry w1)) as [Hy|Hn]; [exact Hy|].
          exfalso. specialize (Hdel1 s Hs Hn). rewrite Hh in Hdel1.
          injection Hdel1 as E. apply Hnotin. rewrite <- E.
          apply in_map_iff. now exists hw0. }
        destruct (HB Nrest hw0 Hin0 Hc0 s Hs1 Hh) as (d & Hd & ? & ?).
        exists d. split; [apply in_or_app; now right|]. auto.
    + exact N2.
    + intros s Hs Hn.
      destruct (in_dec NotificationSubscription_eq_dec s (registry w1)) as [Hy|Hn1].
      * destruct (Hdel2 s Hy Hn) as (hw' & ? & ?). exists hw'. split; [now right|auto].
      * exists hw. split; [now left|]. now apply Hdel1.
Qed.

(** On a host at a constant offset of less than a day, the dates between
    the date of [startOfToday()] and the date of [startOfTomorrow()] are the
    one date [windowDate]. *)
Lemma today_window (tz : Z) now t :
  - msPerDay < tz < msPerDay ->
  (Prisma.toDate (startOfToday tz now) <=? Prisma.toDate t)
  && (Prisma.toDate t <? Prisma.toDate (startOfTomorrow tz now)) = true
  <-> Day t = windowDate tz now.
Proof.
  intros Htz. unfold startOfToday, startOfDay, windowDate, Prisma.toDate.
  rewrite startOfTomorrow_fixed, setHours_midnight.
  set (L := localDay tz now). unfold Day.
  rewrite andb_true_iff, Z.leb_le, Z.ltb_lt.
  assert (0 < msPerDay) as Hpos by (unfold msPerDay; lia).
  assert (E1 : (L * msPerDay - tz) / msPerDay = L - (if 0 <? tz then 1 else 0)).
  { destruct (Z.ltb_spec 0 tz); symmetry.
    - apply Z.div_unique with (r := msPerDay - tz); lia.
    - apply Z.div_unique with (r := - tz); lia. }
  assert (E2 : ((L + 1) * msPerDay - tz) / msPerDay
               = L + 1 - (if 0 <? tz then 1 else 0)).
  { destruct (Z.ltb_spec 0 tz); symmetry.
    - apply Z.div_unique with (r := msPerDay - tz); lia.
    - apply Z.div_unique with (r := - tz); lia. }
  rewrite E1, E2. lia.
Qed.
End Reminders.

(* ------------------------------------------------------------------ *)
(** ** The reminder matcher *)

Section Matcher.
Import JsDate PushNotificationService.

Lemma checkAndSendReminders_unfold (tz : Z) now w :
  checkAndSendReminders tz now w = forOf (dueHabits tz now w) reminderBody w.
Proof. reflexivity. Qed.

Lemma option_eqb_eq a b : Prisma.option_eqb a b = true <-> a = Some b.
Proof.
  destruct a as [a|]; simpl; [rewrite String.eqb_eq|]; split; congruence.
Qed.

Lemma dueHabits_In (tz : Z) now w hw :
  - msPerDay < tz < msPerDay ->
  In hw (dueHabits tz now w) ->
  In (Prisma.hw_habit hw) (habits (db w))
  /\ h_reminderTime (Prisma.hw_habit hw) = Some (formatHHmm tz now)
  /\ (Prisma.hw_completions hw = [] ->
      ~ completedOnDate w (Prisma.hw_habit hw) (windowDate tz now)).
Proof.
  intros Htz. unfold dueHabits. cbv zeta. rewrite in_map_iff.
  intros (h & <- & Hh). apply filter_In in Hh as [Hh Hc].
  apply andb_true_iff in Hc as [Hr _]. apply option_eqb_eq in Hr.
  cbn [Prisma.hw_habit Prisma.hw_completions]. repeat split; auto.
  intros Hnil (c & Hc & Eh & Ed).
  assert (In c []) as F; [|destruct F].
  rewrite <- Hnil. apply filter_In. split; [exact Hc|].
  rewrite <- andb_assoc. apply andb_true_iff. split.
  - now apply String.eqb_eq.
  - now apply today_window.
Qed.

Lemma dueHabits_covers (tz : Z) now w h s :
  - msPerDay < tz < msPerDay ->
  In h (habits (db w)) ->
  h_reminderTime h = Some (formatHHmm tz now) ->
  In s (registry w) -> ns_habitId s = Some (h_id h) ->
  exists hw, In hw (dueHabits tz now w) /\ Prisma.hw_habit hw = h
             /\ (~ completedOnDate w h (windowDate tz now) ->
                 Prisma.hw_completions hw = []).
Proof.
  intros Htz Hh Hr Hs Hsh. unfold dueHabits. cbv zeta.
  eexists. split; [apply in_map_iff; exists h; split; [reflexivity|]|].
  - apply filter_In. split; [exact Hh|]. apply andb_true_iff. split.
    + now apply option_eqb_eq.
    + apply negb_true_iff, Z.eqb_neq.
      assert (In s (filter (fun s => Prisma.option_eqb (ns_habitId s) (h_id h))
                           (notificationSubscriptions (db w)))) as Hin.
      { apply filter_In. split; [exact Hs|]. now apply option_eqb_eq. }
      destruct (filter _ (notificationSubscriptions (db w))); [destruct Hin|].
      simpl. lia.
  - cbn [Prisma.hw_habit Prisma.hw_completions]. split; [reflexivity|].
    intros Hn.
    destruct (filter _ (habitCompletions (db w))) as [|c cs] eqn:E; [reflexivity|].
    exfalso. apply Hn. exists c.
    assert (In c (c :: cs)) as Hin by now left.
    rewrite <- E in Hin. apply filter_In in Hin as [Hc Hf].
    rewrite <- andb_assoc in Hf. apply andb_true_iff in Hf as [E1 E2].
    apply String.eqb_eq in E1. apply today_window in E2; [|exact Htz]. auto.
Qed.

Lemma habit_ids_injective (rows : list Habit) x y :
  NoDup (map h_id rows) -> In x rows -> In y rows -> h_id x = h_id y -> x = y.
Proof.
  induction rows as [|r rows IH]; simpl; intros N Hx Hy E; [tauto|].
  inversion N as [|? ? Hr N']; subst.
  destruct Hx as [->|Hx], Hy as [->|Hy]; auto.
  - exfalso. apply Hr. rewrite E. now apply in_map.
  - exfalso. apply Hr. rewrite <- E. now apply in_map.
Qed.

Lemma dueHabits_NoDup (tz : Z) now w :
  NoDup (map h_id (habits (db w))) ->
  NoDup (map (fun hw => h_id (Prisma.hw_habit hw)) (dueHabits tz now w)).
Proof.
  unfold dueHabits. cbv zeta. rewrite map_map. cbn [Prisma.hw_habit].
  generalize (fun h : Habit =>
                Prisma.option_eqb (h_reminderTime h) (formatHHmm tz now)
                && negb (Z.of_nat (List.length
                     (filter (fun s => Prisma.option_eqb (ns_habitId s) (h_id h))
                             (notificationSubscriptions (db w)))) =? 0)).
  intros f. induction (habits (db w)) as [|h hs IH]; simpl; intros N; [constructor|].
  inversion N as [|? ? Hh N']; subst. destruct (f h); simpl; [|auto].
  constructor; [|auto]. intros Hin. apply Hh.
  apply in_map_iff in Hin as (y & E & Hy). apply filter_In in Hy as [Hy _].
  apply in_map_iff. now exists y.
Qed.

End Matcher.

(* ------------------------------------------------------------------ *)
(** ** The completion ledger and the subscription registry *)

Lemma HabitCompletion_eq_dec (a b : HabitCompletion) : {a = b} + {a <> b}.
Proof.
  decide equality; try apply string_dec; try apply Z.eq_dec;
    decide equality; try apply string_dec; apply Z.eq_dec.
Defined.

Section Ledger.
Import CompletionService.

Lemma insertByDateDesc_count x l c :
  count_occ HabitCompletion_eq_dec (Prisma.insertByDateDesc x l) c
  = count_occ HabitCompletion_eq_dec (x :: l) c.
Proof.
  induction l as [|y l IH]; [reflexivity|].
  cbn [Prisma.insertByDateDesc]. destruct (hc_date y <? hc_date x); [reflexivity|].
  cbn [count_occ] in *. rewrite IH.
  destruct (HabitCompletion_eq_dec y c), (HabitCompletion_eq_dec x c); reflexivity.
Qed.

Lemma orderByDateDesc_count l c :
  count_occ HabitCompletion_eq_dec (Prisma.orderByDateDesc l) c
  = count_occ HabitCompletion_eq_dec l c.
Proof.
  induction l as [|x l IH]; [reflexivity|].
  cbn [Prisma.orderByDateDesc fold_right]. rewrite insertByDateDesc_count.
  cbn [count_occ]. fold (Prisma.orderByDateDesc l). now rewrite IH.
Qed.

Lemma find_app_none {A} (f : A -> bool) (l m : list A) :
  find f l = None -> find f (l ++ m) = find f m.
Proof.
  induction l as [|x l IH]; simpl; [reflexivity|].
  destruct (f x); [discriminate|exact IH].
Qed.

Lemma find_owned_habit (rows : list Habit) habitId userId :
  (exists h, In h rows /\ h_id h = habitId /\ h_userId h = userId) ->
  exists h, find (fun h => String.eqb (h_id h) habitId
                           && String.eqb (h_userId h) userId) rows = Some h.
Proof.
  intros (h & Hin & E1 & E2).
  destruct (find _ rows) as [h'|] eqn:F; [now exists h'|].
  exfalso. apply (find_none _ _ F) in Hin.
  rewrite E1, E2, !String.eqb_refl in Hin. discriminate.
Qed.

(** C7.  For a habit owned by the caller and a date without completion,
    [createCompletion] succeeds and appends the record; a query of the
    completions of the habit then contains that record exactly once; a
    second [createCompletion] for the same habit and date fails with
    'Completion already exists for this date', reported by the handler as
    409 Conflict, and leaves the world unchanged. *)
Theorem createCompletion_roundtrip (tz : Z) w userId habitId data :
  (exists h, In h (habits (db w)) /\ h_id h = habitId /\ h_userId h = userId) ->
  (forall c, In c (ledger w) -> hc_habitId c = habitId ->
             hc_date c <> ci_date data) ->
  exists c w1,
    createCompletion userId habitId data w = (Return c, w1)
    /\ c = mkCompletion (hc_id c) habitId (ci_date data) (ci_duration data)
                        (ci_notes data)
    /\ ledger w1 = ledger w ++ [c]
    /\ (exists l, getCompletions tz userId habitId None None w1 = (Return l, w1)
                  /\ count_occ HabitCompletion_eq_dec l c = 1%nat)
    /\ (forall data', ci_date data' = ci_date data ->
          createCompletion userId habitId data' w1
          = (Throw (Error_ "Completion already exists for this date"), w1))
    /\ (forall duration notes,
          CompletionController.create
            (mkRequest (Some userId) habitId None (ci_date data) duration notes) w1
          = (if truthy (Some userId)
             then (Return (mkResponse 409 (Some "Conflict"%string)
                             (Some "Completion already exists for this date"%string),
                           None), w1)
             else (Return (mkResponse 401 (Some "Unauthorized"%string)
                             (Some "User ID not found in request"%string),
                           None), w1))).
Proof.
  intros Hown Hfree.
  destruct (find_owned_habit _ _ _ Hown) as [h Fh].
  assert (Hnone : find (fun c => String.eqb (hc_habitId c) habitId
                                 && (hc_date c =? ci_date data)) (ledger w) = None).
  { destruct (find _ (ledger w)) as [c|] eqn:F; [|reflexivity].
    apply find_some in F as [Hc E]. apply andb_true_iff in E as [E1 E2].
    apply String.eqb_eq in E1. apply Z.eqb_eq in E2.
    exfalso. now apply (Hfree c). }
  assert (Hex : existsb (fun c => String.eqb (hc_habitId c) habitId
                                  && (hc_date c =? ci_date data)) (ledger w) = false).
  { destruct (existsb _ (ledger w)) eqn:E; [|reflexivity].
    apply existsb_exists in E as (c & Hc & E).
    apply (find_none _ _ Hnone) in Hc. congruence. }
  assert (Hfk : existsb (fun h => String.eqb (h_id h) habitId) (habits (db w)) = true).
  { destruct Hown as (h0 & Hin & E & _). apply existsb_exists.
    exists h0. split; [exact Hin|]. now apply String.eqb_eq. }
  set (c := mkCompletion (Prisma.cuid (cuids (db w))) habitId (ci_date data)
                         (ci_duration data) (ci_notes data)).
  set (w1 := mkWorld (mkDb (habits (db w)) (ledger w ++ [c]) (habitSkips (db w))
                           (notificationSubscriptions (db w)) (cuids (db w) + 1))
                     (transport w) (deliveries w) (console w)).
  assert (Hhab1 : habits (db w1) = habits (db w)) by reflexivity.
  assert (Hled1 : ledger w1 = ledger w ++ [c]) by reflexivity.
  assert (Hfind1 : find (fun c => String.eqb (hc_habitId c) habitId
                                  && (hc_date c =? ci_date data)) (ledger w1)
                   = Some c).
  { rewrite Hled1, (find_app_none _ _ _ Hnone). cbn.
    now rewrite String.eqb_refl, Z.eqb_refl. }
  assert (Hdup : forall data', ci_date data' = ci_date data ->
            createCompletion userId habitId data' w1
            = (Throw (Error_ "Completion already exists for this date"), w1)).
  { intros data' E. unfold createCompletion, Prisma.habit_findFirst,
      Prisma.habitCompletion_findUnique, getDb, ret, throw, bind.
    cbv beta iota. rewrite Hhab1, Fh. cbv beta iota.
    fold (ledger w1). rewrite E, Hfind1. reflexivity. }
  exists c, w1. split; [|split; [|split; [|split; [|split]]]].
  - unfold createCompletion, Prisma.habit_findFirst,
      Prisma.habitCompletion_findUnique, Prisma.habitCompletion_create,
      getDb, putDb, ret, throw, bind. cbv beta iota.
    unfold ledger in Hnone, Hex.
    rewrite Fh. cbv beta iota. rewrite Hnone. cbv beta iota.
    rewrite Hex. cbv beta iota. rewrite Hfk. reflexivity.
  - reflexivity.
  - reflexivity.
  - eexists. split.
    + unfold getCompletions, Prisma.habit_findFirst,
        Prisma.habitCompletion_findMany, getDb, ret, bind.
      cbv beta iota. rewrite Hhab1, Fh. reflexivity.
    + rewrite orderByDateDesc_count. fold (ledger w1). rewrite Hled1.
      rewrite filter_app, count_occ_app.
      match goal with |- (_ + count_occ _ ?l _ = _)%nat =>
        assert (l = [c]) as ->
          by (cbn [filter]; change (hc_habitId c) with habitId;
              rewrite String.eqb_refl; reflexivity)
      end.
      rewrite (count_occ_cons_eq _ _ (eq_refl c)). cbn [count_occ].
      rewrite (proj1 (count_occ_not_In HabitCompletion_eq_dec _ c)); [reflexivity|].
      intros Hin. apply filter_In in Hin as [Hin _].
      now apply (Hfree c Hin).
  - exact Hdup.
  - intros duration notes. unfold CompletionController.create, tryCatch.
    cbn [req_userId req_params_habitId req_body_date req_body_duration
         req_body_notes].
    destruct (truthy (Some userId)); cbn [negb]; [|reflexivity].
    unfold bind at 1.
    rewrite (Hdup (mkInput (ci_date data) duration notes) eq_refl).
    reflexivity.
Qed.
End Ledger.

Section Unsubscribe.
Import PushNotificationService NotificationController.

(** C8, counterexample: unsubscribing an endpoint nobody registered is
    answered 404 Not Found. *)
Lemma unsubscribe_unregistered_is_404 :
  unsubscribe (unsubscribeRequest "user-1" "https://push.example/ep-1") emptyWorld
  = (Return (mkResponse 404 (Some "Not Found"%string)
                        (Some "Subscription not found"%string)), emptyWorld)
  /\ ~ unsubscribe_unregistered_succeeds.
Proof.
  split; [reflexivity|]. intros H.
  destruct (H emptyWorld "user-1"%string "https://push.example/ep-1"%string)
    as (r & E & S); try discriminate; try reflexivity.
  cbv in E. injection E as <-. simpl in S. lia.
Qed.

Lemma truthy_Some s : s <> ""%string -> truthy (Some s) = true.
Proof.
  intros H. unfold truthy. destruct (String.eqb s "") eqn:E; [|reflexivity].
  apply String.eqb_eq in E. contradiction.
Qed.

(** C8, amended.  [unsubscribe] answers 403 Forbidden and leaves the world
    unchanged when the endpoint is registered to another owner; it removes
    the subscription and answers 204 when the endpoint is registered to the
    caller; and when the endpoint is not registered the service returns
    [false] without throwing, the handler answers 404 Not Found, and the
    world is unchanged. *)
Theorem unsubscribe_outcomes w userId endpoint :
  userId <> ""%string -> endpoint <> ""%string ->
  let req := unsubscribeRequest userId endpoint in
  (forall s, registeredTo w endpoint = Some s -> ns_userId s <> userId ->
     unsubscribe req w
     = (Return (mkResponse 403 (Some "Forbidden"%string)
                  (Some "Subscription does not belong to user"%string)), w))
  /\ (forall s, registeredTo w endpoint = Some s -> ns_userId s = userId ->
        unsubscribe req w
        = (Return (mkResponse 204 None None),
           withRegistry w (filter (fun x => negb (String.eqb (ns_endpoint x) endpoint))
                                  (registry w))))
  /\ (registeredTo w endpoint = None ->
        deleteSubscription userId endpoint w = (Return false, w)
        /\ unsubscribe req w
           = (Return (mkResponse 404 (Some "Not Found"%string)
                        (Some "Subscription not found"%string)), w)).
Proof.
  intros Hu He req. unfold registeredTo, registry.
  pose proof (truthy_Some _ Hu) as Tu. pose proof (truthy_Some _ He) as Te.
  split; [|split].
  - intros s F Hs.
    unfold unsubscribe, req, unsubscribeRequest, tryCatch.
    cbn [req_userId req_body_endpoint]. rewrite Tu, Te. cbn [negb].
    unfold bind at 1. unfold deleteSubscription,
      Prisma.notificationSubscription_findUnique, getDb, ret, throw, bind.
    rewrite F.
    destruct (String.eqb (ns_userId s) userId) eqn:E.
    + apply String.eqb_eq in E. contradiction.
    + reflexivity.
  - intros s F Hs.
    unfold unsubscribe, req, unsubscribeRequest, tryCatch.
    cbn [req_userId req_body_endpoint]. rewrite Tu, Te. cbn [negb].
    unfold bind at 1. unfold deleteSubscription,
      Prisma.notificationSubscription_findUnique,
      Prisma.notificationSubscription_delete, getDb, putDb, ret, throw, bind.
    rewrite F. rewrite Hs, String.eqb_refl. cbn [negb].
    assert (existsb (fun s => String.eqb (ns_endpoint s) endpoint)
                    (notificationSubscriptions (db w)) = true) as Hex.
    { apply find_some in F as [Hin E]. apply existsb_exists. now exists s. }
    rewrite Hex. reflexivity.
  - intros F.
    assert (D : deleteSubscription userId endpoint w = (Return false, w)).
    { unfold deleteSubscription,
        Prisma.notificationSubscription_findUnique, getDb, ret, bind.
      now rewrite F. }
    split; [exact D|].
    unfold unsubscribe, req, unsubscribeRequest, tryCatch.
    cbn [req_userId req_body_endpoint]. rewrite Tu, Te. cbn [negb].
    unfold bind at 1. rewrite D. reflexivity.
Qed.
End Unsubscribe.

(* ------------------------------------------------------------------ *)
(** ** The examples of the specification, evaluated *)

Ltac distinct_strings := repeat constructor; simpl; intuition discriminate.

Section Examples.
Example dateStr_2024_01_05 : dateStr 0 1704412800000 = "2024-01-05"%string.
Proof. vm_compute. reflexivity. Qed.

Example setDate_into_leap_day :
  dateStr 0 (setDate 0 (utcDate 2024 3 1) (getDate 0 (utcDate 2024 3 1) - 1))
  = "2024-02-29"%string.
Proof. vm_compute. reflexivity. Qed.

Example formatHHmm_local :
  formatHHmm 3600000 (utcDate 2024 1 5 + MakeTime 6 5 59 0) = "07:05"%string.
Proof. vm_compute. reflexivity. Qed.

(** Today (2024-01-05) has no record: the streak is 0 even though the
    days before carry completions. *)
Example streak_breaks_on_today :
  calculateStreak 0 (map (completionOn 2024 1) [4; 2; 1]) [skipOn 2024 1 3]
                  sevenAM = Some 0.
Proof. vm_compute. reflexivity. Qed.

Example streak_counts_back :
  calculateStreak 0 (map (completionOn 2024 1) [1; 3; 4; 5]) [] sevenAM = Some 3.
Proof. vm_compute. reflexivity. Qed.

Example streak_stops_at_skip :
  calculateStreak 0 (map (completionOn 2024 1) [5; 4; 2]) [skipOn 2024 1 3]
                  sevenAM = Some 2.
Proof. vm_compute. reflexivity. Qed.

(** Five hours west of UTC a date column value (UTC midnight) falls on the
    previous local day: at 18:00 local time on 2024-01-04 the records dated
    01-03, 01-04 and 01-05 count as the last three local days. *)
Example streak_in_another_zone :
  calculateStreak (-18000000) (map (completionOn 2024 1) [3; 4; 5]) []
                  (utcDate 2024 1 4 + MakeTime 23 0 0 0) = Some 3.
Proof. vm_compute. reflexivity. Qed.

Example empty_ledger_statistics :
  habitStatistics 0 [] [] sevenAM = mkStats 0 0 0 0%float (Some 0) 0.
Proof. vm_compute. reflexivity. Qed.

Example longest_streak_across_months :
  calculateLongestStreak 3600000
    (map (completionOn 2024 2) [27; 28; 29] ++ map (completionOn 2024 3) [1; 2; 4])
    [] = 5.
Proof. vm_compute. reflexivity. Qed.

(** Two local midnights 23 hours apart, as around a daylight-saving
    change, are not seen as consecutive days by the loop step, which starts
    a new run. *)
Example longestStep_short_day :
  longestStep (mkLS 0 1 (Some 0)) (23 * 60 * 60 * 1000) = mkLS 1 1 (Some 82800000).
Proof. vm_compute. reflexivity. Qed.

(** Two subscriptions for one habit, one expired and one alive: the expired
    one is pruned, the other is served, the general one is left alone. *)
Example dispatch_partial_failure :
  sendHabitReminder "habit-1" "Time to run" sampleWorld
  = (Return tt,
     mkWorld (mkDb [habit1; habit2] [] [] [subB; subG] 0) sampleTransport
             [mkDelivery (pushOf subA)
                         (mkPayload "Habit Reminder" "Time to run" "habit-1")
                         (Rejected (Some 410));
              mkDelivery (pushOf subB)
                         (mkPayload "Habit Reminder" "Time to run" "habit-1")
                         Delivered]
             [ConsoleLog "Deleted expired subscription: sub-a"]).
Proof. vm_compute. reflexivity. Qed.

Example reminder_at_seven :
  map d_subscription (deliveries (snd (checkAndSendReminders 0 sevenAM sampleWorld)))
  = [pushOf subA; pushOf subB]
  /\ map d_payload (deliveries (snd (checkAndSendReminders 0 sevenAM sampleWorld)))
     = [reminderPayload habit1; reminderPayload habit1].
Proof. split; vm_compute; reflexivity. Qed.

Example reminder_suppressed_after_completion :
  checkAndSendReminders 0 sevenAM completedWorld = (Return tt, completedWorld).
Proof. vm_compute. reflexivity. Qed.

Example reminder_not_at_another_minute :
  checkAndSendReminders 0 (sevenAM + 60000) sampleWorld = (Return tt, sampleWorld).
Proof. vm_compute. reflexivity. Qed.

Example subscribe_conflict :
  createOrUpdateSubscription "user-2" "https://push.example/b" (mkKeys "p" "a") None
                             sampleWorld
  = (Throw (Error_ "Endpoint already subscribed by another user"), sampleWorld).
Proof. vm_compute. reflexivity. Qed.
End Examples.

(* ------------------------------------------------------------------ *)
(** ** Instances *)

(** C4, counterexample: on the sample world the reminder of habit 1 goes to
    the two subscriptions of the habit and not to the general subscription
    of its owner. *)
Lemma sendHabitReminder_skips_general_subscription :
  map d_subscription
      (deliveries (snd (sendHabitReminder "habit-1" "Time to run" sampleWorld)))
  = [pushOf subA; pushOf subB]
  /\ ~ dispatch_reaches_general_subscriptions.
Proof.
  split; [vm_compute; reflexivity|]. intros H.
  destruct (H sampleWorld
              (snd (sendHabitReminder "habit-1" "Time to run" sampleWorld))
              habit1 "Time to run"%string) with (s := subG)
    as (d & Hd & Hs & _).
  - distinct_strings.
  - now left.
  - vm_compute. reflexivity.
  - simpl. tauto.
  - right. split; reflexivity.
  - vm_compute in Hd. destruct Hd as [<-|[<-|[]]]; discriminate Hs.
Qed.

Lemma sendHabitReminder_targets_witness :
  exists w' new,
    sendHabitReminder "habit-1" "Time to run" sampleWorld = (Return tt, w')
    /\ deliveries w' = deliveries sampleWorld ++ new
    /\ map d_subscription new = [pushOf subA; pushOf subB].
Proof.
  destruct (sendHabitReminder_targets "habit-1" "Time to run" sampleWorld)
    as (w' & new & R & D & S & _).
  - distinct_strings.
  - exists w', new. split; [exact R|]. split; [exact D|exact S].
Defined.

Lemma sendHabitReminder_partial_failure_witness :
  exists w' new,
    sendHabitReminder "habit-1" "Time to run" sampleWorld = (Return tt, w')
    /\ deliveries w' = deliveries sampleWorld ++ new
    /\ map d_subscription new = [pushOf subA; pushOf subB]
    /\ map d_result new = [Rejected (Some 410); Delivered]
    /\ ~ In subA (registry w') /\ In subB (registry w').
Proof.
  destruct (sendHabitReminder_partial_failure "habit-1" "Time to run" sampleWorld)
    as (w' & new & R & A & D & S & P & _).
  - distinct_strings.
  - exists w', new. split; [exact R|]. split; [exact D|]. split; [exact S|].
    rewrite A in *. split; [reflexivity|]. split.
    + apply (P subA (mkDelivery (pushOf subA)
                       (mkPayload "Habit Reminder" "Time to run" "habit-1")
                       (Rejected (Some 410)))); [simpl; auto|reflexivity].
    + apply (P subB (mkDelivery (pushOf subB)
                       (mkPayload "Habit Reminder" "Time to run" "habit-1")
                       Delivered)); [simpl; auto|discriminate].
Defined.

Lemma createCompletion_roundtrip_witness :
  exists c w1,
    createCompletion "user-1" "habit-1"
                     (mkInput (utcDate 2024 1 5) (Some 30) None) sampleWorld
    = (Return c, w1)
    /\ ledger w1 = ledger sampleWorld ++ [c].
Proof.
  destruct (createCompletion_roundtrip 0 sampleWorld "user-1" "habit-1"
              (mkInput (utcDate 2024 1 5) (Some 30) None))
    as (c & w1 & R & _ & L & _).
  - exists habit1. simpl. auto.
  - intros c [].
  - exists c, w1. split; [exact R|exact L].
Defined.

Lemma unsubscribe_outcomes_witness :
  unsubscribe (unsubscribeRequest "user-2" "https://push.example/a") sampleWorld
  = (Return (mkResponse 403 (Some "Forbidden"%string)
                        (Some "Subscription does not belong to user"%string)),
     sampleWorld).
Proof.
  destruct (unsubscribe_outcomes sampleWorld "user-2" "https://push.example/a")
    as (F & _ & _).
  - discriminate.
  - discriminate.
  - apply (F subA); [reflexivity|discriminate].
Defined.

Lemma calculateStreak_skip_wins_witness :
  exists n,
    calculateStreak 0 (map (completionOn 2024 1) [3; 4; 5]) [skipOn 2024 1 4] sevenAM
    = Some n
    /\ n <= 1.
Proof.
  destruct (calculateStreak_skip_wins 0 (map (completionOn 2024 1) [3; 4; 5])
              [skipOn 2024 1 4] sevenAM 1) as (_ & n & E & L).
  - lia.
  - exists (completionOn 2024 1 4). split; [simpl; auto|vm_compute; reflexivity].
  - exists (skipOn 2024 1 4). split; [simpl; auto|vm_compute; reflexivity].
  - exists n. split; [exact E|exact L].
Defined.


(* ================================================================== *)
(** * Further properties of the services *)

(* ------------------------------------------------------------------ *)
(** ** Laws of the streaks *)

Section StreakLaws.

Lemma streakOf_unique (tz : Z) completions skips today n m :
  streakOf tz completions skips today n ->
  streakOf tz completions skips today m -> n = m.
Proof.
  intros (Hn & An & En) (Hm & Am & Em).
  destruct (Z.lt_trichotomy n m) as [L|[E|L]]; [exfalso|exact E|exfalso].
  - destruct (Am n ltac:(lia)) as [C S]. tauto.
  - destruct (An m ltac:(lia)) as [C S]. tauto.
Qed.

Lemma calculateStreak_streakOf (tz : Z) completions skips now n :
  calculateStreak tz completions skips now = Some n <->
  streakOf tz completions skips (localDay tz now) n.
Proof.
  split.
  - intros E. exact (calculateStreak_sound _ _ _ _ _ E).
  - intros S. destruct (calculateStreak_terminates tz completions skips now) as [m E].
    rewrite E. f_equal.
    apply (streakOf_unique tz completions skips (localDay tz now)); [|exact S].
    exact (calculateStreak_sound _ _ _ _ _ E).
Qed.

(** The longest streak is attained by a run and bounds every run. *)
Lemma calculateLongestStreak_spec (tz : Z) completions skips :
  let L := calculateLongestStreak tz completions skips in
  (exists d, isRun (completedOn tz completions) d L)
  /\ (forall d k, isRun (completedOn tz completions) d k -> k <= L).
Proof.
  intros L. unfold L, calculateLongestStreak. clear L.
  destruct completions as [|c0 cs] eqn:Ec.
  - simpl. split; [exists 0; intros i Hi; lia|].
    intros d k Hk. destruct (Z_le_gt_dec k 0); [assumption|].
    destruct (Hk 0 ltac:(lia)) as (c & [] & _).
  - rewrite <- Ec.
    replace (Z.of_nat (List.length completions) =? 0) with false
      by (subst; symmetry; apply Z.eqb_neq; simpl; lia).
    cbv zeta.
    destruct (sortedDates_facts tz completions) as (S & M & C).
    apply (longest_fold tz (completedOn tz completions) _ S M C).
    intros E.
    assert (completedOn tz completions (localDay tz (hc_date c0))) as H0.
    { exists c0. split; [subst; now left|reflexivity]. }
    apply C in H0. rewrite E in H0. exact H0.
Qed.

(** X1.  On a host whose zone keeps one offset from UTC (no daylight-saving
    time), [calculateStreak] always returns a number and the current streak
    never exceeds the longest streak, whatever the skips and the instant of
    the call.  Across a daylight-saving change the longest streak can lose
    a day and fall below the current streak (example
    [streak_exceeds_longest_at_DST]). *)
Theorem currentStreak_le_longestStreak (tz : Z) completions skips now :
  exists n, calculateStreak (fixedOffset tz) completions skips now = Some n
            /\ 0 <= n
                <= calculateLongestStreak (fixedOffset tz) completions skips.
Proof.
  destruct (calculateStreak_terminates tz completions skips now) as [n E].
  exists n. split; [exact E|].
  destruct (calculateStreak_sound _ _ _ _ _ E) as (H0 & Hall & _).
  split; [exact H0|].
  apply (proj2 (calculateLongestStreak_spec tz completions skips)
               (localDay tz now - n + 1)).
  intros i Hi. destruct (Hall (n - 1 - i) ltac:(lia)) as [C _].
  replace (localDay tz now - n + 1 + i) with (localDay tz now - (n - 1 - i)) by lia.
  exact C.
Qed.

Lemma run_times_NoDup (tz : Z) d (k : nat) :
  NoDup (map (fun i => (d + Z.of_nat i) * msPerDay - tz) (seq 0 k)).
Proof.
  apply Injective_map_NoDup_in; [|apply seq_NoDup].
  intros i j _ _ E. unfold msPerDay in E. lia.
Qed.

(** A run of [k] completed days takes [k] completions. *)
Lemma run_le_length (tz : Z) completions d k :
  0 <= k -> isRun (completedOn tz completions) d k ->
  k <= Z.of_nat (List.length completions).
Proof.
  intros Hk Hd.
  destruct (sortedDates_facts tz completions) as (_ & _ & C). cbv zeta in C.
  set (times := map (fun c => getTime (setHours tz (hc_date c) 0 0 0 0)) completions) in *.
  assert (incl (map (fun i => (d + Z.of_nat i) * msPerDay - tz) (seq 0 (Z.to_nat k)))
               (Js.newSet Z.eqb times)) as Hincl.
  { intros m Hm. apply in_map_iff in Hm as (i & <- & Hi). apply in_seq in Hi.
    apply sortAsc_In. apply C. apply Hd. lia. }
  apply NoDup_incl_length in Hincl; [|apply run_times_NoDup].
  rewrite length_map, length_seq in Hincl.
  pose proof (newSet_length Z.eqb Z.eqb_eq times) as Ln.
  assert (List.length times = List.length completions) as Lt
      by (unfold times; apply length_map).
  lia.
Qed.

(** X2.  The longest streak lies between 0 and the number of completions,
    and it is 0 exactly when there is no completion. *)
Theorem longestStreak_bounds (tz : Z) completions skips :
  let L := calculateLongestStreak tz completions skips in
  0 <= L <= Z.of_nat (List.length completions)
  /\ (L = 0 <-> completions = []).
Proof.
  intros L. destruct (calculateLongestStreak_spec tz completions skips) as [[d Hd] Hmax].
  fold L in Hd, Hmax.
  assert (H0 : 0 <= L).
  { apply (Hmax 0 0). intros i Hi. lia. }
  assert (Hne : completions <> [] -> 1 <= L).
  { destruct completions as [|c0 cs]; [congruence|]. intros _.
    apply (Hmax (localDay tz (hc_date c0)) 1). intros i Hi.
    replace i with 0 by lia. rewrite Z.add_0_r. exists c0. split; [now left|reflexivity]. }
  split; [split; [exact H0|]|].
  - now apply (run_le_length tz completions d L).
  - split.
    + intros E. destruct completions as [|c0 cs]; [reflexivity|].
      assert (1 <= L) by (apply Hne; discriminate). lia.
    + intros ->. reflexivity.
Qed.

(** X3.  Both streaks depend on the records only through the local days
    that carry a completion and the local days that carry a skip: the order
    of the records, repeated records for a day, the time of day, durations
    and notes do not matter. *)
Theorem streaks_depend_on_days (tz : Z) completions completions' skips skips' now :
  (forall d, completedOn tz completions d <-> completedOn tz completions' d) ->
  (forall d, skippedOn tz skips d <-> skippedOn tz skips' d) ->
  calculateStreak tz completions skips now = calculateStreak tz completions' skips' now
  /\ calculateLongestStreak tz completions skips
     = calculateLongestStreak tz completions' skips'.
Proof.
  intros HC HS. split.
  - destruct (calculateStreak_terminates tz completions skips now) as [n E].
    rewrite E. symmetry. apply calculateStreak_streakOf.
    apply calculateStreak_streakOf in E. destruct E as (H0 & Hall & Hend).
    split; [exact H0|]. split.
    + intros i Hi. destruct (Hall i Hi) as [C S]. split; [now apply HC|].
      intros K. apply S. now apply HS.
    + destruct Hend as [K|K]; [left; now apply HS|right].
      intros C. apply K. now apply HC.
  - destruct (calculateLongestStreak_spec tz completions skips) as [[d Hd] Hmax].
    destruct (calculateLongestStreak_spec tz completions' skips') as [[d' Hd'] Hmax'].
    apply Z.le_antisymm.
    + apply (Hmax' d). intros i Hi. apply HC. now apply Hd.
    + apply (Hmax d'). intros i Hi. apply HC. now apply Hd'.
Qed.

End StreakLaws.

(* ------------------------------------------------------------------ *)
(** ** The streaks on calendar dates *)

(** The rows of the ledger carry dates: Prisma returns the time value of
    the UTC midnight of the date.  On a host at the constant offset [tz],
    less than a day from UTC, the local day of such a row is its date at
    and east of UTC, and the day before its date west of UTC. *)
Section OnDates.
Variable tz : Z.
Hypothesis Htz : - msPerDay < tz < msPerDay.

Lemma localDay_of_date t :
  TimeWithinDay t = 0 -> localDay tz t = Day t - westShift tz.
Proof.
  unfold TimeWithinDay, localDay, LocalTime, Day, westShift.
  cbn [offsetAtUTC offsetAtLocal fixedOffset].
  assert (0 < msPerDay) as Hpos by (unfold msPerDay; lia).
  intros H0. pose proof (Z.div_mod t msPerDay ltac:(lia)) as DM.
  destruct (Z.ltb_spec tz 0); symmetry.
  - apply Z.div_unique with (r := msPerDay + tz); lia.
  - apply Z.div_unique with (r := tz); lia.
Qed.

Lemma completedOn_datedOn completions d :
  dateRows completions ->
  (completedOn tz completions d <-> datedOn completions (d + westShift tz)).
Proof.
  intros Hr. split; intros (c & Hin & E); exists c; (split; [exact Hin|]);
    rewrite (localDay_of_date _ (Hr c Hin)) in *; lia.
Qed.

Lemma skippedOn_skipDatedOn skips d :
  dateSkips skips ->
  (skippedOn tz skips d <-> skipDatedOn skips (d + westShift tz)).
Proof.
  intros Hr. split; intros (c & Hin & E); exists c; (split; [exact Hin|]);
    rewrite (localDay_of_date _ (Hr c Hin)) in *; lia.
Qed.

Lemma streakOf_streakOnDates completions skips today n :
  dateRows completions -> dateSkips skips ->
  (streakOf tz completions skips today n
   <-> streakOnDates completions skips (today + westShift tz) n).
Proof.
  intros Hc Hs. unfold streakOf, streakOnDates.
  assert (C : forall i, completedOn tz completions (today - i)
                        <-> datedOn completions (today + westShift tz - i)).
  { intros i. rewrite (completedOn_datedOn _ _ Hc).
    now replace (today - i + westShift tz) with (today + westShift tz - i) by lia. }
  assert (S : forall i, skippedOn tz skips (today - i)
                        <-> skipDatedOn skips (today + westShift tz - i)).
  { intros i. rewrite (skippedOn_skipDatedOn _ _ Hs).
    now replace (today - i + westShift tz) with (today + westShift tz - i) by lia. }
  split; intros (H0 & Hall & Hend); (split; [exact H0|]); split.
  - intros i Hi. destruct (Hall i Hi) as [A B]. split; [now apply C|].
    intros K. apply B. now apply S.
  - destruct Hend as [K|K]; [left; now apply S|right].
    intros A. apply K. now apply C.
  - intros i Hi. destruct (Hall i Hi) as [A B]. split; [now apply C|].
    intros K. apply B. now apply S.
  - destruct Hend as [K|K]; [left; now apply S|right].
    intros A. apply K. now apply C.
Qed.

(** X28.  On a host at a constant offset of less than a day from UTC, with
    the rows dated as the database returns them, [calculateStreak] always
    returns a number, and that number is the walk of the specification over
    the dates of the rows: started at the local date of the call on a host
    at or east of UTC, and at the date after it on a host west of UTC, where
    every row counts for the day before its date.  Without completions it
    returns 0. *)
Theorem calculateStreak_on_dates completions skips now :
  dateRows completions -> dateSkips skips ->
  (exists n, calculateStreak (fixedOffset tz) completions skips now = Some n)
  /\ (forall n,
        calculateStreak (fixedOffset tz) completions skips now = Some n
        <-> streakOnDates completions skips (localDay tz now + westShift tz) n)
  /\ (completions = [] ->
      calculateStreak (fixedOffset tz) completions skips now = Some 0).
Proof.
  intros Hc Hs. split; [apply calculateStreak_terminates|]. split.
  - intros n. rewrite calculateStreak_streakOf.
    now apply streakOf_streakOnDates.
  - intros ->. reflexivity.
Qed.

(** X29.  On a host at a constant offset of less than a day from UTC, with
    the rows dated as the database returns them, [calculateLongestStreak]
    is the length of a longest run of consecutive dates with a completion:
    some run has that length and no run is longer; a single completion
    gives 1. *)
Theorem calculateLongestStreak_on_dates completions skips :
  dateRows completions ->
  let L := calculateLongestStreak (fixedOffset tz) completions skips in
  (exists d, isRun (datedOn completions) d L)
  /\ (forall d k, isRun (datedOn completions) d k -> k <= L)
  /\ (forall c, calculateLongestStreak (fixedOffset tz) [c] skips = 1).
Proof.
  intros Hc L.
  destruct (calculateLongestStreak_spec tz completions skips) as [[d Hd] Hmax].
  fold L in Hd, Hmax. split; [|split].
  - exists (d + westShift tz). intros i Hi.
    replace (d + westShift tz + i) with (d + i + westShift tz) by lia.
    apply (completedOn_datedOn _ _ Hc). now apply Hd.
  - intros d' k Hk. apply (Hmax (d' - westShift tz)). intros i Hi.
    apply (completedOn_datedOn _ _ Hc).
    replace (d' - westShift tz + i + westShift tz) with (d' + i) by lia.
    now apply Hk.
  - intros c. reflexivity.
Qed.

(** X4.  The current streak day by day, on a host at a constant offset of
    less than a day from UTC and rows dated as the database returns them.
    Let [T] be the date at which the walk starts (the local date of the call
    at and east of UTC, the date after it west of UTC).  The streak is 0
    when no completion is dated [T] or a skip is dated [T]; when a
    completion and no skip is dated [T], it is one more than the streak the
    same records give 24 hours earlier. *)
Theorem calculateStreak_today completions skips now :
  dateRows completions -> dateSkips skips ->
  let T := localDay tz now + westShift tz in
  ((~ datedOn completions T \/ skipDatedOn skips T) ->
   calculateStreak (fixedOffset tz) completions skips now = Some 0)
  /\ (datedOn completions T -> ~ skipDatedOn skips T ->
      forall m,
        calculateStreak (fixedOffset tz) completions skips (now - msPerDay) = Some m ->
        calculateStreak (fixedOffset tz) completions skips now = Some (m + 1)).
Proof.
  intros Hc Hs T. split.
  - intros H. apply calculateStreak_streakOf, (streakOf_streakOnDates _ _ _ _ Hc Hs).
    fold T. split; [lia|]. split.
    + intros i Hi. lia.
    + rewrite Z.sub_0_r. tauto.
  - intros C S m E.
    apply calculateStreak_streakOf, (streakOf_streakOnDates _ _ _ _ Hc Hs).
    apply calculateStreak_streakOf, (streakOf_streakOnDates _ _ _ _ Hc Hs) in E.
    rewrite localDay_previous in E. fold T.
    replace (localDay tz now - 1 + westShift tz) with (T - 1) in E by (unfold T; lia).
    destruct E as (H0 & Hall & Hend). split; [lia|]. split.
    + intros i Hi. destruct (Z.eq_dec i 0) as [->|Hne].
      * rewrite Z.sub_0_r. auto.
      * specialize (Hall (i - 1) ltac:(lia)).
        replace (T - 1 - (i - 1)) with (T - i) in Hall by lia.
        exact Hall.
    + replace (T - (m + 1)) with (T - 1 - m) by lia.
      exact Hend.
Qed.
End OnDates.

(* ------------------------------------------------------------------ *)
(** ** Hosts away from UTC *)

(** The date columns hold calendar dates, which Prisma returns as UTC
    midnights, while the services read them and the clock with the local
    getters of [Date].  On a host away from UTC, or with daylight-saving
    time, the two disagree; the lemmas of this section evaluate the services
    there. *)
Section Zones.

(** C1.  On a host five hours west of UTC (Bogota), at noon local time on
    2024-01-05, for a habit whose only record is a completion dated
    2024-01-05: the walk of the specification from today gives 1, and
    [calculateStreak] returns 0.  The row is the UTC midnight of its date,
    19:00 of the day before on this host, so the key the code builds for it
    is 2024-01-04 and the key of today finds nothing. *)
Lemma calculateStreak_misses_today_west_of_UTC :
  let rows := [completionOn 2024 1 5] in
  let now := utcDate 2024 1 5 + hours 17 in
  localDay bogota now = daysFromCivil 2024 1 5
  /\ streakOnDates rows [] (daysFromCivil 2024 1 5) 1
  /\ calculateStreak bogota rows [] now = Some 0.
Proof.
  cbv zeta. split; [vm_compute; reflexivity|]. split; [|vm_compute; reflexivity].
  split; [lia|]. split.
  - intros i Hi. replace i with 0 by lia. split.
    + exists (completionOn 2024 1 5). split; [now left|vm_compute; reflexivity].
    + intros (s & [] & _).
  - right. intros (c & [<-|[]] & E). vm_compute in E. discriminate.
Qed.

(** C2.  For completions dated 2024-03-10, 2024-03-11 and 2024-03-12, a run
    of three consecutive dates: on a host without daylight-saving time
    (Bogota) [calculateLongestStreak] returns 3, and on a host in New York,
    where the clocks go forward on 2024-03-10, it returns 2.  The local
    midnights of the last two rows are 23 hours apart, [Math.floor] of the
    quotient by a day is 0, and the loop starts a new run. *)
Lemma calculateLongestStreak_loses_day_at_DST :
  let rows := map (completionOn 2024 3) [10; 11; 12] in
  isRun (datedOn rows) (daysFromCivil 2024 3 10) 3
  /\ calculateLongestStreak bogota rows [] = 3
  /\ calculateLongestStreak newYork2024 rows [] = 2.
Proof.
  cbv zeta. split; [|split; vm_compute; reflexivity].
  intros i Hi.
  assert (i = 0 \/ i = 1 \/ i = 2) as [->|[->| ->]] by lia.
  - exists (completionOn 2024 3 10). split; [simpl; auto|vm_compute; reflexivity].
  - exists (completionOn 2024 3 11). split; [simpl; auto|vm_compute; reflexivity].
  - exists (completionOn 2024 3 12). split; [simpl; auto|vm_compute; reflexivity].
Qed.

(** The same rows in New York at noon on 2024-03-11: the current streak is
    3 and the longest streak is 2. *)
Example streak_exceeds_longest_at_DST :
  let rows := map (completionOn 2024 3) [10; 11; 12] in
  calculateStreak newYork2024 rows [] (utcDate 2024 3 11 + hours 16) = Some 3
  /\ calculateLongestStreak newYork2024 rows [] = 2.
Proof. split; vm_compute; reflexivity. Qed.

(** The example of the specification, on a host at UTC and in New York
    (January has no change of the clocks). *)
Example longest_streak_with_a_gap :
  calculateLongestStreak 0 january2024 [] = 5
  /\ calculateLongestStreak newYork2024 january2024 [] = 5
  /\ calculateLongestStreak 0 [completionOn 2024 1 5] [] = 1.
Proof. repeat split; vm_compute; reflexivity. Qed.

(** C6.  On a host five hours east of UTC (Karachi), at 07:00:30 local time
    on 2024-01-05, for a habit with the reminder time 07:00, two
    subscriptions and a completion dated 2024-01-05: the tick sends the
    reminder to both subscriptions.  The window of the query runs from the
    local midnight, 19:00 UTC of the day before, so on the date column it
    selects the completions dated 2024-01-04.  On a host at UTC the same
    completion suppresses the reminder. *)
Lemma checkAndSendReminders_reminds_completed_habit_east_of_UTC :
  let now := utcDate 2024 1 5 + MakeTime 2 0 30 0 in
  localDay karachi now = daysFromCivil 2024 1 5
  /\ h_reminderTime habit1 = Some (formatHHmm karachi now)
  /\ completedOnDate completedWorld habit1 (daysFromCivil 2024 1 5)
  /\ map d_payload
         (deliveries (snd (checkAndSendReminders karachi now completedWorld)))
     = [reminderPayload habit1; reminderPayload habit1]
  /\ deliveries (snd (checkAndSendReminders 0 sevenAM completedWorld)) = [].
Proof.
  cbv zeta. split; [vm_compute; reflexivity|]. split; [vm_compute; reflexivity|].
  split; [|split; vm_compute; reflexivity].
  exists (completionOn 2024 1 5). split; [simpl; auto|].
  split; vm_compute; reflexivity.
Qed.
End Zones.

(* ------------------------------------------------------------------ *)
(** ** The clock key and the footprint of a tick *)

Section ClockKeys.
Lemma hours_minutes_of_minuteOfDay (tz : Z) t :
  getHours tz t = minuteOfDay tz t / 60
  /\ getMinutes tz t = minuteOfDay tz t mod 60
  /\ 0 <= getHours tz t < 24 /\ 0 <= getMinutes tz t < 60.
Proof.
  unfold getHours, getMinutes, HourFromTime, MinFromTime, minuteOfDay, LocalTime.
  cbn [offsetAtUTC offsetAtLocal fixedOffset].
  set (q := (t + tz) / (1000 * 60)).
  assert (Hq : (t + tz) / (1000 * 60 * 60) = q / 60).
  { unfold q. rewrite Z.div_div by lia. reflexivity. }
  rewrite Hq.
  change (24 * 60) with (60 * 24).
  rewrite (Z.rem_mul_r q 60 24) by lia.
  pose proof (Z.mod_pos_bound q 60 ltac:(lia)).
  pose proof (Z.mod_pos_bound (q / 60) 24 ltac:(lia)).
  repeat split; try lia.
  - apply Z.div_unique with (r := q mod 60); lia.
  - apply Z.mod_unique with (q := (q / 60) mod 24); lia.
Qed.

(** The key of the tick names the local minute of the day. *)
Lemma formatHHmm_clockKey (tz : Z) now :
  formatHHmm tz now = clockKey (minuteOfDay tz now).
Proof.
  destruct (hours_minutes_of_minuteOfDay tz now) as (H & M & _).
  unfold formatHHmm, clockKey, pad2. now rewrite H, M.
Qed.

(** X10.  The reminder matcher on a host at a constant offset of less than
    a day from UTC, on a database with unique habit ids and subscription
    ids.  A habit is due when its reminder time is the local hour and
    minute of the call, written [HH:mm].  For a due habit the tick looks
    for a completion dated [windowDate], the UTC date of the local midnight:
    the local date of the call at and west of UTC, the date before it east
    of UTC.  If there is one, no notification carries the habit; if there
    is none, every subscription of the habit is notified with the reminder
    of the habit.  A habit that is not due is not notified. *)
Theorem checkAndSendReminders_matcher (tz : Z) now w :
  - msPerDay < tz < msPerDay ->
  NoDup (map ns_id (registry w)) ->
  NoDup (map h_id (habits (db w))) ->
  exists w' new,
    checkAndSendReminders (fixedOffset tz) now w = (Return tt, w')
    /\ deliveries w' = deliveries w ++ new
    /\ forall h, In h (habits (db w)) ->
         (h_reminderTime h = Some (clockKey (minuteOfDay tz now)) ->
          completedOnDate w h (windowDate tz now) ->
          forall d, In d new -> habitId (d_payload d) <> h_id h)
         /\ (h_reminderTime h = Some (clockKey (minuteOfDay tz now)) ->
             ~ completedOnDate w h (windowDate tz now) ->
             forall s, In s (registry w) -> ns_habitId s = Some (h_id h) ->
             exists d, In d new /\ d_subscription d = pushOf s
                       /\ d_payload d = reminderPayload h)
         /\ (h_reminderTime h <> Some (clockKey (minuteOfDay tz now)) ->
             forall d, In d new -> habitId (d_payload d) <> h_id h).
Proof.
  intros Htz Ns Nh. rewrite checkAndSendReminders_unfold.
  rewrite <- formatHHmm_clockKey.
  destruct (forOf_reminderBody (dueHabits tz now w) w Ns)
    as (w' & new & R & D & HA & HB & _ & _).
  exists w', new. split; [exact R|]. split; [exact D|].
  intros h Hh. split; [|split].
  - intros Hr Hc d Hd E.
    destruct (HA d Hd) as (hw & Hin & Hnil & Hp).
    destruct (dueHabits_In tz now w hw Htz Hin) as (Hhw & _ & Hnc).
    rewrite Hp in E. cbn in E.
    assert (Prisma.hw_habit hw = h) as Eh
        by (apply (habit_ids_injective (habits (db w))); auto).
    rewrite Eh in Hnc. now apply Hnc.
  - intros Hr Hc s Hs Hsh.
    destruct (dueHabits_covers tz now w h s Htz Hh Hr Hs Hsh) as (hw & Hin & Eh & Hnil).
    specialize (HB (dueHabits_NoDup tz now w Nh) hw Hin (Hnil Hc) s Hs).
    rewrite Eh in HB. exact (HB Hsh).
  - intros Hr d Hd E.
    destruct (HA d Hd) as (hw & Hin & _ & Hp).
    destruct (dueHabits_In tz now w hw Htz Hin) as (Hhw & Hrt & _).
    rewrite Hp in E. cbn in E.
    assert (Prisma.hw_habit hw = h) as Eh
        by (apply (habit_ids_injective (habits (db w))); auto).
    rewrite Eh in Hrt. contradiction.
Qed.
End ClockKeys.

Section Tick.

(** A key that is unique in the registry is unique among the rows a query
    keeps. *)
Lemma NoDup_keys_filter {K} (key : NotificationSubscription -> K)
      (keep : NotificationSubscription -> bool) rows :
  NoDup (map key rows) -> NoDup (map key (filter keep rows)).
Proof.
  intros N. induction rows as [|s rows IH]; [exact N|].
  cbn [map filter] in *. apply NoDup_cons_iff in N as [Fresh N].
  destruct (keep s); [|now apply IH].
  cbn [map]. apply NoDup_cons; [|now apply IH].
  rewrite in_map_iff. intros (s' & E & Hs'). apply Fresh.
  apply filter_In in Hs' as [Hs' _]. rewrite <- E. now apply in_map.
Qed.

Lemma attempts_partner tr payload subs : forall history d,
  In d (attempts tr history subs payload) ->
  exists s, In s subs /\ d_subscription d = pushOf s.
Proof.
  induction subs as [|x rest IH]; intros history d; simpl; [tauto|].
  intros [<-|H].
  - exists x. auto.
  - destruct (IH _ _ H) as (s & ? & ?). exists s. auto.
Qed.

(** What one dispatch does to the world, and to whom. *)
Lemma sendHabitReminder_footprint hid message w :
  NoDup (map ns_id (registry w)) ->
  exists w' new,
    sendHabitReminder hid message w = (Return tt, w')
    /\ deliveries w' = deliveries w ++ new
    /\ transport w' = transport w
    /\ habits (db w') = habits (db w)
    /\ habitCompletions (db w') = habitCompletions (db w)
    /\ habitSkips (db w') = habitSkips (db w)
    /\ (exists p, registry w' = filter p (registry w))
    /\ (forall s, In s (registry w) -> ~ In s (registry w') ->
          exists d, In d new /\ d_subscription d = pushOf s
                    /\ d_result d = Rejected (Some 410))
    /\ map d_subscription new = map pushOf (subscriptionsFor hid w)
    /\ (forall d, In d new -> habitId (d_payload d) = hid).
Proof.
  intros N. pose proof (sendHabitReminder_run hid message w N) as R.
  cbv zeta in R.
  set (subs := subscriptionsFor hid w) in *.
  set (payload := mkPayload "Habit Reminder" message hid) in *.
  set (new := attempts (transport w) (deliveries w) subs payload) in *.
  eexists. exists new. split; [exact R|].
  unfold registry at 1 3. cbn. fold (registry w).
  repeat split; try reflexivity.
  - eexists. reflexivity.
  - intros s Hs Hn.
    destruct (in_dec NotificationSubscription_eq_dec s
                (pruned (combine subs new) (registry w))) as [Hy|Hy]; [contradiction|].
    assert (exists s' d, In (s', d) (combine subs new) /\ ns_id s = ns_id s'
                         /\ isGone (d_result d) = true) as (s' & d & Hp & E & G).
    { unfold pruned in Hy.
      destruct (existsb (fun p => String.eqb (ns_id s) (ns_id (fst p))
                                  && isGone (d_result (snd p))) (combine subs new)) eqn:T.
      - apply existsb_exists in T as ([s' d] & Hp & T). simpl in T.
        apply andb_true_iff in T as [E G]. apply String.eqb_eq in E.
        exists s', d. auto.
      - exfalso. apply Hy. apply filter_In. split; [exact Hs|]. now rewrite T. }
    destruct (attempts_combine _ _ _ _ _ _ Hp) as (Hs' & Hsub & _).
    assert (s = s').
    { apply (ids_injective (registry w)); auto.
      apply subscriptionsFor_In in Hs'. tauto. }
    subst s'. exists d. split; [now apply in_combine_r in Hp|].
    split; [exact Hsub|]. now apply isGone_iff.
  - apply attempts_subscriptions.
  - intros d Hd. apply attempts_payload in Hd. now rewrite Hd.
Qed.

Lemma forOf_reminderBody_footprint hs : forall w,
  NoDup (map ns_id (registry w)) ->
  exists w' new,
    forOf hs reminderBody w = (Return tt, w')
    /\ deliveries w' = deliveries w ++ new
    /\ habits (db w') = habits (db w)
    /\ habitCompletions (db w') = habitCompletions (db w)
    /\ habitSkips (db w') = habitSkips (db w)
    /\ (exists p, registry w' = filter p (registry w))
    /\ (forall s, In s (registry w) -> ~ In s (registry w') ->
          exists d, In d new /\ d_subscription d = pushOf s
                    /\ d_result d = Rejected (Some 410))
    /\ (forall d, In d new ->
          exists hw s, In hw hs /\ In s (registry w)
                       /\ d_subscription d = pushOf s
                       /\ ns_habitId s = Some (h_id (Prisma.hw_habit hw))
                       /\ habitId (d_payload d) = h_id (Prisma.hw_habit hw))
    /\ (NoDup (map ns_endpoint (registry w)) ->
        NoDup (map (fun hw => h_id (Prisma.hw_habit hw)) hs) ->
        NoDup (map (fun d => endpoint (d_subscription d)) new)).
Proof.
  induction hs as [|hw rest IH]; intros w N.
  - exists w, []. simpl. unfold ret. rewrite app_nil_r.
    repeat split; auto; try tauto; try (intros; contradiction); try constructor.
    exists (fun _ => true). now rewrite filter_true.
  - cbn [forOf]. unfold bind.
    assert (Hstep : exists w1 new1,
      reminderBody hw w = (Return tt, w1)
      /\ deliveries w1 = deliveries w ++ new1
      /\ habits (db w1) = habits (db w)
      /\ habitCompletions (db w1) = habitCompletions (db w)
      /\ habitSkips (db w1) = habitSkips (db w)
      /\ (exists p, registry w1 = filter p (registry w))
      /\ (forall s, In s (registry w) -> ~ In s (registry w1) ->
            exists d, In d new1 /\ d_subscription d = pushOf s
                      /\ d_result d = Rejected (Some 410))
      /\ (forall d, In d new1 ->
            exists s, In s (registry w) /\ d_subscription d = pushOf s
                      /\ ns_habitId s = Some (h_id (Prisma.hw_habit hw))
                      /\ habitId (d_payload d) = h_id (Prisma.hw_habit hw))
      /\ (NoDup (map ns_endpoint (registry w)) ->
          NoDup (map (fun d => endpoint (d_subscription d)) new1))).
    { unfold reminderBody.
      destruct (Z.of_nat (List.length (Prisma.hw_completions hw)) =? 0).
      - destruct (sendHabitReminder_footprint (h_id (Prisma.hw_habit hw))
                    (reminderMessage (h_name (Prisma.hw_habit hw))) w N)
          as (w1 & new1 & R & D & _ & Hh & Hc & Hk & Hp & Hdel & Hmap & Hpay).
        exists w1, new1. repeat split; auto.
        + intros d Hd. pose proof (Hpay d Hd) as Ep.
          apply (in_map d_subscription) in Hd. rewrite Hmap in Hd.
          apply in_map_iff in Hd as (s & Es & Hs).
          apply subscriptionsFor_In in Hs as [Hs Hh'].
          exists s. auto.
        + intros Ne.
          replace (map (fun d => endpoint (d_subscription d)) new1)
            with (map endpoint (map d_subscription new1)) by apply map_map.
          rewrite Hmap, map_map. cbn [pushOf endpoint].
          unfold subscriptionsFor. now apply NoDup_keys_filter.
      - exists w, []. unfold ret. rewrite app_nil_r.
        repeat split; auto; try tauto; try (intros; contradiction); try constructor.
        exists (fun _ => true). now rewrite filter_true. }
    destruct Hstep as (w1 & new1 & R1 & D1 & Hh1 & Hc1 & Hk1 & [p1 Hp1] & Hdel1
                       & Hfrom1 & Hnd1).
    rewrite R1.
    assert (N1 : NoDup (map ns_id (registry w1))).
    { rewrite Hp1. now apply NoDup_keys_filter. }
    assert (Hsub1 : forall s, In s (registry w1) -> In s (registry w)).
    { intros s Hs. rewrite Hp1 in Hs. apply filter_In in Hs. tauto. }
    destruct (IH w1 N1)
      as (w' & new2 & R2 & D2 & Hh2 & Hc2 & Hk2 & [p2 Hp2] & Hdel2 & Hfrom2 & Hnd2).
    exists w', (new1 ++ new2). split; [exact R2|].
    split; [rewrite D2, D1; now rewrite app_assoc|].
    split; [congruence|]. split; [congruence|]. split; [congruence|].
    split; [|split; [|split]].
    + exists (fun x => p1 x && p2 x). rewrite Hp2, Hp1. apply filter_filter.
    + intros s Hs Hn.
      destruct (in_dec NotificationSubscription_eq_dec s (registry w1)) as [Hy|Hy].
      * destruct (Hdel2 s Hy Hn) as (d & Hd & ?). exists d.
        split; [apply in_or_app; now right|auto].
      * destruct (Hdel1 s Hs Hy) as (d & Hd & ?). exists d.
        split; [apply in_or_app; now left|auto].
    + intros d Hd. apply in_app_or in Hd as [Hd|Hd].
      * destruct (Hfrom1 d Hd) as (s & ? & ? & ? & ?). exists hw, s.
        repeat split; auto. now left.
      * destruct (Hfrom2 d Hd) as (hw' & s & ? & ? & ? & ? & ?). exists hw', s.
        repeat split; auto. now right.
    + intros Ne Nh. simpl in Nh. inversion Nh as [|? ? Hnotin Nrest]; subst.
      rewrite map_app. apply NoDup_app.
      * now apply Hnd1.
      * apply Hnd2; [|exact Nrest]. rewrite Hp1. now apply NoDup_keys_filter.
      * intros e He1 He2.
        apply in_map_iff in He1 as (d1 & <- & Hd1).
        apply in_map_iff in He2 as (d2 & E & Hd2).
        destruct (Hfrom1 d1 Hd1) as (s1 & Hs1 & Es1 & Hh1' & _).
        destruct (Hfrom2 d2 Hd2) as (hw' & s2 & Hhw' & Hs2 & Es2 & Hh2' & _).
        rewrite Es1, Es2 in E. cbn in E.
        assert (s2 = s1).
        { apply (endpoints_injective (registry w)); auto. }
        subst s2. rewrite Hh1' in Hh2'. injection Hh2' as Eid.
        apply Hnotin. rewrite Eid. apply in_map_iff. now exists hw'.
Qed.
End Tick.

Section SameMinute.
(** X11.  A tick depends on the instant only through its local minute: on
    the same world two ticks within one minute do the same thing, the code
    keeps no record of the reminders it has sent. *)
Theorem checkAndSendReminders_same_minute (tz : Z) t1 t2 w :
  (t1 + tz) / (1000 * 60) = (t2 + tz) / (1000 * 60) ->
  checkAndSendReminders tz t1 w = checkAndSendReminders tz t2 w.
Proof.
  intros E.
  assert (Ef : formatHHmm tz t1 = formatHHmm tz t2).
  { destruct (hours_minutes_of_minuteOfDay tz t1) as (H1 & M1 & _).
    destruct (hours_minutes_of_minuteOfDay tz t2) as (H2 & M2 & _).
    unfold formatHHmm. rewrite H1, H2, M1, M2. unfold minuteOfDay. now rewrite E. }
  assert (Ed : Day (LocalTime tz t1) = Day (LocalTime tz t2)).
  { unfold Day, LocalTime, msPerDay. cbn [offsetAtUTC offsetAtLocal fixedOffset].
    replace (1000 * 60 * 60 * 24) with ((1000 * 60) * (60 * 24)) by lia.
    rewrite <- (Z.div_div (t1 + tz)), <- (Z.div_div (t2 + tz)) by lia.
    now rewrite E. }
  unfold checkAndSendReminders. cbv zeta.
  rewrite !startOfTomorrow_fixed. unfold startOfToday, startOfDay.
  rewrite !setHours_midnight. unfold localDay.
  now rewrite Ef, Ed.
Qed.
End SameMinute.

Section TickTheorems.
(** X12.  A tick never fails and never changes habits, completions or
    skips; it appends deliveries and it can only remove subscriptions, and a
    subscription is removed only when a notification to it was rejected
    with status 410. *)
Theorem checkAndSendReminders_only_prunes (tz : Z) now w :
  NoDup (map ns_id (registry w)) ->
  exists w' new,
    checkAndSendReminders tz now w = (Return tt, w')
    /\ deliveries w' = deliveries w ++ new
    /\ habits (db w') = habits (db w)
    /\ habitCompletions (db w') = habitCompletions (db w)
    /\ habitSkips (db w') = habitSkips (db w)
    /\ (exists p, registry w' = filter p (registry w))
    /\ (forall s, In s (registry w) -> ~ In s (registry w') ->
          exists d, In d new /\ d_subscription d = pushOf s
                    /\ d_result d = Rejected (Some 410)).
Proof.
  intros N. rewrite checkAndSendReminders_unfold.
  destruct (forOf_reminderBody_footprint (dueHabits tz now w) w N)
    as (w' & new & R & D & Hh & Hc & Hk & Hp & Hdel & _).
  exists w', new. repeat split; auto.
Qed.

(** X13.  With unique endpoints and unique habit ids, one tick sends at
    most one notification to each endpoint. *)
Theorem checkAndSendReminders_at_most_once (tz : Z) now w :
  NoDup (map ns_id (registry w)) ->
  NoDup (map ns_endpoint (registry w)) ->
  NoDup (map h_id (habits (db w))) ->
  exists w' new,
    checkAndSendReminders tz now w = (Return tt, w')
    /\ deliveries w' = deliveries w ++ new
    /\ NoDup (map (fun d => endpoint (d_subscription d)) new).
Proof.
  intros N Ne Nh. rewrite checkAndSendReminders_unfold.
  destruct (forOf_reminderBody_footprint (dueHabits tz now w) w N)
    as (w' & new & R & D & _ & _ & _ & _ & _ & _ & Hnd).
  exists w', new. split; [exact R|]. split; [exact D|].
  apply Hnd; [exact Ne|]. now apply dueHabits_NoDup.
Qed.
End TickTheorems.

(* ------------------------------------------------------------------ *)
(** ** The subscription registry *)

Section Registry.

Lemma find_endpoint_none rows endpoint :
  find (fun s => String.eqb (ns_endpoint s) endpoint) rows = None ->
  existsb (fun s => String.eqb (ns_endpoint s) endpoint) rows = false
  /\ filter (fun s => negb (String.eqb (ns_endpoint s) endpoint)) rows = rows
  /\ ~ In endpoint (map ns_endpoint rows).
Proof.
  intros F. induction rows as [|x rows IH]; simpl in *; [auto|].
  destruct (String.eqb (ns_endpoint x) endpoint) eqn:E; [discriminate|].
  destruct (IH F) as (E1 & E2 & E3). simpl. rewrite E2.
  repeat split; auto. intros [H|H]; [|contradiction].
  apply String.eqb_neq in E. contradiction.
Qed.

Lemma find_endpoint_some rows endpoint s :
  find (fun s => String.eqb (ns_endpoint s) endpoint) rows = Some s ->
  In s rows /\ ns_endpoint s = endpoint
  /\ existsb (fun s => String.eqb (ns_endpoint s) endpoint) rows = true.
Proof.
  intros F. apply find_some in F as [Hin E]. split; [exact Hin|].
  split; [now apply String.eqb_eq|]. apply existsb_exists. now exists s.
Qed.

(** The outcomes of [createOrUpdateSubscription]. *)
Lemma createOrUpdateSubscription_run userId endpoint keys habitId w :
  createOrUpdateSubscription userId endpoint keys habitId w =
  match registeredTo w endpoint with
  | Some s =>
      if String.eqb (ns_userId s) userId
      then
        if Prisma.habitKnown (db w) (orNull habitId)
        then (Return true,
              withRegistry w (updatedRows (registry w) endpoint keys (orNull habitId)))
        else (Throw (PrismaError "P2003"), w)
      else (Throw (Error_ "Endpoint already subscribed by another user"), w)
  | None =>
      if Prisma.habitKnown (db w) (orNull habitId)
      then
        (Return false,
         mkWorld (mkDb (habits (db w)) (habitCompletions (db w)) (habitSkips (db w))
                       (registry w ++ [mkSubscription (Prisma.cuid (cuids (db w))) userId
                                                      (orNull habitId) endpoint keys])
                       (cuids (db w) + 1))
                 (transport w) (deliveries w) (console w))
      else (Throw (PrismaError "P2003"), w)
  end.
Proof.
  unfold createOrUpdateSubscription, registeredTo, registry,
    Prisma.notificationSubscription_findUnique, getDb, ret, bind.
  cbv beta iota.
  destruct (find _ (notificationSubscriptions (db w))) as [s|] eqn:F.
  - destruct (String.eqb (ns_userId s) userId); cbn [negb]; [|reflexivity].
    destruct (find_endpoint_some _ _ _ F) as (_ & _ & Ex).
    unfold Prisma.notificationSubscription_update, getDb, putDb, throw, ret, bind.
    cbv beta iota. rewrite Ex.
    destruct (Prisma.habitKnown (db w) (orNull habitId)); reflexivity.
  - destruct (find_endpoint_none _ _ F) as (Ex & _ & _).
    unfold Prisma.notificationSubscription_create, getDb, putDb, throw, ret, bind.
    cbv beta iota. rewrite Ex.
    destruct (Prisma.habitKnown (db w) (orNull habitId)); reflexivity.
Qed.

Lemma updatedRows_endpoints rows endpoint keys habitId :
  map ns_endpoint (updatedRows rows endpoint keys habitId) = map ns_endpoint rows.
Proof.
  unfold updatedRows. rewrite map_map. apply map_ext.
  intros s. destruct (String.eqb (ns_endpoint s) endpoint); reflexivity.
Qed.

Lemma updatedRows_idempotent rows endpoint keys habitId :
  updatedRows (updatedRows rows endpoint keys habitId) endpoint keys habitId
  = updatedRows rows endpoint keys habitId.
Proof.
  unfold updatedRows. rewrite map_map. apply map_ext.
  intros s. destruct (String.eqb (ns_endpoint s) endpoint) eqn:E; cbn; now rewrite E.
Qed.

Lemma find_updatedRows rows endpoint keys habitId s :
  find (fun s => String.eqb (ns_endpoint s) endpoint) rows = Some s ->
  find (fun s => String.eqb (ns_endpoint s) endpoint)
       (updatedRows rows endpoint keys habitId)
  = Some (mkSubscription (ns_id s) (ns_userId s) habitId (ns_endpoint s) keys).
Proof.
  induction rows as [|x rows IH]; simpl; [discriminate|].
  destruct (String.eqb (ns_endpoint x) endpoint) eqn:E.
  - intros H. injection H as <-. cbn. now rewrite E.
  - intros H. cbn. rewrite E. now apply IH.
Qed.

(** The row a successful subscription leaves for the endpoint. *)
Lemma createOrUpdateSubscription_success userId endpoint keys habitId w r w' :
  createOrUpdateSubscription userId endpoint keys habitId w = (Return r, w') ->
  exists s, registeredTo w' endpoint = Some s
            /\ subscribedRow s userId endpoint keys habitId
            /\ (r = true <-> registeredTo w endpoint <> None)
            /\ (forall s0, registeredTo w endpoint = Some s0 -> ns_id s = ns_id s0).
Proof.
  rewrite createOrUpdateSubscription_run. unfold registeredTo.
  destruct (find _ (registry w)) as [s0|] eqn:F.
  - destruct (String.eqb (ns_userId s0) userId) eqn:E; [|discriminate].
    destruct (Prisma.habitKnown _ _); [|discriminate].
    intros H. injection H as <- <-. apply String.eqb_eq in E.
    destruct (find_endpoint_some _ _ _ F) as (_ & Ee & _).
    eexists. split.
    + unfold withRegistry, registry. cbn. fold (registry w).
      apply find_updatedRows. exact F.
    + unfold subscribedRow. cbn. repeat split; auto; try congruence.
  - destruct (Prisma.habitKnown _ _); [|discriminate].
    intros H. injection H as <- <-.
    eexists. split.
    + unfold registry. cbn. fold (registry w).
      rewrite (find_app_none _ _ _ F). cbn. now rewrite String.eqb_refl.
    + unfold subscribedRow. cbn. repeat split; auto; try congruence; discriminate.
Qed.

Lemma find_updatedRows_other rows endpoint keys habitId e :
  e <> endpoint ->
  find (fun s => String.eqb (ns_endpoint s) e) (updatedRows rows endpoint keys habitId)
  = find (fun s => String.eqb (ns_endpoint s) e) rows.
Proof.
  intros Ne. induction rows as [|x rows IH]; [reflexivity|].
  cbn [updatedRows map find].
  destruct (String.eqb (ns_endpoint x) endpoint) eqn:E.
  - cbn [ns_endpoint]. apply String.eqb_eq in E.
    destruct (String.eqb (ns_endpoint x) e) eqn:E'.
    + apply String.eqb_eq in E'. congruence.
    + exact IH.
  - destruct (String.eqb (ns_endpoint x) e); [reflexivity|exact IH].
Qed.

Lemma find_app_last {A} (f : A -> bool) l x :
  f x = false -> find f (l ++ [x]) = find f l.
Proof.
  intros E. induction l as [|y l IH]; simpl; [now rewrite E|].
  destruct (f y); [reflexivity|exact IH].
Qed.

(** X14.  Lookup after subscribe.  When [createOrUpdateSubscription]
    succeeds, the endpoint is registered to the caller with the given keys
    and habit (the row keeps its id on an update), [isUpdate] tells whether
    the endpoint was registered before, and the registration of every other
    endpoint is what it was. *)
Theorem createOrUpdateSubscription_registers userId endpoint keys habitId w r w' :
  createOrUpdateSubscription userId endpoint keys habitId w = (Return r, w') ->
  (exists s, registeredTo w' endpoint = Some s
             /\ subscribedRow s userId endpoint keys habitId
             /\ (forall s0, registeredTo w endpoint = Some s0 -> ns_id s = ns_id s0))
  /\ (r = true <-> registeredTo w endpoint <> None)
  /\ (forall e, e <> endpoint -> registeredTo w' e = registeredTo w e).
Proof.
  intros H.
  destruct (createOrUpdateSubscription_success _ _ _ _ _ _ _ H)
    as (s & F & Row & Hr & Hid).
  split; [now exists s|]. split; [exact Hr|].
  intros e Ne. rewrite createOrUpdateSubscription_run in H. unfold registeredTo in *.
  destruct (find (fun s => String.eqb (ns_endpoint s) endpoint) (registry w))
    as [s0|] eqn:F0.
  - destruct (String.eqb (ns_userId s0) userId); [|discriminate].
    destruct (Prisma.habitKnown _ _); [|discriminate].
    injection H as _ <-. unfold withRegistry, registry, Prisma.setSubscriptions.
    cbn [db notificationSubscriptions]. now apply find_updatedRows_other.
  - destruct (Prisma.habitKnown _ _); [|discriminate].
    injection H as _ <-. unfold registry. cbn [db notificationSubscriptions].
    apply find_app_last. cbn [ns_endpoint]. apply String.eqb_neq. congruence.
Qed.

(** X15.  Subscribing again with the same data, after a subscription that
    succeeded, is an update that changes nothing. *)
Theorem createOrUpdateSubscription_idempotent userId endpoint keys habitId w r w1 :
  createOrUpdateSubscription userId endpoint keys habitId w = (Return r, w1) ->
  createOrUpdateSubscription userId endpoint keys habitId w1 = (Return true, w1).
Proof.
  intros H.
  destruct (createOrUpdateSubscription_success _ _ _ _ _ _ _ H)
    as (s & F & (Eu & Ee & Ek & Eh) & _).
  rewrite createOrUpdateSubscription_run, F, Eu, String.eqb_refl.
  rewrite createOrUpdateSubscription_run in H. unfold registeredTo in *.
  destruct (find _ (registry w)) as [s0|] eqn:F0.
  - destruct (String.eqb (ns_userId s0) userId); [|discriminate].
    destruct (Prisma.habitKnown (db w) (orNull habitId)) eqn:K; [|discriminate].
    injection H as _ <-.
    change (Prisma.habitKnown (db (withRegistry w _)) (orNull habitId))
      with (Prisma.habitKnown (db w) (orNull habitId)).
    rewrite K. f_equal.
    unfold withRegistry, registry, Prisma.setSubscriptions.
    cbn. fold (registry w).
    change (map _ (updatedRows (registry w) endpoint keys (orNull habitId)))
      with (updatedRows (updatedRows (registry w) endpoint keys (orNull habitId))
                        endpoint keys (orNull habitId)).
    now rewrite updatedRows_idempotent.
  - destruct (Prisma.habitKnown (db w) (orNull habitId)) eqn:K; [|discriminate].
    injection H as _ <-.
    match goal with
    | |- (if ?k then _ else _) = _ =>
        change k with (Prisma.habitKnown (db w) (orNull habitId))
    end.
    rewrite K. f_equal.
    unfold withRegistry, registry, Prisma.setSubscriptions.
    cbn. fold (registry w). f_equal. f_equal.
    destruct (find_endpoint_none _ _ F0) as (_ & _ & Hn).
    rewrite map_app. cbn. rewrite String.eqb_refl. f_equal.
    rewrite <- (map_id (registry w)) at 2. apply map_ext_in.
    intros x Hx. destruct (String.eqb (ns_endpoint x) endpoint) eqn:E; [|reflexivity].
    exfalso. apply Hn. apply String.eqb_eq in E. rewrite <- E. now apply in_map.
Qed.

(** The outcomes of [deleteSubscription]. *)
Lemma deleteSubscription_run userId endpoint w :
  deleteSubscription userId endpoint w =
  match registeredTo w endpoint with
  | None => (Return false, w)
  | Some s =>
      if String.eqb (ns_userId s) userId
      then (Return true,
            withRegistry w (filter (fun s => negb (String.eqb (ns_endpoint s) endpoint))
                                   (registry w)))
      else (Throw (Error_ "Subscription does not belong to user"), w)
  end.
Proof.
  unfold deleteSubscription, registeredTo, registry,
    Prisma.notificationSubscription_findUnique, getDb, ret, bind.
  cbv beta iota.
  destruct (find _ (notificationSubscriptions (db w))) as [s|] eqn:F; [|reflexivity].
  destruct (String.eqb (ns_userId s) userId); cbn [negb]; [|reflexivity].
  destruct (find_endpoint_some _ _ _ F) as (_ & _ & Ex).
  unfold Prisma.notificationSubscription_delete, getDb, putDb, ret, bind.
  cbv beta iota. rewrite Ex. reflexivity.
Qed.

(** X16.  Subscribing a new endpoint and then unsubscribing it succeeds
    twice and restores the registry. *)
Theorem subscribe_unsubscribe_roundtrip userId endpoint keys habitId w :
  registeredTo w endpoint = None ->
  Prisma.habitKnown (db w) (orNull habitId) = true ->
  exists w1 w2,
    createOrUpdateSubscription userId endpoint keys habitId w = (Return false, w1)
    /\ deleteSubscription userId endpoint w1 = (Return true, w2)
    /\ registry w2 = registry w
    /\ registeredTo w2 endpoint = None.
Proof.
  intros F K. rewrite createOrUpdateSubscription_run, F, K.
  eexists. eexists. split; [reflexivity|].
  destruct (find_endpoint_none _ _ F) as (Ex & Ef & _).
  rewrite deleteSubscription_run. unfold registeredTo in *.
  unfold registry at 1. cbn [db notificationSubscriptions].
  rewrite (find_app_none _ _ _ F). cbn [find ns_endpoint].
  rewrite String.eqb_refl. cbn [ns_userId]. rewrite String.eqb_refl.
  split; [reflexivity|].
  unfold withRegistry, registry, Prisma.setSubscriptions.
  cbn [db notificationSubscriptions]. fold (registry w).
  rewrite filter_app. cbn [filter ns_endpoint]. rewrite String.eqb_refl.
  cbn [negb]. rewrite app_nil_r, Ef. auto.
Qed.

(** X18.  [deleteSubscription] returns [true] exactly when the endpoint is
    registered to the caller; then the endpoint is no longer registered;
    the subscriptions of the other endpoints, and the other tables, are
    never touched. *)
Theorem deleteSubscription_footprint userId endpoint w r w' :
  deleteSubscription userId endpoint w = (r, w') ->
  (r = Return true <->
   exists s, registeredTo w endpoint = Some s /\ ns_userId s = userId)
  /\ (r = Return true -> registeredTo w' endpoint = None)
  /\ (forall s, In s (registry w') <->
                In s (registry w) /\ (r = Return true -> ns_endpoint s <> endpoint))
  /\ habits (db w') = habits (db w)
  /\ habitCompletions (db w') = habitCompletions (db w)
  /\ habitSkips (db w') = habitSkips (db w).
Proof.
  rewrite deleteSubscription_run.
  destruct (registeredTo w endpoint) as [s0|] eqn:F.
  - destruct (String.eqb (ns_userId s0) userId) eqn:E.
    + intros H. injection H as <- <-. apply String.eqb_eq in E.
      split; [split; [intros _; now exists s0|reflexivity]|].
      split; [|split; [|auto]].
      * intros _. unfold registeredTo, withRegistry, registry, Prisma.setSubscriptions.
        cbn [db notificationSubscriptions].
        destruct (find _ (filter _ _)) as [x|] eqn:Fx; [|reflexivity].
        apply find_some in Fx as [Hin Ex]. apply filter_In in Hin as [_ Hn].
        rewrite Ex in Hn. discriminate.
      * intros s. unfold withRegistry, registry, Prisma.setSubscriptions.
        cbn [db notificationSubscriptions]. rewrite filter_In.
        rewrite negb_true_iff, String.eqb_neq. tauto.
    + intros H. injection H as <- <-.
      split; [split; [discriminate|]|].
      * intros (s & Hs & Hu). injection Hs as <-. apply String.eqb_neq in E.
        contradiction.
      * split; [discriminate|]. split; [|auto]. intros s. split; [|tauto].
        intros H. split; [exact H|discriminate].
  - intros H. injection H as <- <-.
    split; [split; [discriminate|intros (s & Hs & _); discriminate]|].
    split; [discriminate|]. split; [|auto]. intros s. split; [|tauto].
    intros H. split; [exact H|discriminate].
Qed.

(** X17.  Whatever its outcome, [createOrUpdateSubscription] keeps the
    endpoints of the registry unique, leaves the subscriptions of the other
    users as they are, and touches no other table. *)
Theorem createOrUpdateSubscription_isolation userId endpoint keys habitId w r w' :
  NoDup (map ns_endpoint (registry w)) ->
  createOrUpdateSubscription userId endpoint keys habitId w = (r, w') ->
  NoDup (map ns_endpoint (registry w'))
  /\ (forall s, ns_userId s <> userId -> (In s (registry w') <-> In s (registry w)))
  /\ habits (db w') = habits (db w)
  /\ habitCompletions (db w') = habitCompletions (db w)
  /\ habitSkips (db w') = habitSkips (db w).
Proof.
  intros N. rewrite createOrUpdateSubscription_run. unfold registeredTo.
  destruct (find _ (registry w)) as [s0|] eqn:F.
  - destruct (String.eqb (ns_userId s0) userId) eqn:E.
    + destruct (Prisma.habitKnown _ _).
      2:{ intros H. injection H as _ <-. repeat split; auto; tauto. }
      intros H. injection H as _ <-. apply String.eqb_eq in E.
      destruct (find_endpoint_some _ _ _ F) as (Hin0 & Ee & _).
      unfold withRegistry, registry, Prisma.setSubscriptions. cbn. fold (registry w).
      split.
      { now rewrite updatedRows_endpoints. }
      split; [|auto].
      intros s Hs. unfold updatedRows. rewrite in_map_iff. split.
      * intros (x & Ex & Hx).
        destruct (String.eqb (ns_endpoint x) endpoint) eqn:Ep; [|now subst].
        exfalso. apply String.eqb_eq in Ep.
        assert (x = s0) by (apply (endpoints_injective (registry w)); auto; congruence).
        subst x. apply Hs. rewrite <- Ex. cbn. exact E.
      * intros Hin. exists s. split; [|exact Hin].
        destruct (String.eqb (ns_endpoint s) endpoint) eqn:Ep; [|reflexivity].
        exfalso. apply String.eqb_eq in Ep.
        assert (s = s0) by (apply (endpoints_injective (registry w)); auto; congruence).
        subst s. contradiction.
    + intros H. injection H as _ <-. repeat split; auto; tauto.
  - destruct (Prisma.habitKnown _ _).
    2:{ intros H. injection H as _ <-. repeat split; auto; tauto. }
    intros H. injection H as _ <-.
    destruct (find_endpoint_none _ _ F) as (_ & _ & Hn).
    unfold registry. cbn. fold (registry w). split; [|split; [|auto]].
    + rewrite map_app. cbn. apply NoDup_app; [exact N|repeat constructor; tauto|].
      intros e He [<-|[]]. contradiction.
    + intros s Hs. rewrite in_app_iff. cbn. split; [|tauto].
      intros [H|[<-|[]]]; [exact H|]. cbn in Hs. congruence.
Qed.
End Registry.

(* ------------------------------------------------------------------ *)
(** ** The subscribe handler *)

Section Subscribe.

Lemma truthy_false_orNull h : truthy h = false -> orNull h = None.
Proof. unfold orNull. now intros ->. Qed.

Lemma truthy_Some_inv s : truthy (Some s) = true -> s <> ""%string.
Proof.
  unfold truthy. intros H E. subst s. discriminate.
Qed.

Lemma habitKnown_of_find w userId h x :
  find (fun y => String.eqb (h_id y) h && String.eqb (h_userId y) userId)
       (habits (db w)) = Some x ->
  Prisma.habitKnown (db w) (orNull (Some h)) = true.
Proof.
  intros F. apply find_some in F as [Hin E].
  apply andb_true_iff in E as [E _].
  unfold orNull. destruct (truthy (Some h)); [|reflexivity].
  cbn. apply existsb_exists. now exists x.
Qed.

(** What the handler does with a request that passes its field checks. *)
Lemma subscribe_wellFormed req userId endpoint keys w :
  wellFormed req userId endpoint keys ->
  subscribe req w =
  if truthy (sr_habitId req)
     && match find (fun y => String.eqb (h_id y)
                               (match sr_habitId req with
                                | Some h => h | None => ""%string end)
                             && String.eqb (h_userId y) userId)
                   (habits (db w)) with
        | Some _ => false
        | None => true
        end
  then (Return (mkResponse 404 (Some "Not Found"%string)
                  (Some "Habit not found or does not belong to user"%string)), w)
  else
    match createOrUpdateSubscription userId endpoint keys (sr_habitId req) w with
    | (Return true, w') =>
        (Return (mkResponse 200 None (Some "Subscription updated successfully"%string)), w')
    | (Return false, w') =>
        (Return (mkResponse 201 None (Some "Subscription created successfully"%string)), w')
    | (Throw (Error_ m), w') =>
        if String.eqb m "Endpoint already subscribed by another user"
        then (Return (mkResponse 409 (Some "Conflict"%string) (Some m)), w')
        else (Throw (Error_ m), w')
    | (Throw e, w') => (Throw e, w')
    end.
Proof.
  intros (Eu & Ee & Ek & Hu & He & Hp & Ha).
  destruct keys as [p a]. cbn [p256dh auth] in *.
  unfold subscribe, tryCatch. rewrite Eu, Ee, Ek.
  rewrite (truthy_Some _ Hu), (truthy_Some _ He), (truthy_Some _ Hp),
    (truthy_Some _ Ha). cbn [negb orb].
  destruct (truthy (sr_habitId req)) eqn:Th; cbn [andb].
  - unfold bind at 1. unfold bind at 1.
    unfold HabitService.getHabitById, Prisma.habit_findFirst, getDb, ret, bind.
    cbv beta iota.
    destruct (find _ (habits (db w))); cbn [negb]; [|reflexivity].
    destruct (createOrUpdateSubscription _ _ _ _ w) as [[[|]|[m| |]] w']; try reflexivity.
    unfold ret, throw. destruct (String.eqb m _); reflexivity.
  - unfold bind at 1. unfold ret at 1. cbv beta iota. cbn [negb].
    unfold bind at 1.
    destruct (createOrUpdateSubscription _ _ _ _ w) as [[[|]|[m| |]] w']; try reflexivity.
    unfold ret, throw. destruct (String.eqb m _); reflexivity.
Qed.

(** With a known habit the service fails in one way only. *)
Lemma createOrUpdateSubscription_outcomes userId endpoint keys habitId w :
  Prisma.habitKnown (db w) (orNull habitId) = true ->
  match createOrUpdateSubscription userId endpoint keys habitId w with
  | (Return r, w') =>
      exists s, registeredTo w' endpoint = Some s
                /\ subscribedRow s userId endpoint keys habitId
                /\ (r = true <-> registeredTo w endpoint <> None)
  | (Throw e, w') =>
      e = Error_ "Endpoint already subscribed by another user" /\ w' = w
  end.
Proof.
  intros K.
  destruct (createOrUpdateSubscription userId endpoint keys habitId w)
    as [[r|e] w'] eqn:C.
  - destruct (createOrUpdateSubscription_success _ _ _ _ _ _ _ C)
      as (s & F & Row & Hr & _). now exists s.
  - rewrite createOrUpdateSubscription_run, K in C.
    destruct (registeredTo w endpoint) as [s0|]; [|discriminate].
    destruct (String.eqb (ns_userId s0) userId); [discriminate|].
    injection C as <- <-. auto.
Qed.

(** X19.  For a request whose [endpoint], [p256dh], [auth] and [habitId]
    are strings where they are present, the [subscribe] handler always
    answers, with one of the statuses 200, 201, 400, 401, 404 and 409, and
    no database error reaches the error middleware (the ownership check
    protects the foreign key); the world changes only with 200 and 201, and then
    the request had a user, an endpoint and both keys, a habit it names
    belongs to the user, and the endpoint is registered as requested, with
    200 exactly when it was registered before. *)
Theorem subscribe_answers req w :
  exists resp w',
    subscribe req w = (Return resp, w')
    /\ In (status resp) [200; 201; 400; 401; 404; 409]
    /\ (status resp <> 200 -> status resp <> 201 -> w' = w)
    /\ (status resp = 200 \/ status resp = 201 ->
        exists userId endpoint keys s,
          wellFormed req userId endpoint keys
          /\ namesOwnHabit w userId (sr_habitId req)
          /\ registeredTo w' endpoint = Some s
          /\ subscribedRow s userId endpoint keys (sr_habitId req)
          /\ (status resp = 200 <-> registeredTo w endpoint <> None)).
Proof.
  assert (Bad : forall (c : Z) e m, In c [400; 401; 404; 409] ->
            exists resp w',
              (Return (mkResponse c e m), w) = (Return resp, w')
              /\ In (status resp) [200; 201; 400; 401; 404; 409]
              /\ (status resp <> 200 -> status resp <> 201 -> w' = w)
              /\ (status resp = 200 \/ status resp = 201 ->
                  exists userId endpoint keys s,
                    wellFormed req userId endpoint keys
                    /\ namesOwnHabit w userId (sr_habitId req)
                    /\ registeredTo w' endpoint = Some s
                    /\ subscribedRow s userId endpoint keys (sr_habitId req)
                    /\ (status resp = 200 <-> registeredTo w endpoint <> None))).
  { intros c e m Hc. exists (mkResponse c e m), w. split; [reflexivity|].
    cbn [status]. split; [simpl in *; intuition|]. split; [reflexivity|].
    intros [->| ->]; simpl in Hc; exfalso; intuition discriminate. }
  destruct req as [ou oe ok oh].
  destruct ou as [userId|];
    [|unfold subscribe, tryCatch; cbn; apply Bad; simpl; auto].
  destruct (String.eqb userId "") eqn:Xu.
  { unfold subscribe, tryCatch. cbn. rewrite Xu. cbn. apply Bad; simpl; auto. }
  destruct oe as [endpoint|];
    [|unfold subscribe, tryCatch; cbn; rewrite Xu; cbn; apply Bad; simpl; auto].
  destruct ok as [[op oa]|];
    [|unfold subscribe, tryCatch; cbn; rewrite Xu; cbn; apply Bad; simpl; auto].
  destruct (String.eqb endpoint "") eqn:Xe.
  { unfold subscribe, tryCatch. cbn. rewrite Xu, Xe. cbn. apply Bad; simpl; auto. }
  destruct op as [p|];
    [|unfold subscribe, tryCatch; cbn; rewrite Xu, Xe; cbn;
      destruct oa; apply Bad; simpl; auto].
  destruct oa as [a|];
    [|unfold subscribe, tryCatch; cbn; rewrite Xu, Xe; cbn; apply Bad; simpl; auto].
  destruct (String.eqb p "") eqn:Xp.
  { unfold subscribe, tryCatch. cbn. rewrite Xu, Xe, Xp. cbn. apply Bad; simpl; auto. }
  destruct (String.eqb a "") eqn:Xa.
  { unfold subscribe, tryCatch. cbn. rewrite Xu, Xe, Xp, Xa. cbn.
    apply Bad; simpl; auto. }
  apply String.eqb_neq in Xu, Xe, Xp, Xa.
  assert (WF : wellFormed (mkSubscribeRequest (Some userId) (Some endpoint)
                             (Some (Some p, Some a)) oh) userId endpoint (mkKeys p a)).
  { unfold wellFormed. cbn. repeat split; auto. }
  rewrite (subscribe_wellFormed _ _ _ _ w WF). cbn [sr_habitId].
  assert (Tail : Prisma.habitKnown (db w) (orNull oh) = true ->
                 namesOwnHabit w userId oh ->
    exists resp w',
      match createOrUpdateSubscription userId endpoint (mkKeys p a) oh w with
      | (Return true, w') =>
          (Return (mkResponse 200 None
                     (Some "Subscription updated successfully"%string)), w')
      | (Return false, w') =>
          (Return (mkResponse 201 None
                     (Some "Subscription created successfully"%string)), w')
      | (Throw (Error_ m), w') =>
          if String.eqb m "Endpoint already subscribed by another user"
          then (Return (mkResponse 409 (Some "Conflict"%string) (Some m)), w')
          else (Throw (Error_ m), w')
      | (Throw e, w') => (Throw e, w')
      end = (Return resp, w')
      /\ In (status resp) [200; 201; 400; 401; 404; 409]
      /\ (status resp <> 200 -> status resp <> 201 -> w' = w)
      /\ (status resp = 200 \/ status resp = 201 ->
          exists userId0 endpoint0 keys s,
            wellFormed (mkSubscribeRequest (Some userId) (Some endpoint)
                          (Some (Some p, Some a)) oh) userId0 endpoint0 keys
            /\ namesOwnHabit w userId0 oh
            /\ registeredTo w' endpoint0 = Some s
            /\ subscribedRow s userId0 endpoint0 keys oh
            /\ (status resp = 200 <-> registeredTo w endpoint0 <> None))).
  { intros K Own.
    pose proof (createOrUpdateSubscription_outcomes userId endpoint (mkKeys p a) oh w K)
      as O.
    destruct (createOrUpdateSubscription userId endpoint (mkKeys p a) oh w)
      as [[r|e] w'].
    - destruct O as (s & Fs & Row & Hr).
      destruct r.
      + eexists. exists w'. split; [reflexivity|]. cbn [status].
        split; [simpl; auto|]. split; [congruence|].
        intros _. exists userId, endpoint, (mkKeys p a), s.
        split; [exact WF|]. split; [exact Own|]. split; [exact Fs|].
        split; [exact Row|]. split; [intros _; now apply Hr|reflexivity].
      + eexists. exists w'. split; [reflexivity|]. cbn [status].
        split; [simpl; auto|]. split; [congruence|].
        intros _. exists userId, endpoint, (mkKeys p a), s.
        split; [exact WF|]. split; [exact Own|]. split; [exact Fs|].
        split; [exact Row|]. split; [discriminate|].
        intros H. apply Hr in H. discriminate.
    - destruct O as [-> ->]. cbn. apply Bad; simpl; auto 10. }
  destruct (truthy oh) eqn:Th; cbn [andb].
  - destruct oh as [h|]; [|discriminate].
    destruct (find _ (habits (db w))) as [x|] eqn:F; [|apply Bad; simpl; auto].
    apply Tail; [exact (habitKnown_of_find _ _ _ _ F)|].
    intros _. apply find_some in F as [Hin E].
    apply andb_true_iff in E as [E1 E2].
    apply String.eqb_eq in E1, E2. exists x. repeat split; auto. congruence.
  - apply Tail; [now rewrite (truthy_false_orNull _ Th)|].
    intros H. congruence.
Qed.

(** X20.  A complete request for an endpoint that another user has
    registered is answered with 409 Conflict, and nothing changes. *)
Theorem subscribe_conflict_is_409 req userId endpoint keys w s :
  wellFormed req userId endpoint keys ->
  namesOwnHabit w userId (sr_habitId req) ->
  registeredTo w endpoint = Some s -> ns_userId s <> userId ->
  subscribe req w
  = (Return (mkResponse 409 (Some "Conflict"%string)
               (Some "Endpoint already subscribed by another user"%string)), w).
Proof.
  intros WF Own R Hs. rewrite (subscribe_wellFormed _ _ _ _ w WF).
  assert (C : createOrUpdateSubscription userId endpoint keys (sr_habitId req) w
              = (Throw (Error_ "Endpoint already subscribed by another user"), w)).
  { rewrite createOrUpdateSubscription_run, R.
    destruct (String.eqb (ns_userId s) userId) eqn:E; [|reflexivity].
    apply String.eqb_eq in E. contradiction. }
  rewrite C.
  destruct (truthy (sr_habitId req)) eqn:Th; cbn [andb]; [|reflexivity].
  destruct (Own Th) as (h & Hin & Eh & Eo).
  rewrite <- Eh.
  destruct (find_owned_habit (habits (db w)) (h_id h) userId) as (x & ->);
    [now exists h|]. reflexivity.
Qed.

(** X21.  A complete request that names a habit the user does not own is
    answered with 404 Not Found before the registry is read, and nothing
    changes. *)
Theorem subscribe_foreign_habit req userId endpoint keys habitId w :
  wellFormed req userId endpoint keys ->
  sr_habitId req = Some habitId -> habitId <> ""%string ->
  (forall h, In h (habits (db w)) -> h_id h = habitId -> h_userId h <> userId) ->
  subscribe req w
  = (Return (mkResponse 404 (Some "Not Found"%string)
               (Some "Habit not found or does not belong to user"%string)), w).
Proof.
  intros WF Eh Hn Hf. rewrite (subscribe_wellFormed _ _ _ _ w WF), Eh.
  rewrite (truthy_Some _ Hn). cbn [andb].
  destruct (find _ (habits (db w))) as [x|] eqn:F; [|reflexivity].
  exfalso. apply find_some in F as [Hin E].
  apply andb_true_iff in E as [E1 E2]. apply String.eqb_eq in E1, E2.
  exact (Hf x Hin E1 E2).
Qed.
End Subscribe.

(* ------------------------------------------------------------------ *)
(** ** The ledger: creating and listing *)

Section LedgerFacts.

Lemma find_none_existsb {A} (f : A -> bool) l : find f l = None -> existsb f l = false.
Proof.
  induction l as [|x l IH]; simpl; [reflexivity|].
  destruct (f x); [discriminate|exact IH].
Qed.

Lemma find_some_existsb {A} (f : A -> bool) l x : find f l = Some x -> existsb f l = true.
Proof.
  intros F. apply find_some in F as [Hin E]. apply existsb_exists. now exists x.
Qed.

Lemma find_owned_iff w userId habitId :
  owns w userId habitId <->
  exists h, find (fun h => String.eqb (h_id h) habitId && String.eqb (h_userId h) userId)
                 (habits (db w)) = Some h.
Proof.
  split; [apply find_owned_habit|].
  intros (h & F). apply find_some in F as [Hin E].
  apply andb_true_iff in E as [E1 E2]. apply String.eqb_eq in E1, E2.
  now exists h.
Qed.

(** The outcomes of [createCompletion]. *)
Lemma createCompletion_run userId habitId data w :
  createCompletion userId habitId data w =
  match find (fun h => String.eqb (h_id h) habitId && String.eqb (h_userId h) userId)
             (habits (db w)) with
  | None => (Throw (Error_ "Habit not found or does not belong to user"), w)
  | Some _ =>
      match find (fun c => String.eqb (hc_habitId c) habitId
                           && (hc_date c =? ci_date data)) (ledger w) with
      | Some _ => (Throw (Error_ "Completion already exists for this date"), w)
      | None =>
          let c := mkCompletion (Prisma.cuid (cuids (db w))) habitId (ci_date data)
                                (ci_duration data) (ci_notes data) in
          (Return c,
           mkWorld (mkDb (habits (db w)) (ledger w ++ [c]) (habitSkips (db w))
                         (notificationSubscriptions (db w)) (cuids (db w) + 1))
                   (transport w) (deliveries w) (console w))
      end
  end.
Proof.
  unfold createCompletion, Prisma.habit_findFirst, Prisma.habitCompletion_findUnique,
    ledger, getDb, ret, throw, bind.
  cbv beta iota.
  destruct (find _ (habits (db w))) as [h|] eqn:Fh; [|reflexivity].
  destruct (find _ (habitCompletions (db w))) as [c|] eqn:Fc; [reflexivity|].
  unfold Prisma.habitCompletion_create, getDb, putDb, ret, throw, bind.
  cbv beta iota zeta.
  rewrite (find_none_existsb _ _ Fc).
  assert (K : existsb (fun h => String.eqb (h_id h) habitId) (habits (db w)) = true).
  { apply find_some in Fh as [Hin E]. apply andb_true_iff in E as [E _].
    apply existsb_exists. now exists h. }
  rewrite K. reflexivity.
Qed.

(** X22.  For input whose date is a real calendar date, [createCompletion]
    has three outcomes.  For a habit the caller
    does not own it throws 'Habit not found or does not belong to user'; for
    an owned habit with a completion on the date it throws 'Completion
    already exists for this date'; in both cases nothing changes.
    Otherwise it appends one completion with the given data, touches no
    other table, and keeps the [(habitId, date)] pairs unique and every
    completion attached to a habit.  The database errors P2002 and P2003 are
    never raised. *)
Theorem createCompletion_outcomes userId habitId data w r w' :
  TimeWithinDay (ci_date data) = 0 ->
  createCompletion userId habitId data w = (r, w') ->
  (~ owns w userId habitId
   /\ r = Throw (Error_ "Habit not found or does not belong to user") /\ w' = w)
  \/ (owns w userId habitId
      /\ (exists c, In c (ledger w) /\ hc_habitId c = habitId
                    /\ hc_date c = ci_date data)
      /\ r = Throw (Error_ "Completion already exists for this date") /\ w' = w)
  \/ (owns w userId habitId
      /\ (forall c, In c (ledger w) -> hc_habitId c = habitId ->
                    hc_date c <> ci_date data)
      /\ (exists c, r = Return c /\ ledger w' = ledger w ++ [c]
                    /\ hc_habitId c = habitId /\ hc_date c = ci_date data
                    /\ hc_duration c = ci_duration data /\ hc_notes c = ci_notes data)
      /\ sameButLedger w w'
      /\ (uniqueDates (ledger w) -> uniqueDates (ledger w'))
      /\ (completionsReferToHabits w -> completionsReferToHabits w')).
Proof.
  intros _. rewrite createCompletion_run.
  destruct (find _ (habits (db w))) as [h|] eqn:Fh.
  - assert (Own : owns w userId habitId) by (apply find_owned_iff; now exists h).
    destruct (find _ (ledger w)) as [c0|] eqn:Fc.
    + intros H. injection H as <- <-. right. left.
      apply find_some in Fc as [Hin E]. apply andb_true_iff in E as [E1 E2].
      apply String.eqb_eq in E1. apply Z.eqb_eq in E2.
      split; [exact Own|]. split; [now exists c0|]. auto.
    + cbv zeta. intros H. injection H as <- <-. right. right.
      assert (Free : forall c, In c (ledger w) -> hc_habitId c = habitId ->
                               hc_date c <> ci_date data).
      { intros c Hin E1 E2. apply (find_none _ _ Fc) in Hin.
        rewrite E1, E2, String.eqb_refl, Z.eqb_refl in Hin. discriminate. }
      split; [exact Own|]. split; [exact Free|].
      split; [eexists; split; [reflexivity|]; cbn; auto 10|].
      split; [unfold sameButLedger; cbn; auto|].
      split.
      * unfold uniqueDates, ledger. cbn [db habitCompletions]. intros U.
        rewrite map_app. cbn [map hc_habitId hc_date].
        apply NoDup_app; [exact U|repeat constructor; intros []|].
        intros k Hk [<-|[]]. apply in_map_iff in Hk as (c & Ek & Hin).
        injection Ek as E1 E2. exact (Free c Hin E1 E2).
      * unfold completionsReferToHabits, ledger. cbn [db habitCompletions habits].
        intros FK c Hin. apply in_app_iff in Hin as [Hin|[<-|[]]]; [now apply FK|].
        destruct Own as (h0 & Hh & E & _). exists h0. cbn. auto.
  - intros H. injection H as <- <-. left. split; [|auto].
    intros Own. apply find_owned_iff in Own as (h & F). congruence.
Qed.

Lemma orderByDateDesc_In l c : In c (Prisma.orderByDateDesc l) <-> In c l.
Proof.
  rewrite (count_occ_In HabitCompletion_eq_dec), (count_occ_In HabitCompletion_eq_dec).
  now rewrite orderByDateDesc_count.
Qed.

Lemma insertByDateDesc_In x l c :
  In c (Prisma.insertByDateDesc x l) <-> c = x \/ In c l.
Proof.
  rewrite (count_occ_In HabitCompletion_eq_dec), insertByDateDesc_count.
  rewrite <- (count_occ_In HabitCompletion_eq_dec). simpl. intuition.
Qed.

Lemma insertByDateDesc_sorted x l :
  StronglySorted (fun a b => hc_date b <= hc_date a) l ->
  StronglySorted (fun a b => hc_date b <= hc_date a) (Prisma.insertByDateDesc x l).
Proof.
  induction 1 as [|y l S IH F]; cbn [Prisma.insertByDateDesc].
  - repeat constructor.
  - destruct (hc_date y <? hc_date x) eqn:E.
    + apply Z.ltb_lt in E. constructor; [now constructor|].
      constructor; [lia|]. rewrite Forall_forall in *. intros z Hz.
      specialize (F z Hz). lia.
    + apply Z.ltb_ge in E. constructor; [exact IH|].
      rewrite Forall_forall in *. intros z Hz.
      apply insertByDateDesc_In in Hz as [->|Hz]; [exact E|now apply F].
Qed.

Lemma orderByDateDesc_sorted l :
  StronglySorted (fun a b => hc_date b <= hc_date a) (Prisma.orderByDateDesc l).
Proof.
  induction l as [|x l IH]; [constructor|].
  cbn [Prisma.orderByDateDesc fold_right]. now apply insertByDateDesc_sorted.
Qed.

(** The end of the local day of a UTC midnight lies in the same UTC day. *)
Lemma endOfDay_of_dateOnly (tz : Z) e :
  - msPerDay < tz < msPerDay -> TimeWithinDay e = 0 ->
  e <= setHours tz e 23 59 59 999 < e + msPerDay.
Proof.
  unfold TimeWithinDay, setHours, UTC, MakeDate, MakeTime, LocalTime, Day, msPerDay.
  cbn [offsetAtUTC offsetAtLocal fixedOffset].
  intros Htz He.
  assert (E : e = 86400000 * (e / 86400000)).
  { pose proof (Z.div_mod e 86400000 ltac:(lia)). 
    change (1000 * 60 * 60 * 24) with 86400000 in He. lia. }
  change (1000 * 60 * 60 * 24) with 86400000 in *.
  set (q := e / 86400000) in *.
  assert (D : (e + tz) / 86400000 = q \/ (e + tz) / 86400000 = q - 1).
  { destruct (Z_lt_le_dec tz 0).
    - right. symmetry. apply Z.div_unique with (r := tz + 86400000); lia.
    - left. symmetry. apply Z.div_unique with (r := tz); lia. }
  destruct D as [D|D]; rewrite D.
  - assert (0 <= tz).
    { destruct (Z_lt_le_dec tz 0); [|assumption].
      assert ((e + tz) / 86400000 = q - 1)
        by (symmetry; apply Z.div_unique with (r := tz + 86400000); lia). lia. }
    lia.
  - assert (tz < 0).
    { destruct (Z_lt_le_dec tz 0); [assumption|].
      assert ((e + tz) / 86400000 = q)
        by (symmetry; apply Z.div_unique with (r := tz); lia). lia. }
    lia.
Qed.

Lemma dateOnly_le a b :
  TimeWithinDay a = 0 -> TimeWithinDay b = 0 -> a < b + msPerDay -> a <= b.
Proof.
  unfold TimeWithinDay, msPerDay. change (1000 * 60 * 60 * 24) with 86400000.
  intros Ha Hb H.
  pose proof (Z.div_mod a 86400000 ltac:(lia)).
  pose proof (Z.div_mod b 86400000 ltac:(lia)). lia.
Qed.

(** X23.  With date-only bounds and a ledger of dates, in every zone less
    than a day from UTC: [getCompletions] throws for a habit the caller does
    not own; otherwise it reads without writing and returns, latest first,
    exactly the completions of the habit between the bounds that are given,
    both inclusive. *)
Theorem getCompletions_range (tz : Z) userId habitId startDate endDate w :
  - msPerDay < tz < msPerDay ->
  dateOnly startDate -> dateOnly endDate ->
  (forall c, In c (ledger w) -> TimeWithinDay (hc_date c) = 0) ->
  (~ owns w userId habitId
   /\ getCompletions tz userId habitId startDate endDate w
      = (Throw (Error_ "Habit not found or does not belong to user"), w))
  \/ (owns w userId habitId
      /\ exists l,
           getCompletions tz userId habitId startDate endDate w = (Return l, w)
           /\ (forall c, In c l <->
                         In c (ledger w) /\ hc_habitId c = habitId
                         /\ within startDate endDate (hc_date c))
           /\ StronglySorted (fun a b => hc_date b <= hc_date a) l).
Proof.
  intros Htz Ds De Dl.
  unfold getCompletions, Prisma.habit_findFirst, Prisma.habitCompletion_findMany,
    getDb, ret, throw, bind.
  cbv beta iota zeta.
  destruct (find _ (habits (db w))) as [h|] eqn:Fh.
  2:{ left. split; [|reflexivity]. intros Own.
      apply find_owned_iff in Own as (h & F). congruence. }
  right. split; [apply find_owned_iff; now exists h|].
  eexists. split; [reflexivity|]. split; [|apply orderByDateDesc_sorted].
  intros c. rewrite orderByDateDesc_In, filter_In. fold (ledger w).
  rewrite !andb_true_iff, String.eqb_eq. unfold within.
  split.
  - intros (Hin & (Eh & Es) & Ee). repeat split; auto.
    + intros s ->. now apply Z.leb_le.
    + intros e ->. apply Z.leb_le in Ee.
      pose proof (endOfDay_of_dateOnly tz e Htz (De e eq_refl)).
      apply dateOnly_le; [now apply Dl|exact (De e eq_refl)|lia].
  - intros (Hin & Eh & Ws & We). repeat split; auto.
    + destruct startDate as [s|]; [|reflexivity]. apply Z.leb_le. now apply Ws.
    + destruct endDate as [e|]; [|reflexivity]. apply Z.leb_le.
      pose proof (endOfDay_of_dateOnly tz e Htz (De e eq_refl)).
      specialize (We e eq_refl). lia.
Qed.
End LedgerFacts.

(* ------------------------------------------------------------------ *)
(** ** The ledger: deleting *)

Section LedgerDelete.

Lemma hc_ids_injective (rows : list HabitCompletion) a b :
  NoDup (map hc_id rows) -> In a rows -> In b rows -> hc_id a = hc_id b -> a = b.
Proof.
  intros N Ha Hb E.
  induction rows as [|x rows IH]; [contradiction|].
  cbn in N. apply NoDup_cons_iff in N as [Nx N].
  destruct Ha as [->|Ha], Hb as [->|Hb]; auto.
  - exfalso. apply Nx. rewrite E. now apply in_map.
  - exfalso. apply Nx. rewrite <- E. now apply in_map.
Qed.

Lemma filter_all {A} (f : A -> bool) l :
  (forall x, In x l -> f x = true) -> filter f l = l.
Proof.
  induction l as [|x l IH]; simpl; intros H; [reflexivity|].
  rewrite (H x (or_introl eq_refl)). f_equal. apply IH. auto.
Qed.

(** The outcomes of [deleteCompletion]. *)
Lemma deleteCompletion_run userId completionId w :
  deleteCompletion userId completionId w =
  match find (fun c => String.eqb (hc_id c) completionId) (ledger w) with
  | None => (Return false, w)
  | Some c =>
      match find (fun h => String.eqb (h_id h) (hc_habitId c)) (habits (db w)) with
      | None => (Throw (Error_ "Cannot read properties of null (reading 'userId')"), w)
      | Some h =>
          if String.eqb (h_userId h) userId
          then (Return true,
                mkWorld (mkDb (habits (db w))
                              (filter (fun c => negb (String.eqb (hc_id c) completionId))
                                      (ledger w))
                              (habitSkips (db w)) (notificationSubscriptions (db w))
                              (cuids (db w)))
                        (transport w) (deliveries w) (console w))
          else (Return false, w)
      end
  end.
Proof.
  unfold deleteCompletion, Prisma.habitCompletion_findUnique_id, ledger,
    getDb, ret, throw, bind.
  cbv beta iota.
  destruct (find _ (habitCompletions (db w))) as [c|] eqn:Fc; [|reflexivity].
  destruct (find _ (habits (db w))) as [h|] eqn:Fh; [|reflexivity].
  destruct (String.eqb (h_userId h) userId); cbn [negb]; [|reflexivity].
  unfold Prisma.habitCompletion_delete_id, getDb, putDb, ret, throw, bind.
  cbv beta iota. rewrite (find_some_existsb _ _ _ Fc). reflexivity.
Qed.

(** X24.  With unique ids and every completion attached to a habit,
    [deleteCompletion] never fails; it returns [true] exactly when the
    completion exists and its habit belongs to the caller, removes that
    completion and no other, and touches no other table. *)
Theorem deleteCompletion_authorization userId completionId w :
  NoDup (map h_id (habits (db w))) ->
  NoDup (map hc_id (ledger w)) ->
  completionsReferToHabits w ->
  exists r w',
    deleteCompletion userId completionId w = (Return r, w')
    /\ (r = true <->
        exists c, In c (ledger w) /\ hc_id c = completionId
                  /\ owns w userId (hc_habitId c))
    /\ (forall c, In c (ledger w') <->
                  In c (ledger w) /\ (r = true -> hc_id c <> completionId))
    /\ sameButLedger w w'.
Proof.
  intros Nh Nc FK. rewrite deleteCompletion_run.
  destruct (find _ (ledger w)) as [c|] eqn:Fc.
  - pose proof Fc as Fc'. apply find_some in Fc' as [Hin Ec].
    apply String.eqb_eq in Ec.
    destruct (find _ (habits (db w))) as [h|] eqn:Fh.
    + pose proof Fh as Fh'. apply find_some in Fh' as [Hh Eh].
      apply String.eqb_eq in Eh.
      destruct (String.eqb (h_userId h) userId) eqn:Eu.
      * apply String.eqb_eq in Eu. eexists. eexists. split; [reflexivity|].
        split; [split; [intros _|reflexivity]|].
        { exists c. repeat split; auto. now exists h. }
        split; [|unfold sameButLedger; cbn; auto].
        intros x. unfold ledger at 1. cbn [db habitCompletions].
        rewrite filter_In, negb_true_iff, String.eqb_neq. tauto.
      * apply String.eqb_neq in Eu. exists false, w. split; [reflexivity|].
        split.
        { split; [discriminate|]. intros (c' & Hin' & Ec' & (h' & Hh' & Eh' & Eu')).
          assert (c' = c) by (apply (hc_ids_injective (ledger w)); auto; congruence).
          subst c'.
          assert (h' = h) by (apply (habit_ids_injective (habits (db w))); auto; congruence).
          subst h'. contradiction. }
        split; [|unfold sameButLedger; auto].
        intros x. split; [|tauto]. intros H. split; [exact H|discriminate].
    + exfalso. destruct (FK c Hin) as (h & Hh & Eh).
      apply (find_none _ _ Fh) in Hh. rewrite Eh, String.eqb_refl in Hh. discriminate.
  - exists false, w. split; [reflexivity|]. split.
    + split; [discriminate|]. intros (c & Hin & Ec & _).
      apply (find_none _ _ Fc) in Hin. rewrite Ec, String.eqb_refl in Hin. discriminate.
    + split; [|unfold sameButLedger; auto].
      intros x. split; [|tauto]. intros H. split; [exact H|discriminate].
Qed.

(** X25.  A completion that has been created, under an id that was not in
    use, can be deleted by the same user, and the ledger is then what it was
    before the creation. *)
Theorem createCompletion_deleteCompletion_roundtrip userId habitId data w c w1 :
  NoDup (map h_id (habits (db w))) ->
  (forall x, In x (ledger w) -> hc_id x <> Prisma.cuid (cuids (db w))) ->
  createCompletion userId habitId data w = (Return c, w1) ->
  exists w2,
    deleteCompletion userId (hc_id c) w1 = (Return true, w2)
    /\ ledger w2 = ledger w
    /\ sameButLedger w w2.
Proof.
  intros Nh Fresh C. rewrite createCompletion_run in C.
  destruct (find _ (habits (db w))) as [h|] eqn:Fh; [|discriminate].
  destruct (find _ (ledger w)) as [c0|] eqn:Fc; [discriminate|].
  cbv zeta in C. injection C as <- <-.
  rewrite deleteCompletion_run. cbn [hc_id].
  unfold ledger at 1. cbn [db habitCompletions].
  assert (F0 : find (fun x => String.eqb (hc_id x) (Prisma.cuid (cuids (db w))))
                    (ledger w) = None).
  { destruct (find (fun x => String.eqb (hc_id x) (Prisma.cuid (cuids (db w))))
                   (ledger w)) as [x|] eqn:F; [|reflexivity].
    apply find_some in F as [Hin E]. apply String.eqb_eq in E.
    exfalso. exact (Fresh x Hin E). }
  rewrite (find_app_none _ _ _ F0). cbn [find hc_id]. rewrite String.eqb_refl.
  cbn [hc_habitId habits db].
  pose proof Fh as Fh'. apply find_some in Fh' as [Hh E].
  apply andb_true_iff in E as [E1 E2]. apply String.eqb_eq in E1, E2.
  assert (Fh2 : find (fun y => String.eqb (h_id y) habitId) (habits (db w)) = Some h).
  { destruct (find (fun y => String.eqb (h_id y) habitId) (habits (db w)))
      as [h'|] eqn:F.
    - apply find_some in F as [Hh' E']. apply String.eqb_eq in E'.
      f_equal. apply (habit_ids_injective (habits (db w))); auto. congruence.
    - apply (find_none _ _ F) in Hh. rewrite E1, String.eqb_refl in Hh. discriminate. }
  rewrite Fh2, E2, String.eqb_refl.
  eexists. split; [reflexivity|].
  unfold ledger at 1. cbn [db habitCompletions].
  unfold ledger at 1. cbn [db habitCompletions].
  rewrite filter_app. cbn [filter hc_id]. rewrite String.eqb_refl. cbn [negb].
  rewrite app_nil_r.
  assert (Ff : filter (fun x => negb (String.eqb (hc_id x) (Prisma.cuid (cuids (db w)))))
                      (ledger w) = ledger w).
  { apply filter_all. intros x Hin. apply negb_true_iff, String.eqb_neq.
    now apply Fresh. }
  fold (ledger w). rewrite Ff. split; [reflexivity|].
  unfold sameButLedger. cbn. auto.
Qed.
End LedgerDelete.

(* ------------------------------------------------------------------ *)
(** ** Skips *)

Section Skips.
Import SkipService.

(** The outcomes of [createSkip]. *)
Lemma createSkip_run userId habitId data w :
  createSkip userId habitId data w =
  match find (fun h => String.eqb (h_id h) habitId && String.eqb (h_userId h) userId)
             (habits (db w)) with
  | None => (Throw (Error_ "Habit not found or does not belong to user"), w)
  | Some _ =>
      match find (fun s => String.eqb (hs_habitId s) habitId
                           && (hs_date s =? si_date data)) (habitSkips (db w)) with
      | Some _ => (Throw (Error_ "Skip already exists for this date"), w)
      | None =>
          let s := mkSkip (Prisma.cuid (cuids (db w))) habitId (si_date data)
                          (si_reason data) in
          (Return s,
           mkWorld (mkDb (habits (db w)) (ledger w) (habitSkips (db w) ++ [s])
                         (notificationSubscriptions (db w)) (cuids (db w) + 1))
                   (transport w) (deliveries w) (console w))
      end
  end.
Proof.
  unfold createSkip, Prisma.habit_findFirst, Prisma.habitSkip_findUnique,
    ledger, getDb, ret, throw, bind.
  cbv beta iota.
  destruct (find _ (habits (db w))) as [h|] eqn:Fh; [|reflexivity].
  destruct (find _ (habitSkips (db w))) as [c|] eqn:Fc; [reflexivity|].
  unfold Prisma.habitSkip_create, getDb, putDb, ret, throw, bind.
  cbv beta iota zeta.
  rewrite (find_none_existsb _ _ Fc).
  assert (K : existsb (fun h => String.eqb (h_id h) habitId) (habits (db w)) = true).
  { apply find_some in Fh as [Hin E]. apply andb_true_iff in E as [E _].
    apply existsb_exists. now exists h. }
  rewrite K. reflexivity.
Qed.

(** X26.  For input whose date is a real calendar date, [createSkip] has
    three outcomes.  For a habit the caller does not
    own it throws 'Habit not found or does not belong to user'; for an owned
    habit with a skip on the date it throws 'Skip already exists for this
    date'; in both cases nothing changes.  Otherwise it appends one skip with
    the given data and touches no other table. *)
Theorem createSkip_outcomes userId habitId data w r w' :
  TimeWithinDay (si_date data) = 0 ->
  createSkip userId habitId data w = (r, w') ->
  (~ owns w userId habitId
   /\ r = Throw (Error_ "Habit not found or does not belong to user") /\ w' = w)
  \/ (owns w userId habitId
      /\ (exists s, In s (habitSkips (db w)) /\ hs_habitId s = habitId
                    /\ hs_date s = si_date data)
      /\ r = Throw (Error_ "Skip already exists for this date") /\ w' = w)
  \/ (owns w userId habitId
      /\ (forall s, In s (habitSkips (db w)) -> hs_habitId s = habitId ->
                    hs_date s <> si_date data)
      /\ (exists s, r = Return s /\ habitSkips (db w') = habitSkips (db w) ++ [s]
                    /\ hs_habitId s = habitId /\ hs_date s = si_date data
                    /\ hs_reason s = si_reason data)
      /\ sameButSkips w w').
Proof.
  intros _. rewrite createSkip_run.
  destruct (find _ (habits (db w))) as [h|] eqn:Fh.
  - assert (Own : owns w userId habitId) by (apply find_owned_iff; now exists h).
    destruct (find _ (habitSkips (db w))) as [s0|] eqn:Fc.
    + intros H. injection H as <- <-. right. left.
      apply find_some in Fc as [Hin E]. apply andb_true_iff in E as [E1 E2].
      apply String.eqb_eq in E1. apply Z.eqb_eq in E2.
      split; [exact Own|]. split; [now exists s0|]. auto.
    + cbv zeta. intros H. injection H as <- <-. right. right.
      split; [exact Own|]. split.
      { intros s Hin E1 E2. apply (find_none _ _ Fc) in Hin.
        rewrite E1, E2, String.eqb_refl, Z.eqb_refl in Hin. discriminate. }
      split; [eexists; split; [reflexivity|]; cbn; auto 10|].
      unfold sameButSkips. cbn. auto.
  - intros H. injection H as <- <-. left. split; [|auto].
    intros Own. apply find_owned_iff in Own as (h & F). congruence.
Qed.

(** X27.  Completions and skips do not exclude each other: on a free date
    an owner can complete a habit and then skip it, and both calls succeed.
    When that date is the local date of the call, on a host at a constant
    offset at or east of UTC (less than a day), the statistics of the habit
    then report a current streak of 0. *)
Theorem complete_then_skip (tz : Z) now userId habitId date duration notes reason w :
  owns w userId habitId ->
  (forall c, In c (ledger w) -> hc_habitId c = habitId -> hc_date c <> date) ->
  (forall s, In s (habitSkips (db w)) -> hs_habitId s = habitId -> hs_date s <> date) ->
  exists c s w1 w2,
    createCompletion userId habitId (mkInput date duration notes) w = (Return c, w1)
    /\ SkipService.createSkip userId habitId (mkSkipInput date reason) w1 = (Return s, w2)
    /\ ledger w2 = ledger w ++ [c] /\ hc_habitId c = habitId /\ hc_date c = date
    /\ habitSkips (db w2) = habitSkips (db w) ++ [s]
    /\ hs_habitId s = habitId /\ hs_date s = date
    /\ (0 <= tz < msPerDay -> TimeWithinDay date = 0 ->
        Day date = localDay tz now ->
        exists st,
          AnalyticsService.getHabitStatistics (fixedOffset tz) now userId habitId w2
          = (Return (Some st), w2)
          /\ currentStreak st = Some 0).
Proof.
  intros Own Fc Fs.
  pose proof Own as Own'. apply find_owned_iff in Own' as (h & Fh).
  assert (Hc : find (fun c => String.eqb (hc_habitId c) habitId && (hc_date c =? date))
                    (ledger w) = None).
  { destruct (find (fun c => String.eqb (hc_habitId c) habitId && (hc_date c =? date))
                   (ledger w)) as [c|] eqn:F; [|reflexivity].
    apply find_some in F as [Hin E]. apply andb_true_iff in E as [E1 E2].
    apply String.eqb_eq in E1. apply Z.eqb_eq in E2. exfalso. exact (Fc c Hin E1 E2). }
  assert (Hs : find (fun s => String.eqb (hs_habitId s) habitId && (hs_date s =? date))
                    (habitSkips (db w)) = None).
  { destruct (find (fun s => String.eqb (hs_habitId s) habitId && (hs_date s =? date))
                   (habitSkips (db w))) as [s|] eqn:F; [|reflexivity].
    apply find_some in F as [Hin E]. apply andb_true_iff in E as [E1 E2].
    apply String.eqb_eq in E1. apply Z.eqb_eq in E2. exfalso. exact (Fs s Hin E1 E2). }
  rewrite createCompletion_run, Fh. cbn [ci_date ci_duration ci_notes].
  rewrite Hc. cbv zeta.
  eexists. eexists. eexists. eexists. split; [reflexivity|].
  rewrite createSkip_run. cbn [habits db habitSkips si_date si_reason].
  rewrite Fh, Hs. cbv zeta. split; [reflexivity|].
  cbn [ledger db habitCompletions habitSkips hc_habitId hc_date hs_habitId hs_date cuids].
  unfold ledger at 1. cbn [db habitCompletions].
  do 6 (split; [reflexivity|]).
  intros Htz Hdate Hday.
  assert (Today : localDay tz date = localDay tz now).
  { rewrite (localDay_of_date tz ltac:(lia) date Hdate), <- Hday.
    unfold westShift. destruct (Z.ltb_spec tz 0); lia. }
  unfold AnalyticsService.getHabitStatistics, Prisma.habit_findFirst_with_ledger,
    getDb, ret, bind.
  cbv beta iota. cbn [db habits habitCompletions habitSkips]. rewrite Fh.
  eexists. split; [reflexivity|].
  unfold habitStatistics. cbn [currentStreak].
  apply calculateStreak_streakOf. unfold streakOf.
  split; [lia|]. split; [intros i Hi; lia|]. left.
  rewrite Z.sub_0_r.
  exists (mkSkip (Prisma.cuid (cuids (db w) + 1)) habitId date reason).
  split; [|exact Today].
  apply filter_In. split; [apply in_app_iff; right; left; reflexivity|].
  cbn [hs_habitId]. apply find_some in Fh as [_ E].
  apply andb_true_iff in E as [E _]. apply String.eqb_eq in E. rewrite E.
  apply String.eqb_refl.
Qed.
End Skips.

(* ------------------------------------------------------------------ *)
(** ** Statistics *)

Section Statistics.

(** X7.  On a host whose zone keeps one offset from UTC (no
    daylight-saving time): [getHabitStatistics] reads and never writes; it
    returns [null] exactly when the caller does not own the habit; otherwise
    the statistics are those of the completions and skips stored for this
    habit, with [0 <= currentStreak <= longestStreak <= totalCompletions]. *)
Theorem getHabitStatistics_consistent (tz : Z) now userId habitId w :
  exists r,
    AnalyticsService.getHabitStatistics (fixedOffset tz) now userId habitId w
    = (Return r, w)
    /\ (r = None <-> ~ owns w userId habitId)
    /\ (forall st, r = Some st ->
          st = habitStatistics (fixedOffset tz) (completionsOf w habitId)
                               (skipsOf w habitId) now
          /\ exists n, currentStreak st = Some n
                       /\ 0 <= n <= longestStreak st
                       /\ longestStreak st <= totalCompletions st).
Proof.
  unfold AnalyticsService.getHabitStatistics, Prisma.habit_findFirst_with_ledger,
    getDb, ret, bind.
  cbv beta iota.
  destruct (find _ (habits (db w))) as [h|] eqn:Fh.
  - eexists. split; [reflexivity|].
    assert (Own : owns w userId habitId) by (apply find_owned_iff; now exists h).
    split; [split; [discriminate|intros N; contradiction]|].
    intros st E. injection E as <-.
    apply find_some in Fh as [_ E]. apply andb_true_iff in E as [E _].
    apply String.eqb_eq in E. rewrite E.
    fold (ledger w). fold (completionsOf w habitId). fold (skipsOf w habitId).
    split; [reflexivity|].
    unfold habitStatistics. cbn [currentStreak longestStreak totalCompletions].
    set (cs := completionsOf w habitId). set (ss := skipsOf w habitId).
    destruct (calculateStreak_terminates tz cs ss now) as [n En].
    exists n. split; [exact En|].
    destruct (calculateStreak_sound _ _ _ _ _ En) as (H0 & Hall & _).
    destruct (calculateLongestStreak_spec tz cs ss) as [[d Hd] Hmax].
    split; [split; [exact H0|]|].
    + apply (Hmax (localDay tz now - n + 1)).
      intros i Hi. destruct (Hall (n - 1 - i) ltac:(lia)) as [C _].
      replace (localDay tz now - n + 1 + i) with (localDay tz now - (n - 1 - i)) by lia.
      exact C.
    + apply (run_le_length tz cs d); [|exact Hd].
      apply (Hmax 0 0). intros i Hi. lia.
  - exists None. split; [reflexivity|]. split; [|discriminate].
    split; [|reflexivity]. intros _ Own. apply find_owned_iff in Own as (h & F).
    congruence.
Qed.

Lemma attempts_test (cs : list HabitCompletion) (ss : list HabitSkip) :
  (0 <? Z.of_nat (List.length cs) + Z.of_nat (List.length ss))
  = negb ((List.length cs + List.length ss)%nat =? 0)%nat.
Proof.
  destruct (Nat.eqb_spec (List.length cs + List.length ss)%nat 0%nat) as [e|e];
    cbn [negb]; [apply Z.ltb_ge|apply Z.ltb_lt]; lia.
Qed.

Lemma userStep_fields acc x :
  AnalyticsService.ut_totalCompletions (AnalyticsService.userStep acc x)
  = AnalyticsService.ut_totalCompletions acc + Z.of_nat (List.length (snd (fst x)))
  /\ AnalyticsService.ut_totalSkips (AnalyticsService.userStep acc x)
     = AnalyticsService.ut_totalSkips acc + Z.of_nat (List.length (snd x))
  /\ AnalyticsService.ut_totalTime (AnalyticsService.userStep acc x)
     = AnalyticsService.ut_totalTime acc
       + fold_left (fun sum c => sum + match hc_duration c with
                                       | Some d => d
                                       | None => 0
                                       end) (snd (fst x)) 0.
Proof.
  destruct x as [[h cs] ss]. unfold AnalyticsService.userStep. cbv zeta.
  destruct (0 <? _); cbn; auto.
Qed.

Lemma userStep_totals habits : forall acc,
  let acc' := fold_left AnalyticsService.userStep habits acc in
  AnalyticsService.ut_totalCompletions acc'
  = AnalyticsService.ut_totalCompletions acc
    + sumZ (map (fun x => Z.of_nat (List.length (snd (fst x)))) habits)
  /\ AnalyticsService.ut_totalSkips acc'
     = AnalyticsService.ut_totalSkips acc
       + sumZ (map (fun x => Z.of_nat (List.length (snd x))) habits)
  /\ AnalyticsService.ut_totalTime acc'
     = AnalyticsService.ut_totalTime acc
       + sumZ (map (fun x => fold_left (fun sum c => sum + match hc_duration c with
                                                          | Some d => d
                                                          | None => 0
                                                          end) (snd (fst x)) 0) habits).
Proof.
  unfold sumZ.
  induction habits as [|x habits IH]; intros acc; cbv zeta.
  - cbn. repeat split; lia.
  - cbn [fold_left map fold_right].
    destruct (IH (AnalyticsService.userStep acc x)) as (E1 & E2 & E3).
    cbv zeta in E1, E2, E3. rewrite E1, E2, E3.
    destruct (userStep_fields acc x) as (F1 & F2 & F3). rewrite F1, F2, F3.
    repeat split; lia.
Qed.

Lemma userStep_rates_congr habits : forall a b,
  AnalyticsService.ut_completionRates a = AnalyticsService.ut_completionRates b ->
  AnalyticsService.ut_completionRates (fold_left AnalyticsService.userStep habits a)
  = AnalyticsService.ut_completionRates (fold_left AnalyticsService.userStep habits b).
Proof.
  induction habits as [|[[h cs] ss] habits IH]; intros a b E; [exact E|].
  cbn [fold_left]. apply IH. unfold AnalyticsService.userStep. cbv zeta.
  destruct (0 <? _); cbn [AnalyticsService.ut_completionRates]; now rewrite E.
Qed.

Lemma userStep_rates_filter habits : forall acc,
  AnalyticsService.ut_completionRates (fold_left AnalyticsService.userStep habits acc)
  = AnalyticsService.ut_completionRates
      (fold_left AnalyticsService.userStep (filter hasAttempts habits) acc).
Proof.
  induction habits as [|[[h cs] ss] habits IH]; intros acc; [reflexivity|].
  cbn [fold_left filter]. rewrite IH.
  destruct (hasAttempts (h, cs, ss)) eqn:B; [reflexivity|].
  apply userStep_rates_congr.
  unfold AnalyticsService.userStep. cbv zeta. rewrite attempts_test.
  unfold hasAttempts in B. rewrite B. reflexivity.
Qed.

(** X8.  [getUserStatistics] reads and never writes, and its totals are the
    sums of what [getHabitStatistics] reports for each habit of the user:
    the number of habits, the completions, the skips and the minutes. *)
Theorem getUserStatistics_totals (tz : Z) now userId w :
  NoDup (map h_id (habits (db w))) ->
  exists st per,
    AnalyticsService.getUserStatistics userId w = (Return st, w)
    /\ Forall2 (fun h s =>
                  AnalyticsService.getHabitStatistics tz now userId (h_id h) w
                  = (Return (Some s), w))
               (habitsOf w userId) per
    /\ AnalyticsService.us_totalHabits st = Z.of_nat (List.length per)
    /\ AnalyticsService.us_totalCompletions st = sumZ (map totalCompletions per)
    /\ AnalyticsService.us_totalSkips st = sumZ (map totalSkips per)
    /\ AnalyticsService.us_totalTime st = sumZ (map totalTime per).
Proof.
  intros N.
  unfold AnalyticsService.getUserStatistics, Prisma.habit_findMany_with_ledger,
    getDb, ret, bind.
  cbv beta iota. fold (habitsOf w userId).
  eexists.
  exists (map (fun h => habitStatistics tz (completionsOf w (h_id h))
                                        (skipsOf w (h_id h)) now)
              (habitsOf w userId)).
  split; [reflexivity|]. split.
  - assert (Sub : forall h, In h (habitsOf w userId) ->
                            In h (habits (db w)) /\ h_userId h = userId).
    { intros h Hin. apply filter_In in Hin as [Hin E].
      apply String.eqb_eq in E. auto. }
    induction (habitsOf w userId) as [|h l IH]; [constructor|].
    cbn [map]. constructor; [|apply IH; intros x Hx; apply Sub; now right].
    destruct (Sub h (or_introl eq_refl)) as [Hin Eu].
    unfold AnalyticsService.getHabitStatistics, Prisma.habit_findFirst_with_ledger,
      getDb, ret, bind.
    cbv beta iota.
    destruct (find _ (habits (db w))) as [h'|] eqn:F.
    + apply find_some in F as [Hin' E]. apply andb_true_iff in E as [E _].
      apply String.eqb_eq in E.
      assert (h' = h) by (apply (habit_ids_injective (habits (db w))); auto).
      subst h'. reflexivity.
    + apply (find_none _ _ F) in Hin. rewrite Eu, !String.eqb_refl in Hin.
      discriminate.
  - unfold AnalyticsService.userStatistics. cbv zeta.
    cbn [AnalyticsService.us_totalHabits AnalyticsService.us_totalCompletions
         AnalyticsService.us_totalSkips AnalyticsService.us_totalTime].
    match goal with
    | |- context [fold_left AnalyticsService.userStep ?l ?a] =>
        destruct (userStep_totals l a) as (E1 & E2 & E3)
    end.
    cbv zeta in E1, E2, E3. rewrite E1, E2, E3.
    cbn [AnalyticsService.ut_totalCompletions AnalyticsService.ut_totalSkips
         AnalyticsService.ut_totalTime].
    rewrite !length_map, !map_map. cbn [fst snd]. unfold habitStatistics.
    cbn [totalCompletions totalSkips totalTime].
    fold (ledger w). repeat split; reflexivity.
Qed.

(** X9.  Habits without any completion or skip do not enter the average
    completion rate of [getUserStatistics]: the average is that of the
    habits with attempts, and 0 when there is none. *)
Theorem averageCompletionRate_ignores_idle_habits
        (habits : list (Habit * list HabitCompletion * list HabitSkip)) :
  AnalyticsService.us_averageCompletionRate (AnalyticsService.userStatistics habits)
  = AnalyticsService.us_averageCompletionRate
      (AnalyticsService.userStatistics (filter hasAttempts habits))
  /\ (filter hasAttempts habits = [] ->
      AnalyticsService.us_averageCompletionRate (AnalyticsService.userStatistics habits)
      = 0%float).
Proof.
  assert (E : AnalyticsService.us_averageCompletionRate
                (AnalyticsService.userStatistics habits)
              = AnalyticsService.us_averageCompletionRate
                  (AnalyticsService.userStatistics (filter hasAttempts habits))).
  { unfold AnalyticsService.userStatistics. cbv zeta.
    cbn [AnalyticsService.us_averageCompletionRate].
    now rewrite (userStep_rates_filter habits). }
  split; [exact E|]. intros F. rewrite E, F. vm_compute. reflexivity.
Qed.

Lemma rateExtremes_all :
  allRange (fun tc => allRange (fun ts => rateExtremes tc ts) 9 0) 9 0 = true.
Proof. vm_cast_no_check (eq_refl true). Qed.

(** X6.  For up to 511 completions and 511 skips the completion rate lies
    between 0 and 100, is 0 exactly when there is no completion, and is 100
    exactly when there is a completion and no skip. *)
Theorem completionRate_extremes tc ts :
  0 <= tc < 512 -> 0 <= ts < 512 ->
  let r := completionRateOf tc ts in
  PrimFloat.leb 0 r = true /\ PrimFloat.leb r 100 = true
  /\ (PrimFloat.eqb r 0 = true <-> tc = 0)
  /\ (PrimFloat.eqb r 100 = true <-> 0 < tc /\ ts = 0).
Proof.
  intros Hc Hs r.
  pose proof (allRange_spec _ _ _ rateExtremes_all tc) as C.
  change (2 ^ Z.of_nat 9) with 512 in C. specialize (C ltac:(lia)).
  cbv beta in C.
  pose proof (allRange_spec _ _ _ C ts) as C'.
  change (2 ^ Z.of_nat 9) with 512 in C'. specialize (C' ltac:(lia)).
  unfold rateExtremes in C'. cbv zeta in C'. fold r in C'.
  apply andb_true_iff in C' as [C1 C4]. apply andb_true_iff in C1 as [C1 C3].
  apply andb_true_iff in C1 as [C1 C2].
  apply Bool.eqb_prop in C3, C4.
  split; [exact C1|]. split; [exact C2|]. split.
  - rewrite C3. apply Z.eqb_eq.
  - rewrite C4, andb_true_iff, Z.ltb_lt, Z.eqb_eq. reflexivity.
Qed.

(** X5.  The day key [YYYY-MM-DD] of [calculateStreak] and the
    [startOfDay] behind the 'completed today' window of the reminders agree
    on what a day is: two instants have the same key exactly when they have
    the same start of day. *)
Theorem dateStr_same_day (tz : Z) t1 t2 :
  dateStr tz t1 = dateStr tz t2 <-> startOfDay tz t1 = startOfDay tz t2.
Proof.
  rewrite dateStr_localDay. unfold startOfDay. rewrite !setHours_midnight.
  unfold msPerDay. split; [intros ->; reflexivity|lia].
Qed.
End Statistics.

(* ------------------------------------------------------------------ *)
(** ** Instances of the further properties *)

Lemma streaks_depend_on_days_witness :
  calculateStreak 0 [completionOn 2024 1 5] [] sevenAM
  = calculateStreak 0 [completionOn 2024 1 5; completionOn 2024 1 5] [] sevenAM
  /\ calculateLongestStreak 0 [completionOn 2024 1 5] []
     = calculateLongestStreak 0 [completionOn 2024 1 5; completionOn 2024 1 5] [].
Proof.
  apply (streaks_depend_on_days 0 [completionOn 2024 1 5]
           [completionOn 2024 1 5; completionOn 2024 1 5] [] [] sevenAM).
  - intros d. split; intros (c & Hin & E); exists c; simpl in *; tauto.
  - intros d. tauto.
Defined.

Lemma completionRate_extremes_witness :
  PrimFloat.leb 0 (completionRateOf 3 1) = true
  /\ PrimFloat.leb (completionRateOf 3 1) 100 = true
  /\ (PrimFloat.eqb (completionRateOf 3 1) 0 = true <-> 3 = 0)
  /\ (PrimFloat.eqb (completionRateOf 3 1) 100 = true <-> 0 < 3 /\ 1 = 0).
Proof. apply (completionRate_extremes 3 1); lia. Defined.

Lemma getUserStatistics_totals_witness :
  exists st per,
    AnalyticsService.getUserStatistics "user-1" completedWorld = (Return st, completedWorld)
    /\ AnalyticsService.us_totalHabits st = Z.of_nat (List.length per)
    /\ AnalyticsService.us_totalCompletions st = sumZ (map totalCompletions per).
Proof.
  destruct (getUserStatistics_totals 0 sevenAM "user-1" completedWorld)
    as (st & per & R & _ & H & C & _).
  - distinct_strings.
  - exists st, per. split; [exact R|]. split; [exact H|exact C].
Defined.

Lemma checkAndSendReminders_same_minute_witness :
  checkAndSendReminders 0 sevenAM sampleWorld
  = checkAndSendReminders 0 (sevenAM + 29000) sampleWorld.
Proof.
  apply (checkAndSendReminders_same_minute 0 sevenAM (sevenAM + 29000) sampleWorld).
  vm_compute. reflexivity.
Defined.

Lemma checkAndSendReminders_only_prunes_witness :
  exists w' new,
    checkAndSendReminders 0 sevenAM sampleWorld = (Return tt, w')
    /\ deliveries w' = deliveries sampleWorld ++ new
    /\ habits (db w') = habits (db sampleWorld).
Proof.
  destruct (checkAndSendReminders_only_prunes 0 sevenAM sampleWorld)
    as (w' & new & R & D & H & _).
  - distinct_strings.
  - exists w', new. split; [exact R|]. split; [exact D|exact H].
Defined.

Lemma checkAndSendReminders_at_most_once_witness :
  exists w' new,
    checkAndSendReminders 0 sevenAM sampleWorld = (Return tt, w')
    /\ deliveries w' = deliveries sampleWorld ++ new
    /\ NoDup (map (fun d => endpoint (d_subscription d)) new).
Proof.
  apply (checkAndSendReminders_at_most_once 0 sevenAM sampleWorld);
    distinct_strings.
Defined.

Lemma createOrUpdateSubscription_registers_witness :
  exists s,
    registeredTo
      (snd (createOrUpdateSubscription "user-2" "https://push.example/n"
              (mkKeys "p" "a") None sampleWorld))
      "https://push.example/n" = Some s
    /\ subscribedRow s "user-2" "https://push.example/n" (mkKeys "p" "a") None.
Proof.
  destruct (createOrUpdateSubscription_registers "user-2" "https://push.example/n"
              (mkKeys "p" "a") None sampleWorld false
              (snd (createOrUpdateSubscription "user-2" "https://push.example/n"
                      (mkKeys "p" "a") None sampleWorld)))
    as ((s & F & Row & _) & _).
  - vm_compute. reflexivity.
  - exists s. split; [exact F|exact Row].
Defined.

Lemma createOrUpdateSubscription_idempotent_witness :
  createOrUpdateSubscription "user-2" "https://push.example/n" (mkKeys "p" "a") None
    (snd (createOrUpdateSubscription "user-2" "https://push.example/n"
            (mkKeys "p" "a") None sampleWorld))
  = (Return true,
     snd (createOrUpdateSubscription "user-2" "https://push.example/n"
            (mkKeys "p" "a") None sampleWorld)).
Proof.
  apply (createOrUpdateSubscription_idempotent "user-2" "https://push.example/n"
           (mkKeys "p" "a") None sampleWorld false).
  vm_compute. reflexivity.
Defined.

Lemma subscribe_unsubscribe_roundtrip_witness :
  exists w1 w2,
    createOrUpdateSubscription "user-2" "https://push.example/n" (mkKeys "p" "a")
                               (Some "habit-2"%string) sampleWorld
    = (Return false, w1)
    /\ deleteSubscription "user-2" "https://push.example/n" w1 = (Return true, w2)
    /\ registry w2 = registry sampleWorld.
Proof.
  destruct (subscribe_unsubscribe_roundtrip "user-2" "https://push.example/n"
              (mkKeys "p" "a") (Some "habit-2"%string) sampleWorld)
    as (w1 & w2 & C & D & R & _).
  - reflexivity.
  - reflexivity.
  - exists w1, w2. split; [exact C|]. split; [exact D|exact R].
Defined.

Lemma createOrUpdateSubscription_isolation_witness :
  NoDup (map ns_endpoint
           (registry (snd (createOrUpdateSubscription "user-1" "https://push.example/a"
                             (mkKeys "p2" "a2") None sampleWorld)))).
Proof.
  destruct (createOrUpdateSubscription_isolation "user-1" "https://push.example/a"
              (mkKeys "p2" "a2") None sampleWorld
              (fst (createOrUpdateSubscription "user-1" "https://push.example/a"
                      (mkKeys "p2" "a2") None sampleWorld))
              (snd (createOrUpdateSubscription "user-1" "https://push.example/a"
                      (mkKeys "p2" "a2") None sampleWorld)))
    as (N & _).
  - distinct_strings.
  - apply surjective_pairing.
  - exact N.
Defined.

Lemma deleteSubscription_footprint_witness :
  registeredTo (snd (deleteSubscription "user-1" "https://push.example/a" sampleWorld))
               "https://push.example/a" = None.
Proof.
  destruct (deleteSubscription_footprint "user-1" "https://push.example/a" sampleWorld
              (Return true)
              (snd (deleteSubscription "user-1" "https://push.example/a" sampleWorld)))
    as (_ & N & _).
  - vm_compute. reflexivity.
  - apply N. reflexivity.
Defined.

Lemma subscribe_conflict_is_409_witness :
  subscribe takeoverRequest sampleWorld
  = (Return (mkResponse 409 (Some "Conflict"%string)
               (Some "Endpoint already subscribed by another user"%string)),
     sampleWorld).
Proof.
  apply (subscribe_conflict_is_409 takeoverRequest "user-2" "https://push.example/a"
           (mkKeys "p" "a") sampleWorld subA).
  - unfold wellFormed. simpl. repeat split; discriminate.
  - intros H. discriminate H.
  - reflexivity.
  - discriminate.
Defined.

Lemma subscribe_foreign_habit_witness :
  subscribe foreignHabitRequest sampleWorld
  = (Return (mkResponse 404 (Some "Not Found"%string)
               (Some "Habit not found or does not belong to user"%string)),
     sampleWorld).
Proof.
  apply (subscribe_foreign_habit foreignHabitRequest "user-2" "https://push.example/n"
           (mkKeys "p" "a") "habit-1" sampleWorld).
  - unfold wellFormed. simpl. repeat split; discriminate.
  - reflexivity.
  - discriminate.
  - intros h [<-|[<-|[]]]; discriminate.
Defined.

Lemma createCompletion_outcomes_witness :
  ~ owns sampleWorld "user-2" "habit-1"
  /\ createCompletion "user-2" "habit-1" (mkInput (utcDate 2024 1 5) None None)
                      sampleWorld
     = (Throw (Error_ "Habit not found or does not belong to user"), sampleWorld).
Proof.
  destruct (createCompletion_outcomes "user-2" "habit-1"
              (mkInput (utcDate 2024 1 5) None None) sampleWorld
              (Throw (Error_ "Habit not found or does not belong to user"))
              sampleWorld) as [(N & _)|[(O & _)|(O & _)]].
  - reflexivity.
  - vm_compute. reflexivity.
  - split; [exact N|vm_compute; reflexivity].
  - exfalso. destruct O as (h & [<-|[<-|[]]] & _ & E); discriminate E.
  - exfalso. destruct O as (h & [<-|[<-|[]]] & _ & E); discriminate E.
Defined.

Lemma getCompletions_range_witness :
  exists l,
    getCompletions 0 "user-1" "habit-1" (Some (utcDate 2024 1 1))
                   (Some (utcDate 2024 1 5)) completedWorld
    = (Return l, completedWorld)
    /\ In (completionOn 2024 1 5) l.
Proof.
  destruct (getCompletions_range 0 "user-1" "habit-1" (Some (utcDate 2024 1 1))
              (Some (utcDate 2024 1 5)) completedWorld)
    as [(N & _)|(_ & l & R & I & _)].
  - unfold msPerDay. lia.
  - intros t E. injection E as <-. reflexivity.
  - intros t E. injection E as <-. reflexivity.
  - intros c [<-|[]]. reflexivity.
  - exfalso. apply N. exists habit1. simpl. auto.
  - exists l. split; [exact R|]. apply I.
    split; [simpl; auto|]. split; [reflexivity|].
    split; intros t E; injection E as <-; vm_compute; discriminate.
Defined.

Lemma deleteCompletion_authorization_witness :
  exists r w',
    deleteCompletion "user-1" "c-5" completedWorld = (Return r, w')
    /\ (r = true <->
        exists c, In c (ledger completedWorld) /\ hc_id c = "c-5"%string
                  /\ owns completedWorld "user-1" (hc_habitId c)).
Proof.
  destruct (deleteCompletion_authorization "user-1" "c-5" completedWorld)
    as (r & w' & R & A & _).
  - distinct_strings.
  - distinct_strings.
  - intros c [<-|[]]. exists habit1. simpl. auto.
  - exists r, w'. split; [exact R|exact A].
Defined.

Lemma createCompletion_deleteCompletion_roundtrip_witness :
  exists w2,
    deleteCompletion "user-1" "c0"
      (snd (createCompletion "user-1" "habit-1"
              (mkInput (utcDate 2024 1 5) (Some 30) None) sampleWorld))
    = (Return true, w2)
    /\ ledger w2 = ledger sampleWorld.
Proof.
  destruct (createCompletion_deleteCompletion_roundtrip "user-1" "habit-1"
              (mkInput (utcDate 2024 1 5) (Some 30) None) sampleWorld
              (mkCompletion "c0" "habit-1" (utcDate 2024 1 5) (Some 30) None)
              (snd (createCompletion "user-1" "habit-1"
                      (mkInput (utcDate 2024 1 5) (Some 30) None) sampleWorld)))
    as (w2 & D & L & _).
  - distinct_strings.
  - intros x [].
  - vm_compute. reflexivity.
  - exists w2. split; [exact D|exact L].
Defined.

Lemma createSkip_outcomes_witness :
  exists s,
    SkipService.createSkip "user-1" "habit-1" (mkSkipInput (utcDate 2024 1 5) None)
                           sampleWorld
    = (Return s,
       snd (SkipService.createSkip "user-1" "habit-1"
              (mkSkipInput (utcDate 2024 1 5) None) sampleWorld))
    /\ hs_habitId s = "habit-1"%string.
Proof.
  destruct (createSkip_outcomes "user-1" "habit-1" (mkSkipInput (utcDate 2024 1 5) None)
              sampleWorld
              (fst (SkipService.createSkip "user-1" "habit-1"
                      (mkSkipInput (utcDate 2024 1 5) None) sampleWorld))
              (snd (SkipService.createSkip "user-1" "habit-1"
                      (mkSkipInput (utcDate 2024 1 5) None) sampleWorld)))
    as [(N & _)|[(_ & (s & [] & _) & _)|(_ & _ & (s & R & _ & H & _) & _)]].
  - reflexivity.
  - apply surjective_pairing.
  - exfalso. apply N. exists habit1. simpl. auto.
  - exists s. split; [|exact H].
    rewrite <- R. apply surjective_pairing.
Defined.

Lemma complete_then_skip_witness :
  exists c s w1 w2,
    createCompletion "user-1" "habit-1" (mkInput (utcDate 2024 1 5) None None)
                     sampleWorld = (Return c, w1)
    /\ SkipService.createSkip "user-1" "habit-1"
         (mkSkipInput (utcDate 2024 1 5) None) w1 = (Return s, w2)
    /\ exists st,
         AnalyticsService.getHabitStatistics 0 sevenAM "user-1" "habit-1" w2
         = (Return (Some st), w2)
         /\ currentStreak st = Some 0.
Proof.
  destruct (complete_then_skip 0 sevenAM "user-1" "habit-1" (utcDate 2024 1 5)
              None None None sampleWorld)
    as (c & s & w1 & w2 & C & S & _ & _ & _ & _ & _ & _ & T).
  - exists habit1. simpl. auto.
  - intros c [].
  - intros s [].
  - exists c, s, w1, w2. split; [exact C|]. split; [exact S|].
    apply T; [unfold msPerDay; lia|reflexivity|reflexivity].
Defined.

Lemma checkAndSendReminders_matcher_witness :
  (exists d,
     In d (deliveries (snd (checkAndSendReminders 0 sevenAM sampleWorld)))
     /\ d_subscription d = pushOf subB /\ d_payload d = reminderPayload habit1)
  /\ (forall d,
        In d (deliveries (snd (checkAndSendReminders 0 sevenAM completedWorld))) ->
        habitId (d_payload d) <> h_id habit1).
Proof.
  assert (Hz : - msPerDay < 0 < msPerDay) by (unfold msPerDay; lia).
  split.
  - destruct (checkAndSendReminders_matcher 0 sevenAM sampleWorld Hz)
      as (w' & new & R & D & H); [distinct_strings|distinct_strings|].
    destruct (H habit1 ltac:(simpl; auto)) as (_ & Send & _).
    destruct (Send ltac:(vm_compute; reflexivity)) with (s := subB)
      as (d & Hd & E1 & E2).
    + intros (c & [] & _).
    + simpl. auto.
    + reflexivity.
    + exists d. rewrite R. cbn [snd]. rewrite D. split; [|auto].
      apply in_or_app. now right.
  - destruct (checkAndSendReminders_matcher 0 sevenAM completedWorld Hz)
      as (w' & new & R & D & H); [distinct_strings|distinct_strings|].
    destruct (H habit1 ltac:(simpl; auto)) as (Quiet & _ & _).
    intros d Hd. rewrite R in Hd. cbn [snd] in Hd. rewrite D in Hd.
    apply (Quiet ltac:(vm_compute; reflexivity)).
    + exists (completionOn 2024 1 5). split; [simpl; auto|].
      split; vm_compute; reflexivity.
    + exact Hd.
Defined.

Lemma calculateStreak_on_dates_witness :
  streakOnDates [completionOn 2024 1 4; completionOn 2024 1 5] []
                (localDay (hours 5) sevenAM + westShift (hours 5)) 2.
Proof.
  assert (Hz : - msPerDay < hours 5 < msPerDay) by (unfold msPerDay, hours; lia).
  destruct (calculateStreak_on_dates (hours 5) Hz
              [completionOn 2024 1 4; completionOn 2024 1 5] [] sevenAM)
    as (_ & W & _).
  - intros c [<-|[<-|[]]]; reflexivity.
  - intros s [].
  - apply W. vm_compute. reflexivity.
Defined.

Lemma calculateLongestStreak_on_dates_witness :
  exists d, isRun (datedOn (map (completionOn 2024 1) [4; 5; 7])) d 2.
Proof.
  assert (Hz : - msPerDay < hours 5 < msPerDay) by (unfold msPerDay, hours; lia).
  destruct (calculateLongestStreak_on_dates (hours 5) Hz
              (map (completionOn 2024 1) [4; 5; 7]) [])
    as (R & _ & _).
  - intros c [<-|[<-|[<-|[]]]]; reflexivity.
  - assert (E : calculateLongestStreak (fixedOffset (hours 5))
                  (map (completionOn 2024 1) [4; 5; 7]) [] = 2)
      by (vm_compute; reflexivity).
    rewrite E in R. exact R.
Defined.

Lemma calculateStreak_today_witness :
  calculateStreak (fixedOffset (hours 5))
                  [completionOn 2024 1 4; completionOn 2024 1 5] [] sevenAM
  = Some (1 + 1).
Proof.
  assert (Hz : - msPerDay < hours 5 < msPerDay) by (unfold msPerDay, hours; lia).
  destruct (calculateStreak_today (hours 5) Hz
              [completionOn 2024 1 4; completionOn 2024 1 5] [] sevenAM)
    as (_ & Step).
  - intros c [<-|[<-|[]]]; reflexivity.
  - intros s [].
  - apply Step.
    + exists (completionOn 2024 1 5). split; [simpl; auto|vm_compute; reflexivity].
    + intros (s & [] & _).
    + vm_compute. reflexivity.
Defined.
